(** * Destress2Impress: the breathing classifier and the breathing-driven game

    A shallow embedding of [breathing_detector.py] (class [BreathingDetector])
    and [flappy_bird_game.py] (class [FlappyBirdGame]), with the wiring of
    [server.py] that forwards classifier events into the game and the
    calibration loader of [config.py] (class [CalibrationManager]).

    Modelling conventions.
    - Python floats are idealised as exact rationals ([Q]); the samples handed
      to the calibrator keep the non-finite values ([PyFloat.t]) because the
      code filters on them.  Python ints are [Z], converted with [inject_Z]
      where Python would promote them.
    - [time.time()] is an explicit argument [now] of every method that reads
      the clock; [random.randint] draws from an explicit tape ([Rng.t]).
    - Methods run under the object's lock, so each one is a function from
      the object's state to its next state. *)

From Stdlib Require Import ZArith QArith Lqa Lia List Bool String Sorted.
Import ListNotations.

Open Scope Q_scope.

(** ** Python's numeric built-ins on rationals *)

Module Py.

(** [a < b] as Python evaluates it on numbers. *)
Definition ltb (a b : Q) : bool := negb (Qle_bool b a).

(** [max(a, b)]: the first argument is kept unless the second is larger. *)
Definition max (a b : Q) : Q := if ltb a b then b else a.

(** [min(a, b)]: the first argument is kept unless the second is smaller. *)
Definition min (a b : Q) : Q := if ltb b a then b else a.

(** [abs(a)]. *)
Definition abs (a : Q) : Q := if ltb a 0 then - a else a.

End Py.

(** ** Floats that may be non-finite *)

Module PyFloat.

(** A float as the calibrator and the classifier receive it: a finite
    value, an infinity, or NaN. *)
Inductive t :=
| Fin (q : Q)
| PInf
| NInf
| NaN.

(** [np.isfinite(v)]. *)
Definition isfinite (v : t) : bool :=
  match v with Fin _ => true | _ => false end.

(** [v >= 0]. *)
Definition ge0 (v : t) : bool :=
  match v with
  | Fin q => Qle_bool 0 q
  | PInf => true
  | NInf | NaN => false
  end.

(** [v > q] for a finite [q]. *)
Definition gtb (v : t) (q : Q) : bool :=
  match v with
  | Fin a => Py.ltb q a
  | PInf => true
  | NInf | NaN => false
  end.

(** [v < q] for a finite [q]. *)
Definition ltb (v : t) (q : Q) : bool :=
  match v with
  | Fin a => Py.ltb a q
  | NInf => true
  | PInf | NaN => false
  end.

End PyFloat.

(** ** The random source: [random.randint] over an explicit tape *)

Module Rng.

(** The raw draws still to come. *)
Definition t := nat -> Z.

(** [random.randint(lo, hi)]: a value of [lo..hi], and the rest of the tape. *)
Definition randint (lo hi : Z) (r : t) : Z * t :=
  ((lo + (r 0%nat) mod (hi - lo + 1))%Z, fun n => r (S n)).

End Rng.

(** ** flappy_bird_game.py *)

Module Bird.

Record t := mk {
  x : Q;
  y : Q;
  velocity_y : Q;
  radius : Z
}.

(** [Bird()] with the dataclass defaults. *)
Definition default : t := mk 100.0 250.0 0.0 20.

Definition set_y (b : t) (v : Q) : t := mk (x b) v (velocity_y b) (radius b).
Definition set_velocity_y (b : t) (v : Q) : t := mk (x b) (y b) v (radius b).

End Bird.

Module Pipe.

Record t := mk {
  x : Q;
  gap_y : Q;
  gap_height : Z;
  width : Z;
  passed : bool
}.

(** [Pipe(x=x, gap_y=gap_y)] with the dataclass defaults. *)
Definition make (x gap_y : Q) : t := mk x gap_y 120 50 false.

Definition set_x (p : t) (v : Q) : t :=
  mk v (gap_y p) (gap_height p) (width p) (passed p).
Definition set_passed (p : t) (v : bool) : t :=
  mk (x p) (gap_y p) (gap_height p) (width p) v.

(** The [__eq__] a dataclass generates: field by field. *)
Definition eqb (p q : t) : bool :=
  Qeq_bool (x p) (x q) && Qeq_bool (gap_y p) (gap_y q)
  && Z.eqb (gap_height p) (gap_height q) && Z.eqb (width p) (width q)
  && Bool.eqb (passed p) (passed q).

End Pipe.

Module Game.

(** The attributes of [FlappyBirdGame] that its methods read or write.
    [GAME_WIDTH], [GAME_HEIGHT], the two breathing forces, [MAX_VELOCITY],
    [PIPE_SPAWN_DISTANCE] and [BREATHING_FORCE_DURATION] are assigned once
    in [__init__] and are constants below; [GRAVITY] and [PIPE_SPEED] are
    rewritten by [adjust_difficulty] and are fields. *)
Record t := mk {
  bird : Bird.t;
  pipes : list Pipe.t;
  GRAVITY : Q;
  PIPE_SPEED : Q;
  is_running : bool;
  is_paused : bool;
  score : Z;
  high_score : Z;
  game_over : bool;
  start_time : Q;
  current_breathing : string;
  breathing_force_active : bool;
  breathing_force_timer : Q
}.

Definition GAME_WIDTH : Z := 800.
Definition GAME_HEIGHT : Z := 600.
Definition BREATHING_FORCE : Q := -8.0.
Definition EXHALE_FORCE : Q := 4.0.
Definition MAX_VELOCITY : Q := 10.0.
Definition PIPE_SPAWN_DISTANCE : Z := 300.
Definition BREATHING_FORCE_DURATION : Q := 0.3.

(** [__init__]. *)
Definition init : t :=
  mk Bird.default [] 0.5 3.0 false false 0 0 false 0 "neutral" false 0.

Definition set_bird (g : t) (b : Bird.t) : t :=
  mk b (pipes g) (GRAVITY g) (PIPE_SPEED g) (is_running g) (is_paused g)
     (score g) (high_score g) (game_over g) (start_time g)
     (current_breathing g) (breathing_force_active g) (breathing_force_timer g).

Definition set_pipes (g : t) (l : list Pipe.t) : t :=
  mk (bird g) l (GRAVITY g) (PIPE_SPEED g) (is_running g) (is_paused g)
     (score g) (high_score g) (game_over g) (start_time g)
     (current_breathing g) (breathing_force_active g) (breathing_force_timer g).

Definition set_difficulty (g : t) (gravity speed : Q) : t :=
  mk (bird g) (pipes g) gravity speed (is_running g) (is_paused g)
     (score g) (high_score g) (game_over g) (start_time g)
     (current_breathing g) (breathing_force_active g) (breathing_force_timer g).

Definition set_is_running (g : t) (b : bool) : t :=
  mk (bird g) (pipes g) (GRAVITY g) (PIPE_SPEED g) b (is_paused g)
     (score g) (high_score g) (game_over g) (start_time g)
     (current_breathing g) (breathing_force_active g) (breathing_force_timer g).

Definition set_is_paused (g : t) (b : bool) : t :=
  mk (bird g) (pipes g) (GRAVITY g) (PIPE_SPEED g) (is_running g) b
     (score g) (high_score g) (game_over g) (start_time g)
     (current_breathing g) (breathing_force_active g) (breathing_force_timer g).

Definition set_score (g : t) (s : Z) : t :=
  mk (bird g) (pipes g) (GRAVITY g) (PIPE_SPEED g) (is_running g) (is_paused g)
     s (high_score g) (game_over g) (start_time g)
     (current_breathing g) (breathing_force_active g) (breathing_force_timer g).

Definition set_high_score (g : t) (s : Z) : t :=
  mk (bird g) (pipes g) (GRAVITY g) (PIPE_SPEED g) (is_running g) (is_paused g)
     (score g) s (game_over g) (start_time g)
     (current_breathing g) (breathing_force_active g) (breathing_force_timer g).

Definition set_game_over (g : t) (b : bool) : t :=
  mk (bird g) (pipes g) (GRAVITY g) (PIPE_SPEED g) (is_running g) (is_paused g)
     (score g) (high_score g) b (start_time g)
     (current_breathing g) (breathing_force_active g) (breathing_force_timer g).

Definition set_start_time (g : t) (v : Q) : t :=
  mk (bird g) (pipes g) (GRAVITY g) (PIPE_SPEED g) (is_running g) (is_paused g)
     (score g) (high_score g) (game_over g) v
     (current_breathing g) (breathing_force_active g) (breathing_force_timer g).

Definition set_current_breathing (g : t) (s : string) : t :=
  mk (bird g) (pipes g) (GRAVITY g) (PIPE_SPEED g) (is_running g) (is_paused g)
     (score g) (high_score g) (game_over g) (start_time g)
     s (breathing_force_active g) (breathing_force_timer g).

(** The two assignments [breathing_force_active = a] and
    [breathing_force_timer = v], which the code always makes together
    or, for the flag alone, with the old timer. *)
Definition set_breathing_force (g : t) (a : bool) (v : Q) : t :=
  mk (bird g) (pipes g) (GRAVITY g) (PIPE_SPEED g) (is_running g) (is_paused g)
     (score g) (high_score g) (game_over g) (start_time g)
     (current_breathing g) a v.

(** [_generate_pipe_at_position(x)]: the gap is drawn from
    [min_gap_y = 100 .. max_gap_y = GAME_HEIGHT - 200]. *)
Definition _generate_pipe_at_position (g : t) (x : Q) (r : Rng.t) : t * Rng.t :=
  let min_gap_y := 100%Z in
  let max_gap_y := (GAME_HEIGHT - 200)%Z in
  let '(gap_y, r') := Rng.randint min_gap_y max_gap_y r in
  let pipe := Pipe.make x (inject_Z gap_y) in
  (set_pipes g (pipes g ++ [pipe]), r').

(** [_generate_pipe]. *)
Definition _generate_pipe (g : t) (r : Rng.t) : t * Rng.t :=
  _generate_pipe_at_position g (inject_Z GAME_WIDTH) r.

(** [_generate_initial_pipes]: the loop [for i in range(3)]. *)
Definition _generate_initial_pipes (g : t) (r : Rng.t) : t * Rng.t :=
  fold_left
    (fun (st : t * Rng.t) (i : Z) =>
       let pipe_x := (GAME_WIDTH + i * PIPE_SPAWN_DISTANCE)%Z in
       _generate_pipe_at_position (fst st) (inject_Z pipe_x) (snd st))
    [0; 1; 2]%Z (g, r).

(** [reset_game]. *)
Definition reset_game (g : t) (now : Q) (r : Rng.t) : t * Rng.t :=
  let g := set_bird g Bird.default in
  let g := set_pipes g [] in
  let g := set_score g 0 in
  let g := set_game_over g false in
  let g := set_start_time g now in
  let g := set_breathing_force g false 0 in
  _generate_initial_pipes g r.

(** [start_game], without the thread it spawns: the loop is the
    [game_loop_iteration] below, run while [is_running]. *)
Definition start_game (g : t) (now : Q) (r : Rng.t) : t * Rng.t :=
  if is_running g then (g, r)
  else
    let '(g, r) := reset_game g now r in
    (set_is_running g true, r).

(** [stop_game]. *)
Definition stop_game (g : t) : t := set_is_running g false.

(** [pause_game]. *)
Definition pause_game (g : t) : t := set_is_paused g (negb (is_paused g)).

(** [adjust_difficulty]. *)
Definition adjust_difficulty (g : t) (difficulty_level : Q) : t :=
  let base_pipe_speed := 3.0 in
  let base_gravity := 0.5 in
  set_difficulty g (base_gravity * difficulty_level)
                   (base_pipe_speed * difficulty_level).

(** [on_breathing_input]. *)
Definition on_breathing_input (g : t) (breath_type : string)
  (volume : PyFloat.t) (now : Q) : t :=
  if game_over g || is_paused g then g
  else
    let g := set_current_breathing g breath_type in
    if String.eqb breath_type "inhale" then
      let g := set_bird g (Bird.set_velocity_y (bird g)
                 (Py.max BREATHING_FORCE
                         (Bird.velocity_y (bird g) + BREATHING_FORCE))) in
      set_breathing_force g true now
    else if String.eqb breath_type "exhale" then
      let g := set_bird g (Bird.set_velocity_y (bird g)
                 (Py.min EXHALE_FORCE
                         (Bird.velocity_y (bird g) + EXHALE_FORCE))) in
      set_breathing_force g true now
    else g.

(** [_game_over]. *)
Definition _game_over (g : t) : t :=
  let g := set_game_over g true in
  if (score g >? high_score g)%Z then set_high_score g (score g) else g.

(** [_update_bird_physics]. *)
Definition _update_bird_physics (g : t) (delta_time now : Q) : t :=
  let g := set_bird g (Bird.set_velocity_y (bird g)
             (Bird.velocity_y (bird g) + GRAVITY g)) in
  let g :=
    if breathing_force_active g
       && Py.ltb BREATHING_FORCE_DURATION (now - breathing_force_timer g)
    then set_current_breathing
           (set_breathing_force g false (breathing_force_timer g)) "neutral"
    else g in
  let g := set_bird g (Bird.set_velocity_y (bird g)
             (Py.max (- MAX_VELOCITY)
                     (Py.min MAX_VELOCITY (Bird.velocity_y (bird g))))) in
  let g := set_bird g (Bird.set_y (bird g)
             (Bird.y (bird g) + Bird.velocity_y (bird g))) in
  if Py.ltb (Bird.y (bird g)) (inject_Z (Bird.radius (bird g))) then
    let g := set_bird g (Bird.set_y (bird g) (inject_Z (Bird.radius (bird g)))) in
    set_bird g (Bird.set_velocity_y (bird g) 0)
  else if Py.ltb (inject_Z (GAME_HEIGHT - Bird.radius (bird g)))
                 (Bird.y (bird g)) then
    let g := set_bird g (Bird.set_y (bird g)
               (inject_Z (GAME_HEIGHT - Bird.radius (bird g)))) in
    let g := set_bird g (Bird.set_velocity_y (bird g) 0) in
    _game_over g
  else g.

(** [list.remove(pipe)]: drops the first element equal to [pipe]. *)
Fixpoint list_remove (pipe : Pipe.t) (l : list Pipe.t) : list Pipe.t :=
  match l with
  | [] => []
  | q :: l' => if Pipe.eqb q pipe then l' else q :: list_remove pipe l'
  end.

(** The first loop of [_update_pipes].  It walks a copy of the list while
    it removes from the list itself; the pipe objects are shared, so when
    the walk is at a pipe the list is [visited ++ pipe :: rest], the
    visited ones already moved.  [pipe] is in the list, so [remove] takes
    its first equal from [visited ++ [pipe]]. *)
Fixpoint move_pipes (speed : Q) (visited rest : list Pipe.t) : list Pipe.t :=
  match rest with
  | [] => visited
  | pipe :: rest' =>
      let pipe := Pipe.set_x pipe (Pipe.x pipe - speed) in
      if Py.ltb (Pipe.x pipe + inject_Z (Pipe.width pipe)) 0
      then move_pipes speed (list_remove pipe (visited ++ [pipe])) rest'
      else move_pipes speed (visited ++ [pipe]) rest'
  end.

(** [self.pipes[-1].x < GAME_WIDTH - PIPE_SPAWN_DISTANCE], on a list
    known not to be empty. *)
Definition last_pipe_behind (l : list Pipe.t) : bool :=
  match rev l with
  | [] => false
  | p :: _ => Py.ltb (Pipe.x p) (inject_Z (GAME_WIDTH - PIPE_SPAWN_DISTANCE))
  end.

(** [_update_pipes]. *)
Definition _update_pipes (g : t) (delta_time : Q) (r : Rng.t) : t * Rng.t :=
  let g := set_pipes g (move_pipes (PIPE_SPEED g) [] (pipes g)) in
  if match pipes g with [] => true | _ => false end || last_pipe_behind (pipes g)
  then _generate_pipe g r
  else (g, r).

(** The test of [_check_collisions] on one pipe: the bird overlaps the
    pipe horizontally and sticks out of its gap. *)
Definition hits (b : Bird.t) (pipe : Pipe.t) : bool :=
  let bird_left := Bird.x b - inject_Z (Bird.radius b) in
  let bird_right := Bird.x b + inject_Z (Bird.radius b) in
  let bird_top := Bird.y b - inject_Z (Bird.radius b) in
  let bird_bottom := Bird.y b + inject_Z (Bird.radius b) in
  let pipe_left := Pipe.x pipe in
  let pipe_right := Pipe.x pipe + inject_Z (Pipe.width pipe) in
  if Py.ltb pipe_left bird_right && Py.ltb bird_left pipe_right then
    let gap_top := Pipe.gap_y pipe in
    let gap_bottom := Pipe.gap_y pipe + inject_Z (Pipe.gap_height pipe) in
    Py.ltb bird_top gap_top || Py.ltb gap_bottom bird_bottom
  else false.

(** [_check_collisions]: the loop returns at the first pipe hit. *)
Fixpoint check_pipes (g : t) (l : list Pipe.t) : t :=
  match l with
  | [] => g
  | pipe :: l' => if hits (bird g) pipe then _game_over g else check_pipes g l'
  end.

Definition _check_collisions (g : t) : t := check_pipes g (pipes g).

(** [_update_score]: the loop marks pipes in place and counts them. *)
Fixpoint score_pipes (bird_x : Q) (l : list Pipe.t) (score : Z)
  : list Pipe.t * Z :=
  match l with
  | [] => ([], score)
  | pipe :: l' =>
      if negb (Pipe.passed pipe)
         && Py.ltb (Pipe.x pipe + inject_Z (Pipe.width pipe)) bird_x
      then
        let '(l'', s) := score_pipes bird_x l' (score + 1)%Z in
        (Pipe.set_passed pipe true :: l'', s)
      else
        let '(l'', s) := score_pipes bird_x l' score in
        (pipe :: l'', s)
  end.

Definition _update_score (g : t) : t :=
  let '(l, s) := score_pipes (Bird.x (bird g)) (pipes g) (score g) in
  set_score (set_pipes g l) s.

(** [_update_game]. *)
Definition _update_game (g : t) (delta_time now : Q) (r : Rng.t) : t * Rng.t :=
  let g := _update_bird_physics g delta_time now in
  let '(g, r) := _update_pipes g delta_time r in
  let g := _check_collisions g in
  let g := _update_score g in
  (g, r).

(** One iteration of the [while self.is_running] loop of [_game_loop] in
    which a frame is due ([delta_time >= frame_time]). *)
Definition game_loop_iteration (g : t) (delta_time now : Q) (r : Rng.t)
  : t * Rng.t :=
  if is_running g then
    if negb (is_paused g) && negb (game_over g)
    then _update_game g delta_time now r
    else (g, r)
  else (g, r).

(** The game is Running: the loop is alive, not paused, not over. *)
Definition running (g : t) : bool :=
  is_running g && negb (is_paused g) && negb (game_over g).

(** [frame_time = 1.0 / target_fps], with [target_fps = 60]. *)
Definition frame_time : Q := 1.0 / 60.

(** One pass of the body of the [while self.is_running] loop of
    [_game_loop]: [current_time] is the clock at the top of the pass and
    [now] the clock the frame reads in its physics step.  The result is the
    game, the new [last_time], the random tape, and the states handed to
    [breathing_callback] (none when no callback was given). *)
Definition _game_loop_pass (breathing_callback : bool)
  (g : t) (last_time current_time now : Q) (r : Rng.t)
  : t * Q * Rng.t * list t :=
  let delta_time := current_time - last_time in
  if Qle_bool frame_time delta_time then
    let '(g, r) :=
      if negb (is_paused g) && negb (game_over g)
      then _update_game g delta_time now r
      else (g, r) in
    (g, current_time, r, if breathing_callback then [g] else [])
  else (g, last_time, r, []).

(** [_game_loop] over the passes it makes, each given by its two clock
    readings: the loop ends when [is_running] is found false.  The last
    component lists the clock readings of the passes that ran a frame. *)
Fixpoint _game_loop (breathing_callback : bool)
  (g : t) (last_time : Q) (r : Rng.t) (passes : list (Q * Q))
  : t * Q * Rng.t * list Q :=
  match passes with
  | [] => (g, last_time, r, [])
  | (current_time, now) :: passes' =>
      if is_running g then
        let '(g', last_time', r', _) :=
          _game_loop_pass breathing_callback g last_time current_time now r in
        let '(g'', last_time'', r'', frames) :=
          _game_loop breathing_callback g' last_time' r' passes' in
        (g'', last_time'', r'',
         if Qle_bool frame_time (current_time - last_time)
         then current_time :: frames else frames)
      else (g, last_time, r, [])
  end.

End Game.

(** ** The numpy reductions the calibrator uses *)

Module Np.

Fixpoint insert (x : Q) (l : list Q) : list Q :=
  match l with
  | [] => [x]
  | y :: l' => if Qle_bool x y then x :: l else y :: insert x l'
  end.

(** Ascending order, as [np.median] arranges its argument. *)
Definition sort (l : list Q) : list Q := fold_right insert [] l.

(** [np.sum]; the running total is kept in lowest terms, which does not
    change its value. *)
Definition sum (l : list Q) : Q := fold_right (fun x acc => Qred (x + acc)) 0 l.

Definition len (l : list Q) : Q := inject_Z (Z.of_nat (List.length l)).

(** [np.mean], in lowest terms; only called on arrays that are not empty. *)
Definition mean (l : list Q) : Q := Qred (sum l / len l).

(** [np.median]: the middle element, or the mean of the two middle ones. *)
Definition median (l : list Q) : Q :=
  let s := sort l in
  let n := List.length l in
  if Nat.even n
  then (nth (n / 2 - 1) s 0 + nth (n / 2) s 0) / 2
  else nth (n / 2) s 0.

(** [np.sqrt] on the rational idealisation: the root rounded down to a
    multiple of [2^-64 / den], exact whenever [num * den] is a perfect
    square, and positive on every positive argument. *)
Definition sqrt (q : Q) : Q :=
  if Qle_bool q 0 then 0
  else
    let n := (Qnum q * Zpos (Qden q))%Z in
    Qmake (Z.sqrt (n * 4 ^ 64)) (Qden q * 2 ^ 64).

(** [np.std]: the population standard deviation.  In exact arithmetic
    the spread of equal samples is 0; numpy can return a rounding residue
    there (about 1e-15 for a hundred samples of 12.3), and the test
    [volume_std == 0] of [_auto_calibrate] then goes the other way than in
    this model.  The theorems below use of [std] only that it is not
    negative, except where they evaluate a concrete buffer. *)
Definition std (l : list Q) : Q :=
  let m := mean l in
  sqrt (mean (map (fun x => (x - m) * (x - m)) l)).

End Np.

(** ** breathing_detector.py *)

Module Detector.

(** The attributes of [BreathingDetector] its methods read or write.
    [callback] records whether a callable was registered ([None]
    otherwise); the calls made to it are returned by the methods that
    make them.  [min_state_duration] is assigned once, in [__init__]. *)
Record t := mk {
  sensitivity : Q;
  callback : bool;
  is_running : bool;
  volume_history : list Q;
  breathing_state : string;
  last_state_change : Q;
  baseline_volume : Q;
  inhale_threshold : Q;
  exhale_threshold : Q;
  calibration_samples : list PyFloat.t;
  is_calibrated : bool
}.

Definition min_state_duration : Q := 0.3.

(** One call [self.callback(new_state, volume)]. *)
Definition Call : Type := string * PyFloat.t.

(** [__init__(callback, sensitivity)], at clock [now]. *)
Definition init (callback : bool) (sensitivity now : Q) : t :=
  mk sensitivity callback false [] "neutral" now 0 0 0 [] false.

Definition set_sensitivity_field (d : t) (s : Q) : t :=
  mk s (callback d) (is_running d) (volume_history d) (breathing_state d)
     (last_state_change d) (baseline_volume d) (inhale_threshold d)
     (exhale_threshold d) (calibration_samples d) (is_calibrated d).

Definition set_volume_history (d : t) (h : list Q) : t :=
  mk (sensitivity d) (callback d) (is_running d) h (breathing_state d)
     (last_state_change d) (baseline_volume d) (inhale_threshold d)
     (exhale_threshold d) (calibration_samples d) (is_calibrated d).

(** [breathing_state = s; last_state_change = now]. *)
Definition set_state (d : t) (s : string) (now : Q) : t :=
  mk (sensitivity d) (callback d) (is_running d) (volume_history d) s
     now (baseline_volume d) (inhale_threshold d)
     (exhale_threshold d) (calibration_samples d) (is_calibrated d).

Definition set_baseline_volume (d : t) (v : Q) : t :=
  mk (sensitivity d) (callback d) (is_running d) (volume_history d)
     (breathing_state d) (last_state_change d) v (inhale_threshold d)
     (exhale_threshold d) (calibration_samples d) (is_calibrated d).

Definition set_inhale_threshold (d : t) (v : Q) : t :=
  mk (sensitivity d) (callback d) (is_running d) (volume_history d)
     (breathing_state d) (last_state_change d) (baseline_volume d) v
     (exhale_threshold d) (calibration_samples d) (is_calibrated d).

Definition set_exhale_threshold (d : t) (v : Q) : t :=
  mk (sensitivity d) (callback d) (is_running d) (volume_history d)
     (breathing_state d) (last_state_change d) (baseline_volume d)
     (inhale_threshold d) v (calibration_samples d) (is_calibrated d).

Definition set_calibration_samples (d : t) (l : list PyFloat.t) : t :=
  mk (sensitivity d) (callback d) (is_running d) (volume_history d)
     (breathing_state d) (last_state_change d) (baseline_volume d)
     (inhale_threshold d) (exhale_threshold d) l (is_calibrated d).

Definition set_is_calibrated (d : t) (b : bool) : t :=
  mk (sensitivity d) (callback d) (is_running d) (volume_history d)
     (breathing_state d) (last_state_change d) (baseline_volume d)
     (inhale_threshold d) (exhale_threshold d) (calibration_samples d) b.

(** [volumes[np.isfinite(volumes) & (volumes >= 0)]]. *)
Fixpoint valid_volumes (volumes : list PyFloat.t) : list Q :=
  match volumes with
  | [] => []
  | v :: volumes' =>
      match v with
      | PyFloat.Fin q =>
          if PyFloat.isfinite v && PyFloat.ge0 v
          then q :: valid_volumes volumes'
          else valid_volumes volumes'
      | _ => valid_volumes volumes'
      end
  end.

(** [_auto_calibrate]. *)
Definition _auto_calibrate (d : t) : t :=
  if (List.length (calibration_samples d) <? 50)%nat then d
  else
    let valid := valid_volumes (calibration_samples d) in
    if (List.length valid <? 10)%nat then
      let d := set_baseline_volume d 100.0 in
      let d := set_inhale_threshold d 150.0 in
      let d := set_exhale_threshold d 50.0 in
      set_is_calibrated d true
    else
      let d := set_baseline_volume d (Np.median valid) in
      let volume_std := Np.std valid in
      let '(d, volume_std) :=
        if Qeq_bool (baseline_volume d) 0 || Qeq_bool volume_std 0 then
          let d := set_baseline_volume d (Py.max 100.0 (Np.mean valid)) in
          (d, Py.max 50.0 (baseline_volume d * 0.5))
        else (d, volume_std) in
      let threshold_multiplier := sensitivity d in
      let d := set_inhale_threshold d
                 (baseline_volume d + volume_std * threshold_multiplier * 1.2) in
      let exhale_reduction := volume_std * threshold_multiplier * 0.8 in
      let d := set_exhale_threshold d
                 (Py.max (baseline_volume d * 0.3)
                         (baseline_volume d - exhale_reduction)) in
      let threshold_separation :=
        Py.abs (inhale_threshold d - exhale_threshold d) in
      let min_separation := Py.max 20.0 (baseline_volume d * 0.4) in
      let d :=
        if Py.ltb threshold_separation min_separation then
          let mid_point := baseline_volume d in
          let half_separation := min_separation / 2 in
          let d := set_inhale_threshold d (mid_point + half_separation) in
          set_exhale_threshold d (Py.max 1.0 (mid_point - half_separation))
        else d in
      set_is_calibrated d true.

(** [_collect_calibration_data]. *)
Definition _collect_calibration_data (d : t) (volume : PyFloat.t) : t :=
  let d := set_calibration_samples d (calibration_samples d ++ [volume]) in
  if (100 <=? List.length (calibration_samples d))%nat
  then _auto_calibrate d
  else d.

(** [new_state in ["inhale", "exhale"]]. *)
Definition is_breath (s : string) : bool :=
  String.eqb s "inhale" || String.eqb s "exhale".

(** The first half of [_detect_breathing]: the state the volume asks for. *)
Definition target_state (d : t) (volume : PyFloat.t) (current_time : Q)
  : string :=
  if PyFloat.gtb volume (inhale_threshold d) then "inhale"
  else if PyFloat.ltb volume (exhale_threshold d) then "exhale"
  else if Py.ltb min_state_duration (current_time - last_state_change d)
       then "neutral"
       else breathing_state d.

(** [_detect_breathing]: the detector after the call, and the calls it
    made to the registered callback. *)
Definition _detect_breathing (d : t) (volume : PyFloat.t) (current_time : Q)
  : t * list Call :=
  let new_state := target_state d volume current_time in
  if negb (String.eqb new_state (breathing_state d))
     && Py.ltb min_state_duration (current_time - last_state_change d)
  then
    let d := set_state d new_state current_time in
    if callback d && is_breath new_state
    then (d, [(new_state, volume)])
    else (d, [])
  else (d, []).

(** [_apply_smoothing]. *)
Definition _apply_smoothing (d : t) (current_volume : Q) : Q :=
  if (List.length (volume_history d) <? 3)%nat then current_volume
  else
    let recent_volumes :=
      skipn (List.length (volume_history d) - 3) (volume_history d)
      ++ [current_volume] in
    Np.mean recent_volumes.

(** [deque(maxlen=20).append]. *)
Definition history_append (h : list Q) (v : Q) : list Q :=
  let h := h ++ [v] in
  skipn (List.length h - 20) h.

(** [_audio_callback] from the point where the frame's RMS [volume] has
    been computed and made finite. *)
Definition _audio_callback (d : t) (volume now : Q) : t * list Call :=
  if negb (is_running d) then (d, [])
  else
    let filtered_volume :=
      if (0 <? List.length (volume_history d))%nat
      then _apply_smoothing d volume
      else volume in
    let d := set_volume_history d
               (history_append (volume_history d) filtered_volume) in
    if is_calibrated d
    then _detect_breathing d (PyFloat.Fin filtered_volume) now
    else (_collect_calibration_data d (PyFloat.Fin filtered_volume), []).

(** [recalibrate]. *)
Definition recalibrate (d : t) : t :=
  let d := set_calibration_samples d [] in
  let d := set_is_calibrated d false in
  let d := set_baseline_volume d 0 in
  let d := set_inhale_threshold d 0 in
  set_exhale_threshold d 0.

(** [set_sensitivity]. *)
Definition set_sensitivity (d : t) (sensitivity : Q) : t :=
  let d := set_sensitivity_field d (Py.max 0.1 (Py.min 3.0 sensitivity)) in
  if is_calibrated d then _auto_calibrate d else d.

(** A run of the classifier over [(volume, timestamp)] pairs: the
    timestamps at which [breathing_state] changed, and every callback
    call, in order. *)
Fixpoint classify (d : t) (inputs : list (PyFloat.t * Q))
  : t * list Q * list Call :=
  match inputs with
  | [] => (d, [], [])
  | (volume, now) :: inputs' =>
      let '(d', calls) := _detect_breathing d volume now in
      let '(d'', times, calls') := classify d' inputs' in
      (d'',
       if String.eqb (breathing_state d') (breathing_state d)
       then times else now :: times,
       calls ++ calls')
  end.

(** The detector after a run of audio frames, each given by its RMS
    volume and the clock reading of its callback. *)
Definition feed (d : Detector.t) (frames : list (Q * Q)) : Detector.t :=
  fold_left (fun d f => fst (Detector._audio_callback d (fst f) (snd f)))
            frames d.

(** The detector and the callback calls of a run of audio frames, each
    given by its RMS volume and the clock reading of its callback. *)
Fixpoint listen (d : t) (frames : list (Q * Q)) : t * list Call :=
  match frames with
  | [] => (d, [])
  | (volume, now) :: frames' =>
      let '(d', calls) := _audio_callback d volume now in
      let '(d'', calls') := listen d' frames' in
      (d'', calls ++ calls')
  end.


Definition set_is_running (d : t) (b : bool) : t :=
  mk (sensitivity d) (callback d) b (volume_history d) (breathing_state d)
     (last_state_change d) (baseline_volume d) (inhale_threshold d)
     (exhale_threshold d) (calibration_samples d) (is_calibrated d).

(** [start_audio_stream]; [opened] tells whether opening and starting the
    input stream went through, an exception there is caught and leaves the
    flag as it was. *)
Definition start_audio_stream (d : t) (opened : bool) : t :=
  if opened then set_is_running d true else d.

(** [stop_audio_stream]. *)
Definition stop_audio_stream (d : t) : t := set_is_running d false.

End Detector.

(** ** The life of a detector: what can happen to it, in any order

    The events are taken one at a time, each running to completion before
    the next.  [BreathingDetector] has no lock, so a call that lands in the
    middle of an audio callback is outside this model. *)

Module Pipeline.

Inductive Event :=
| Open (opened : bool)
| Close
| Frame (volume now : Q)
| Recalibrate
| Sensitivity (sensitivity : Q).

Definition step (d : Detector.t) (e : Event) : Detector.t :=
  match e with
  | Open opened => Detector.start_audio_stream d opened
  | Close => Detector.stop_audio_stream d
  | Frame volume now => fst (Detector._audio_callback d volume now)
  | Recalibrate => Detector.recalibrate d
  | Sensitivity sensitivity => Detector.set_sensitivity d sensitivity
  end.

Definition run (d : Detector.t) (evs : list Event) : Detector.t :=
  fold_left step evs d.

End Pipeline.

(** ** config.py: [CalibrationManager] *)

Module Calibration.

(** The keys of a calibration file that [load_calibration] reads, taken as
    numbers; a key may be missing. *)
Record Data := mkData {
  baseline_volume : option Q;
  inhale_threshold : option Q;
  exhale_threshold : option Q;
  sensitivity : option Q
}.

(** [calibration_data.get(key, default)]. *)
Definition get (value : option Q) (default : Q) : Q :=
  match value with
  | Some q => q
  | None => default
  end.

(** [start_calibration]: the manager's detector (which may be [None]) and
    the result of the call. *)
Definition start_calibration (breathing_detector : option Detector.t)
  : option Detector.t * bool :=
  match breathing_detector with
  | Some d => (Some (Detector.recalibrate d), true)
  | None => (None, false)
  end.

(** [load_calibration]: [file] is what the file holds, [None] when it does
    not exist or cannot be read as a JSON object. *)
Definition load_calibration (breathing_detector : option Detector.t)
  (file : option Data) : option Detector.t * bool :=
  match file with
  | None => (breathing_detector, false)
  | Some calibration_data =>
      (match breathing_detector with
       | Some d =>
           let d := Detector.set_baseline_volume d
                      (get (baseline_volume calibration_data) 0) in
           let d := Detector.set_inhale_threshold d
                      (get (inhale_threshold calibration_data) 0) in
           let d := Detector.set_exhale_threshold d
                      (get (exhale_threshold calibration_data) 0) in
           let d := Detector.set_sensitivity_field d
                      (get (sensitivity calibration_data) 1.0) in
           Some (Detector.set_is_calibrated d true)
       | None => None
       end, true)
  end.

End Calibration.

(** ** server.py: the wiring of classifier events into the game *)

Module Server.

(** [_on_breathing_detected], the callback the server registers with the
    detector, as far as the game is concerned ([self.game] may be [None]). *)
Definition _on_breathing_detected (game : option Game.t)
  (breath_type : string) (volume : PyFloat.t) (now : Q) : option Game.t :=
  match game with
  | Some g =>
      if Game.is_running g
      then Some (Game.on_breathing_input g breath_type volume now)
      else game
  | None => None
  end.

End Server.

(** ** Sessions: what can happen to a game, in any order *)

Module Session.

Inductive Event :=
| Tick (delta_time now : Q)
| Breath (breath_type : string) (volume : PyFloat.t) (now : Q)
| Start (now : Q)
| Stop
| Pause
| Reset (now : Q)
| Difficulty (difficulty_level : Q).

Definition step (st : Game.t * Rng.t) (e : Event) : Game.t * Rng.t :=
  let '(g, r) := st in
  match e with
  | Tick delta_time now => Game.game_loop_iteration g delta_time now r
  | Breath breath_type volume now =>
      (Game.on_breathing_input g breath_type volume now, r)
  | Start now => Game.start_game g now r
  | Stop => (Game.stop_game g, r)
  | Pause => (Game.pause_game g, r)
  | Reset now => Game.reset_game g now r
  | Difficulty difficulty_level =>
      (Game.adjust_difficulty g difficulty_level, r)
  end.

Definition run (st : Game.t * Rng.t) (evs : list Event) : Game.t * Rng.t :=
  fold_left step evs st.

(** A run of breathing inputs of one type, each with its own volume and
    clock reading. *)
Definition breathe (bt : string) (g : Game.t) (inputs : list (PyFloat.t * Q))
  : Game.t :=
  fold_left (fun g i => Game.on_breathing_input g bt (fst i) (snd i)) inputs g.

(** Events that begin a new session: they put the score back to zero. *)
Definition resets (e : Event) : bool :=
  match e with
  | Start _ | Reset _ => true
  | _ => false
  end.

End Session.

(** ** Vocabulary of the statements *)


(** The velocity the physics step gives the bird: gravity added, then
    limited to [MAX_VELOCITY] either way. *)
Definition next_velocity (g : Game.t) : Q :=
  Py.max (- Game.MAX_VELOCITY)
         (Py.min Game.MAX_VELOCITY
                 (Bird.velocity_y (Game.bird g) + Game.GRAVITY g)).

(** Where the physics step puts the bird before it is kept on screen. *)
Definition next_y (g : Game.t) : Q :=
  Bird.y (Game.bird g) + next_velocity g.


(** The thresholds [_auto_calibrate] sets from a baseline [b], a spread [s]
    and a sensitivity [m]. *)
Definition inhale_from (b s m : Q) : Q :=
  let inhale0 := b + s * m * 1.2 in
  let exhale0 := Py.max (b * 0.3) (b - s * m * 0.8) in
  let min_separation := Py.max 20.0 (b * 0.4) in
  if Py.ltb (Py.abs (inhale0 - exhale0)) min_separation
  then b + min_separation / 2 else inhale0.

Definition exhale_from (b s m : Q) : Q :=
  let inhale0 := b + s * m * 1.2 in
  let exhale0 := Py.max (b * 0.3) (b - s * m * 0.8) in
  let min_separation := Py.max 20.0 (b * 0.4) in
  if Py.ltb (Py.abs (inhale0 - exhale0)) min_separation
  then Py.max 1.0 (b - min_separation / 2) else exhale0.

(** A detector at sensitivity 1 whose buffer holds one hundred samples
    from a quiet microphone: fifty at 0.25 and fifty at 0.75. *)
Definition quiet_detector : Detector.t :=
  Detector.set_calibration_samples (Detector.init true 1.0 0)
    (repeat (PyFloat.Fin 0.25) 50 ++ repeat (PyFloat.Fin 0.75) 50).

(** A detector whose buffer holds sixty samples, only five of them finite
    and non-negative. *)
Definition broken_detector : Detector.t :=
  Detector.set_calibration_samples (Detector.init true 1.0 0)
    (repeat PyFloat.NaN 30 ++ repeat (PyFloat.Fin (-1)) 25
     ++ repeat (PyFloat.Fin 120) 5).

(** The pipe's right edge is strictly left of [bird_x]. *)
Definition crossed (bird_x : Q) (p : Pipe.t) : bool :=
  Py.ltb (Pipe.x p + inject_Z (Pipe.width p)) bird_x.

(** The pipe is one [_update_score] counts: not yet passed, and crossed. *)
Definition counts (bird_x : Q) (p : Pipe.t) : bool :=
  negb (Pipe.passed p) && crossed bird_x p.

(** What [_update_score] does to one pipe. *)
Definition mark (bird_x : Q) (p : Pipe.t) : Pipe.t :=
  if counts bird_x p then Pipe.set_passed p true else p.

(** What [_update_pipes] does to one pipe: it moves left by the speed. *)
Definition advance (speed : Q) (p : Pipe.t) : Pipe.t :=
  Pipe.set_x p (Pipe.x p - speed).

(** The pipe is kept by [_update_pipes]: its right edge is not left of 0. *)
Definition on_screen (p : Pipe.t) : bool :=
  negb (Py.ltb (Pipe.x p + inject_Z (Pipe.width p)) 0).

(** The bird stays at x = 100, and every pipe whose right edge is left of
    the bird has been marked passed. *)
Definition tidy (g : Game.t) : Prop :=
  Bird.x (Game.bird g) = 100.0
  /\ Forall (fun p => crossed (Bird.x (Game.bird g)) p = true ->
                      Pipe.passed p = true) (Game.pipes g).

(** The later pipe is at least [PIPE_SPAWN_DISTANCE] further right. *)
Definition apart (p q : Pipe.t) : Prop :=
  Pipe.x p + inject_Z Game.PIPE_SPAWN_DISTANCE <= Pipe.x q.

(** A pipe as [_generate_pipe_at_position] builds it: default width and gap
    height, and a gap that starts between 100 and [GAME_HEIGHT - 200]. *)
Definition well_formed (p : Pipe.t) : Prop :=
  Pipe.width p = 50%Z /\ Pipe.gap_height p = 120%Z
  /\ 100 <= Pipe.gap_y p <= inject_Z (Game.GAME_HEIGHT - 200).

(** The event is a call of [pause_game]. *)
Definition is_pause (e : Session.Event) : bool :=
  match e with Session.Pause => true | _ => false end.

(** The event is a tick or a breathing input. *)
Definition is_play (e : Session.Event) : bool :=
  match e with
  | Session.Tick _ _ | Session.Breath _ _ _ => true
  | _ => false
  end.

(** The number of pipes of the track that are marked passed. *)
Definition passed_count (l : list Pipe.t) : Z :=
  Z.of_nat (List.length (filter Pipe.passed l)).

(** Two games agree on everything a tick computes with: all but the
    breathing label, the breathing-force flag and its timer. *)
Definition same_play (a b : Game.t) : Prop :=
  Game.bird a = Game.bird b
  /\ Game.pipes a = Game.pipes b
  /\ Game.GRAVITY a = Game.GRAVITY b
  /\ Game.PIPE_SPEED a = Game.PIPE_SPEED b
  /\ Game.is_running a = Game.is_running b
  /\ Game.is_paused a = Game.is_paused b
  /\ Game.score a = Game.score b
  /\ Game.high_score a = Game.high_score b
  /\ Game.game_over a = Game.game_over b
  /\ Game.start_time a = Game.start_time b.

(** The breathing state is one of the three labels the classifier uses. *)
Definition is_label (s : string) : Prop :=
  s = "neutral"%string \/ s = "inhale"%string \/ s = "exhale"%string.

(** Every sample of the buffer is finite and non-negative, and so is
    every value of the volume history. *)
Definition clean (d : Detector.t) : Prop :=
  List.length (Detector.valid_volumes (Detector.calibration_samples d))
  = List.length (Detector.calibration_samples d)
  /\ Forall (fun q => 0 <= q) (Detector.volume_history d).

(** The smoothed volume one audio frame appends to the history. *)
Definition filtered (d : Detector.t) (volume : Q) : Q :=
  if (0 <? List.length (Detector.volume_history d))%nat
  then Detector._apply_smoothing d volume else volume.

(** The baseline and the spread [_auto_calibrate] takes from the valid
    samples: median and standard deviation, or the stand-ins it uses when
    one of them is zero. *)
Definition baseline_of (valid : list Q) : Q :=
  if Qeq_bool (Np.median valid) 0 || Qeq_bool (Np.std valid) 0
  then Py.max 100.0 (Np.mean valid)
  else Np.median valid.

Definition spread_of (valid : list Q) : Q :=
  if Qeq_bool (Np.median valid) 0 || Qeq_bool (Np.std valid) 0
  then Py.max 50.0 (baseline_of valid * 0.5)
  else Np.std valid.

(** The thresholds are the ones a calibration run over the buffer gives at
    the current sensitivity. *)
Definition in_sync (d : Detector.t) : Prop :=
  let valid := Detector.valid_volumes (Detector.calibration_samples d) in
  Detector.baseline_volume d = baseline_of valid
  /\ Detector.inhale_threshold d
     = inhale_from (baseline_of valid) (spread_of valid)
                   (Detector.sensitivity d)
  /\ Detector.exhale_threshold d
     = exhale_from (baseline_of valid) (spread_of valid)
                   (Detector.sensitivity d).

(** What the events of a detector's life keep true. *)
Definition settled (d : Detector.t) : Prop :=
  clean d
  /\ 0 <= Detector.sensitivity d
  /\ (List.length (Detector.calibration_samples d) <= 100)%nat
  /\ Detector.is_calibrated d
     = (100 <=? List.length (Detector.calibration_samples d))%nat
  /\ (Detector.is_calibrated d = true -> in_sync d).

(** The volume of an audio frame is not negative. *)
Definition nonneg_frame (e : Pipeline.Event) : Prop :=
  match e with
  | Pipeline.Frame volume _ => 0 <= volume
  | _ => True
  end.

(** A whole number that is not negative. *)
Definition whole (q : Q) : Prop := exists n : nat, q == inject_Z (Z.of_nat n).



(** A calibrated detector at sensitivity 1 whose buffer holds one hundred
    samples of a steady breath: fifty at 100 and fifty at 200. *)
Definition steady_detector : Detector.t :=
  Detector.set_is_calibrated
    (Detector.set_calibration_samples (Detector.init true 1.0 0)
       (repeat (PyFloat.Fin 100) 50 ++ repeat (PyFloat.Fin 200) 50))
    true.

(** * Verification *)

(** ** Comparisons, [max] and [min] *)

Lemma ltb_true (a b : Q) : Py.ltb a b = true <-> a < b.
Proof.
  unfold Py.ltb. rewrite negb_true_iff.
  split; intro H.
  - apply Qnot_le_lt. intro Hle. apply Qle_bool_iff in Hle. congruence.
  - destruct (Qle_bool b a) eqn:E; [|reflexivity].
    apply Qle_bool_iff in E. lra.
Qed.

Lemma ltb_false (a b : Q) : Py.ltb a b = false <-> b <= a.
Proof.
  unfold Py.ltb. rewrite negb_false_iff. apply Qle_bool_iff.
Qed.

(** Turns every Python comparison in sight into the order fact it decided. *)
Ltac py_order :=
  repeat match goal with
  | H : Py.ltb _ _ = true |- _ => apply ltb_true in H
  | H : Py.ltb _ _ = false |- _ => apply ltb_false in H
  end.

(** Settles a closed comparison of rationals by evaluation. *)
Ltac q_decide := vm_compute; first [reflexivity | discriminate].

Ltac py_cases :=
  repeat match goal with
  | |- context [Py.ltb ?a ?b] =>
      let E := fresh "E" in destruct (Py.ltb a b) eqn:E
  end; py_order.

Lemma max_spec (a b : Q) :
  (a < b /\ Py.max a b = b) \/ (b <= a /\ Py.max a b = a).
Proof. unfold Py.max. py_cases; auto. Qed.

Lemma min_spec (a b : Q) :
  (b < a /\ Py.min a b = b) \/ (a <= b /\ Py.min a b = a).
Proof. unfold Py.min. py_cases; auto. Qed.

Lemma max_lower (a b : Q) : a <= Py.max a b /\ b <= Py.max a b.
Proof. destruct (max_spec a b) as [[H ->]|[H ->]]; lra. Qed.

Lemma min_upper (a b : Q) : Py.min a b <= a /\ Py.min a b <= b.
Proof. destruct (min_spec a b) as [[H ->]|[H ->]]; lra. Qed.

(** The clamp of [_update_bird_physics] lands between its bounds. *)
Lemma clamp_bounds (m v : Q) :
  0 <= m -> - m <= Py.max (- m) (Py.min m v) <= m.
Proof.
  intro Hm.
  destruct (max_spec (- m) (Py.min m v)) as [[H ->]|[H ->]];
    destruct (min_spec m v) as [[H' E]|[H' E]]; rewrite E in *; lra.
Qed.

(** ** The bird is touched by the physics step and the breathing input only *)

Lemma game_over_bird (g : Game.t) : Game.bird (Game._game_over g) = Game.bird g.
Proof.
  unfold Game._game_over.
  destruct (Game.score _ >? Game.high_score _)%Z; reflexivity.
Qed.

Lemma check_pipes_bird (l : list Pipe.t) (g : Game.t) :
  Game.bird (Game.check_pipes g l) = Game.bird g.
Proof.
  induction l as [|p l IH]; simpl; [reflexivity|].
  destruct (Game.hits (Game.bird g) p); [apply game_over_bird | exact IH].
Qed.

Lemma update_score_bird (g : Game.t) :
  Game.bird (Game._update_score g) = Game.bird g.
Proof.
  unfold Game._update_score.
  destruct (Game.score_pipes _ _ _); reflexivity.
Qed.

Lemma generate_pipe_at_bird (g : Game.t) (x : Q) (r : Rng.t) :
  Game.bird (fst (Game._generate_pipe_at_position g x r)) = Game.bird g.
Proof. reflexivity. Qed.

Lemma update_pipes_bird (g : Game.t) (dt : Q) (r : Rng.t) :
  Game.bird (fst (Game._update_pipes g dt r)) = Game.bird g.
Proof.
  unfold Game._update_pipes.
  match goal with |- context [if ?c then _ else _] => destruct c end;
    reflexivity.
Qed.

Lemma update_game_bird (g : Game.t) (dt now : Q) (r : Rng.t) :
  Game.bird (fst (Game._update_game g dt now r))
  = Game.bird (Game._update_bird_physics g dt now).
Proof.
  unfold Game._update_game.
  destruct (Game._update_pipes _ dt r) as [g1 r1] eqn:E. simpl.
  rewrite update_score_bird. unfold Game._check_collisions.
  rewrite check_pipes_bird.
  change g1 with (fst (g1, r1)). rewrite <- E. apply update_pipes_bird.
Qed.

(** The radius a bird is built with is never changed. *)
Lemma physics_radius (g : Game.t) (dt now : Q) :
  Bird.radius (Game.bird (Game._update_bird_physics g dt now))
  = Bird.radius (Game.bird g).
Proof.
  unfold Game._update_bird_physics.
  repeat match goal with
  | |- context [if ?c then _ else _] => destruct c
  end; simpl; rewrite ?game_over_bird; reflexivity.
Qed.

Lemma breathing_radius (g : Game.t) (bt : string) (v : PyFloat.t) (now : Q) :
  Bird.radius (Game.bird (Game.on_breathing_input g bt v now))
  = Bird.radius (Game.bird g).
Proof.
  unfold Game.on_breathing_input.
  repeat match goal with
  | |- context [if ?c then _ else _] => destruct c
  end; reflexivity.
Qed.

Lemma reset_bird (g : Game.t) (now : Q) (r : Rng.t) :
  Game.bird (fst (Game.reset_game g now r)) = Bird.default.
Proof. reflexivity. Qed.

Lemma step_radius (st : Game.t * Rng.t) (e : Session.Event) :
  Bird.radius (Game.bird (fst st)) = 20%Z ->
  Bird.radius (Game.bird (fst (Session.step st e))) = 20%Z.
Proof.
  destruct st as [g r]. simpl. intro H.
  destruct e; simpl.
  - unfold Game.game_loop_iteration.
    destruct (Game.is_running g); [|exact H].
    destruct (negb _ && negb _); [|exact H].
    rewrite update_game_bird, physics_radius. exact H.
  - rewrite breathing_radius. exact H.
  - unfold Game.start_game. destruct (Game.is_running g); [exact H|].
    reflexivity.
  - exact H.
  - exact H.
  - reflexivity.
  - exact H.
Qed.

Lemma run_radius (evs : list Session.Event) (st : Game.t * Rng.t) :
  Bird.radius (Game.bird (fst st)) = 20%Z ->
  Bird.radius (Game.bird (fst (Session.run st evs))) = 20%Z.
Proof.
  unfold Session.run. revert st.
  induction evs as [|e evs IH]; intros st H; simpl; [exact H|].
  apply IH, step_radius, H.
Qed.

(** What the physics step leaves behind, whatever it started from. *)
Lemma physics_bounds (g : Game.t) (dt now : Q) :
  (2 * Bird.radius (Game.bird g) <= Game.GAME_HEIGHT)%Z ->
  let b := Game.bird (Game._update_bird_physics g dt now) in
  - Game.MAX_VELOCITY <= Bird.velocity_y b <= Game.MAX_VELOCITY
  /\ inject_Z (Bird.radius b) <= Bird.y b
     <= inject_Z (Game.GAME_HEIGHT - Bird.radius b).
Proof.
  intros Hr b. subst b.
  assert (Hq : inject_Z (Bird.radius (Game.bird g))
               <= inject_Z (Game.GAME_HEIGHT - Bird.radius (Game.bird g))).
  { rewrite <- Zle_Qle. lia. }
  assert (Hm : 0 <= Game.MAX_VELOCITY) by (unfold Game.MAX_VELOCITY; lra).
  unfold Game._update_bird_physics.
  set (c := Game.breathing_force_active _ && _). clearbody c.
  pose proof (clamp_bounds Game.MAX_VELOCITY
                (Bird.velocity_y (Game.bird g) + Game.GRAVITY g) Hm) as Hc.
  destruct c; simpl in *.
  all: repeat match goal with
       | |- context [Py.ltb ?a ?b] =>
           let E := fresh "E" in destruct (Py.ltb a b) eqn:E
       end; py_order; rewrite ?game_over_bird; simpl; lra.
Qed.

(** ** Velocity and position bounds *)

(** C2.  In any session (any order of ticks, breathing inputs, pauses,
    resets, restarts and difficulty changes since the game object was made),
    a tick executed while the game is Running leaves the bird with
    [velocity_y] in [[-MAX_VELOCITY, MAX_VELOCITY]] and [y] in
    [[radius, GAME_HEIGHT - radius]]. *)
Theorem tick_keeps_bird_in_bounds
  (evs : list Session.Event) (r0 : Rng.t) (delta_time now : Q) :
  let st := Session.run (Game.init, r0) evs in
  Game.running (fst st) = true ->
  let b := Game.bird (fst (Session.step st (Session.Tick delta_time now))) in
  (- Game.MAX_VELOCITY <= Bird.velocity_y b <= Game.MAX_VELOCITY)
  /\ (inject_Z (Bird.radius b) <= Bird.y b
      <= inject_Z (Game.GAME_HEIGHT - Bird.radius b)).
Proof.
  intros st Hrun b. subst b.
  pose proof (run_radius evs (Game.init, r0) eq_refl) as Hr.
  fold st in Hr. destruct st as [g r]. simpl in *.
  unfold Game.running in Hrun.
  apply andb_true_iff in Hrun as [Hrun Hover].
  apply andb_true_iff in Hrun as [Hrun Hpause].
  unfold Game.game_loop_iteration. rewrite Hrun, Hpause, Hover. simpl.
  rewrite update_game_bird.
  apply physics_bounds. rewrite Hr. unfold Game.GAME_HEIGHT. lia.
Qed.

Lemma tick_keeps_bird_in_bounds_witness :
  let b := Game.bird (fst (Session.step
                             (Session.run (Game.init, fun _ => 0%Z)
                                          [Session.Start 0])
                             (Session.Tick 0.02 0.02))) in
  (- Game.MAX_VELOCITY <= Bird.velocity_y b <= Game.MAX_VELOCITY)
  /\ (inject_Z (Bird.radius b) <= Bird.y b
      <= inject_Z (Game.GAME_HEIGHT - Bird.radius b)).
Proof.
  exact (tick_keeps_bird_in_bounds [Session.Start 0] (fun _ => 0%Z)
           0.02 0.02 eq_refl).
Defined.

(** ** The breathing impulse *)

Lemma breathing_flags (g : Game.t) (bt : string) (v : PyFloat.t) (now : Q) :
  Game.game_over (Game.on_breathing_input g bt v now) = Game.game_over g
  /\ Game.is_paused (Game.on_breathing_input g bt v now) = Game.is_paused g.
Proof.
  unfold Game.on_breathing_input.
  repeat match goal with
  | |- context [if ?c then _ else _] => destruct c
  end; split; reflexivity.
Qed.

Lemma inhale_velocity (g : Game.t) (v : PyFloat.t) (now : Q) :
  Game.game_over g = false -> Game.is_paused g = false ->
  Bird.velocity_y (Game.bird (Game.on_breathing_input g "inhale" v now))
  = Py.max Game.BREATHING_FORCE
           (Bird.velocity_y (Game.bird g) + Game.BREATHING_FORCE).
Proof.
  intros Ho Hp. unfold Game.on_breathing_input. rewrite Ho, Hp. reflexivity.
Qed.

Lemma exhale_velocity (g : Game.t) (v : PyFloat.t) (now : Q) :
  Game.game_over g = false -> Game.is_paused g = false ->
  Bird.velocity_y (Game.bird (Game.on_breathing_input g "exhale" v now))
  = Py.min Game.EXHALE_FORCE
           (Bird.velocity_y (Game.bird g) + Game.EXHALE_FORCE).
Proof.
  intros Ho Hp. unfold Game.on_breathing_input. rewrite Ho, Hp. reflexivity.
Qed.

Lemma breathe_flags (bt : string) (inputs : list (PyFloat.t * Q)) (g : Game.t) :
  Game.game_over (Session.breathe bt g inputs) = Game.game_over g
  /\ Game.is_paused (Session.breathe bt g inputs) = Game.is_paused g.
Proof.
  unfold Session.breathe. revert g.
  induction inputs as [|i inputs IH]; intro g; simpl; [split; reflexivity|].
  destruct (IH (Game.on_breathing_input g bt (fst i) (snd i))) as [-> ->].
  apply breathing_flags.
Qed.

Lemma breathe_snoc (bt : string) (inputs : list (PyFloat.t * Q))
  (i : PyFloat.t * Q) (g : Game.t) :
  Session.breathe bt g (inputs ++ [i])
  = Game.on_breathing_input (Session.breathe bt g inputs) bt (fst i) (snd i).
Proof. unfold Session.breathe. rewrite fold_left_app. reflexivity. Qed.

Lemma started_game (now : Q) (r : Rng.t) :
  let g := fst (Game.start_game Game.init now r) in
  Game.bird g = Bird.default
  /\ Game.GRAVITY g = 0.5
  /\ Game.is_running g = true
  /\ Game.is_paused g = false
  /\ Game.game_over g = false.
Proof. repeat split; reflexivity. Qed.

Lemma breathing_keeps (g : Game.t) (bt : string) (v : PyFloat.t) (now : Q) :
  let g' := Game.on_breathing_input g bt v now in
  Bird.y (Game.bird g') = Bird.y (Game.bird g)
  /\ Bird.radius (Game.bird g') = Bird.radius (Game.bird g)
  /\ Game.GRAVITY g' = Game.GRAVITY g
  /\ Game.is_running g' = Game.is_running g.
Proof.
  unfold Game.on_breathing_input.
  repeat match goal with
  | |- context [if ?c then _ else _] => destruct c
  end; repeat split; reflexivity.
Qed.

(** A bird that stays within the screen keeps the clamped velocity. *)
Lemma physics_velocity (g : Game.t) (dt now : Q) :
  inject_Z (Bird.radius (Game.bird g)) <= next_y g
    <= inject_Z (Game.GAME_HEIGHT - Bird.radius (Game.bird g)) ->
  Bird.velocity_y (Game.bird (Game._update_bird_physics g dt now))
  = next_velocity g.
Proof.
  intros [H1 H2]. apply ltb_false in H1, H2.
  unfold next_y, next_velocity in *. unfold Game._update_bird_physics.
  set (c := Game.breathing_force_active _ && _). clearbody c.
  destruct c; cbn -[Py.max Py.min Qplus Qopp inject_Z Z.sub];
    rewrite H1, H2; reflexivity.
Qed.

(** C5.  While the game is neither over nor paused, an inhale sets
    [velocity_y] to [max(BREATHING_FORCE, velocity_y + BREATHING_FORCE)] and
    an exhale to [min(EXHALE_FORCE, velocity_y + EXHALE_FORCE)]; so after any
    run of one or more inhales the velocity is no further up than
    [BREATHING_FORCE], after any run of exhales no further down than
    [EXHALE_FORCE]; and in a freshly started game two inhales followed by
    one tick leave the velocity at -7.5. *)
Theorem breathing_impulse_does_not_compound
  (g : Game.t) (volume : PyFloat.t) (now : Q)
  (inputs : list (PyFloat.t * Q)) :
  Game.game_over g = false -> Game.is_paused g = false ->
  Bird.velocity_y (Game.bird (Game.on_breathing_input g "inhale" volume now))
    = Py.max Game.BREATHING_FORCE
             (Bird.velocity_y (Game.bird g) + Game.BREATHING_FORCE)
  /\ Bird.velocity_y (Game.bird (Game.on_breathing_input g "exhale" volume now))
    = Py.min Game.EXHALE_FORCE
             (Bird.velocity_y (Game.bird g) + Game.EXHALE_FORCE)
  /\ Game.BREATHING_FORCE
     <= Bird.velocity_y (Game.bird (Session.breathe "inhale" g (inputs ++ [(volume, now)])))
  /\ Bird.velocity_y (Game.bird (Session.breathe "exhale" g (inputs ++ [(volume, now)])))
     <= Game.EXHALE_FORCE
  /\ (forall (r : Rng.t) (t0 t1 t2 t3 delta_time : Q) (v1 v2 : PyFloat.t),
        let g0 := fst (Game.start_game Game.init t0 r) in
        let g2 := Game.on_breathing_input
                    (Game.on_breathing_input g0 "inhale" v1 t1) "inhale" v2 t2 in
        Bird.velocity_y (Game.bird g0) == 0
        /\ Bird.velocity_y (Game.bird (Game.on_breathing_input g0 "inhale" v1 t1))
           == -8
        /\ Bird.velocity_y (Game.bird g2) == -8
        /\ Bird.velocity_y
             (Game.bird (fst (Game.game_loop_iteration g2 delta_time t3 r)))
           == -7.5).
Proof.
  intros Ho Hp.
  split; [apply inhale_velocity; assumption|].
  split; [apply exhale_velocity; assumption|].
  split; [|split].
  - rewrite breathe_snoc. simpl.
    destruct (breathe_flags "inhale" inputs g) as [Ho' Hp'].
    rewrite inhale_velocity by congruence. apply max_lower.
  - rewrite breathe_snoc. simpl.
    destruct (breathe_flags "exhale" inputs g) as [Ho' Hp'].
    rewrite exhale_velocity by congruence. apply min_upper.
  - intros r t0 t1 t2 t3 dt v1 v2 g0 g2.
    destruct (started_game t0 r) as [Hb [Hg [Hrun [Hp0 Ho0]]]]. fold g0 in Hb, Hg, Hrun, Hp0, Ho0.
    set (g1 := Game.on_breathing_input g0 "inhale" v1 t1) in *.
    destruct (breathing_flags g0 "inhale" v1 t1) as [Ho1 Hp1]. fold g1 in Ho1, Hp1.
    destruct (breathing_flags g1 "inhale" v2 t2) as [Ho2 Hp2]. fold g2 in Ho2, Hp2.
    destruct (breathing_keeps g0 "inhale" v1 t1) as [Hy1 [Hr1 [Hg1 Hrun1]]].
    fold g1 in Hy1, Hr1, Hg1, Hrun1.
    destruct (breathing_keeps g1 "inhale" v2 t2) as [Hy2 [Hr2 [Hg2 Hrun2]]].
    fold g2 in Hy2, Hr2, Hg2, Hrun2.
    assert (V0 : Bird.velocity_y (Game.bird g0) = 0.0) by (rewrite Hb; reflexivity).
    assert (V1 : Bird.velocity_y (Game.bird g1)
                 = Py.max Game.BREATHING_FORCE (0.0 + Game.BREATHING_FORCE)).
    { unfold g1. rewrite inhale_velocity by congruence. rewrite V0. reflexivity. }
    assert (V2 : Bird.velocity_y (Game.bird g2)
                 = Py.max Game.BREATHING_FORCE
                     (Py.max Game.BREATHING_FORCE (0.0 + Game.BREATHING_FORCE)
                      + Game.BREATHING_FORCE)).
    { unfold g2. rewrite inhale_velocity by congruence. rewrite V1. reflexivity. }
    split; [rewrite V0; q_decide|].
    split; [rewrite V1; q_decide|].
    split; [rewrite V2; q_decide|].
    unfold Game.game_loop_iteration.
    rewrite Hrun2, Hrun1, Hrun, Hp2, Hp1, Hp0, Ho2, Ho1, Ho0. cbn [negb andb].
    rewrite update_game_bird, physics_velocity.
    + unfold next_velocity. rewrite V2, Hg2, Hg1, Hg. q_decide.
    + unfold next_y, next_velocity.
      rewrite V2, Hg2, Hg1, Hg, Hy2, Hy1, Hr2, Hr1, Hb.
      split; q_decide.
Qed.

Lemma breathing_impulse_witness :
  Bird.velocity_y
    (Game.bird (Game.on_breathing_input
                  (fst (Game.start_game Game.init 0 (fun _ => 0%Z)))
                  "inhale" (PyFloat.Fin 200) 1))
  = Py.max Game.BREATHING_FORCE (0.0 + Game.BREATHING_FORCE).
Proof.
  exact (proj1 (breathing_impulse_does_not_compound
                  (fst (Game.start_game Game.init 0 (fun _ => 0%Z)))
                  (PyFloat.Fin 200) 1 [] eq_refl eq_refl)).
Defined.

(** ** Breathing input outside the Running state *)

(** C8, as the code has it.  [on_breathing_input] returns without touching
    anything when the game is over or paused; and the callback the server
    registers forwards an event only while [is_running], so through that
    wiring an event that arrives in any state other than Running leaves the
    whole game as it was. *)
Theorem breathing_input_ignored_when_paused_or_over
  (g : Game.t) (breath_type : string) (volume : PyFloat.t) (now : Q) :
  (Game.game_over g = true \/ Game.is_paused g = true ->
   Game.on_breathing_input g breath_type volume now = g)
  /\ (Game.running g = false ->
      Server._on_breathing_detected (Some g) breath_type volume now = Some g).
Proof.
  assert (H1 : Game.game_over g = true \/ Game.is_paused g = true ->
               Game.on_breathing_input g breath_type volume now = g).
  { intros [H|H]; unfold Game.on_breathing_input; rewrite H;
      [reflexivity | rewrite orb_true_r; reflexivity]. }
  split; [exact H1|].
  unfold Game.running, Server._on_breathing_detected. intro H.
  destruct (Game.is_running g); [|reflexivity].
  rewrite H1; [reflexivity|].
  destruct (Game.is_paused g); [right; reflexivity|].
  destruct (Game.game_over g); [left; reflexivity|discriminate H].
Qed.

Lemma breathing_input_ignored_witness :
  let g := Game.pause_game (fst (Game.start_game Game.init 0 (fun _ => 0%Z))) in
  Game.on_breathing_input g "inhale" (PyFloat.Fin 200) 1 = g
  /\ Server._on_breathing_detected (Some g) "inhale" (PyFloat.Fin 200) 1
     = Some g.
Proof.
  pose proof (breathing_input_ignored_when_paused_or_over
                (Game.pause_game (fst (Game.start_game Game.init 0 (fun _ => 0%Z))))
                "inhale" (PyFloat.Fin 200) 1) as [H1 H2].
  split; [apply H1; right; reflexivity | apply H2; reflexivity].
Defined.

(** C8 as stated fails in the Idle state: a game that has been constructed
    but not started (not running, not paused, not over) takes the impulse of
    a direct [on_breathing_input] call. *)
Lemma breathing_input_applied_when_idle :
  let g := Game.init in
  let g' := Game.on_breathing_input g "inhale" (PyFloat.Fin 200) 1 in
  Game.running g = false
  /\ Game.is_running g = false
  /\ Game.is_paused g = false
  /\ Game.game_over g = false
  /\ Bird.velocity_y (Game.bird g) == 0
  /\ Bird.velocity_y (Game.bird g') == -8
  /\ Game.breathing_force_active g = false
  /\ Game.breathing_force_active g' = true
  /\ g' <> g.
Proof.
  repeat split; try reflexivity.
  intro H. apply (f_equal Game.breathing_force_active) in H. discriminate H.
Qed.

(** ** Reset *)

(** C10.  Whatever the game was, after [reset_game] the bird is the default
    one (x = 100, y = 250, velocity 0, radius 20), the score is 0, the game
    is not over, no breathing force is active, and there are exactly three
    pipes, at x = 800, 1100 and 1400, none of them passed, each with the
    default width and gap height and a gap drawn from 100..400. *)
Theorem reset_game_state (g : Game.t) (now : Q) (r : Rng.t) :
  let g' := fst (Game.reset_game g now r) in
  Game.bird g' = Bird.mk 100.0 250.0 0.0 20
  /\ Game.score g' = 0%Z
  /\ Game.game_over g' = false
  /\ Game.breathing_force_active g' = false
  /\ List.length (Game.pipes g') = 3%nat
  /\ map Pipe.x (Game.pipes g')
     = [inject_Z Game.GAME_WIDTH;
        inject_Z (Game.GAME_WIDTH + Game.PIPE_SPAWN_DISTANCE);
        inject_Z (Game.GAME_WIDTH + 2 * Game.PIPE_SPAWN_DISTANCE)]
  /\ map Pipe.x (Game.pipes g') = [800; 1100; 1400]
  /\ Forall (fun p => Pipe.passed p = false /\ Pipe.width p = 50%Z
                      /\ Pipe.gap_height p = 120%Z
                      /\ 100 <= Pipe.gap_y p <= 400)
            (Game.pipes g').
Proof.
  assert (Hgap : forall z : Z,
             100 <= inject_Z (100 + z mod (Game.GAME_HEIGHT - 200 - 100 + 1))
             <= 400).
  { intro z. change (Game.GAME_HEIGHT - 200 - 100 + 1)%Z with 301%Z.
    pose proof (Z.mod_pos_bound z 301 eq_refl) as Hz.
    change 100 with (inject_Z 100). change 400 with (inject_Z 400).
    rewrite <- !Zle_Qle. lia. }
  repeat split; try reflexivity.
  simpl. repeat constructor; try apply Hgap.
Qed.

(** ** When a tick ends the game *)



Lemma game_over_sets (g : Game.t) : Game.game_over (Game._game_over g) = true.
Proof.
  unfold Game._game_over.
  destruct (Game.score _ >? Game.high_score _)%Z; reflexivity.
Qed.

Lemma game_over_pipes (g : Game.t) :
  Game.pipes (Game._game_over g) = Game.pipes g.
Proof.
  unfold Game._game_over.
  destruct (Game.score _ >? Game.high_score _)%Z; reflexivity.
Qed.

Lemma game_over_score (g : Game.t) :
  Game.score (Game._game_over g) = Game.score g.
Proof.
  unfold Game._game_over.
  destruct (Game.score _ >? Game.high_score _)%Z; reflexivity.
Qed.

Lemma check_pipes_game_over (l : list Pipe.t) (g : Game.t) :
  Game.game_over (Game.check_pipes g l)
  = Game.game_over g || existsb (Game.hits (Game.bird g)) l.
Proof.
  induction l as [|p l IH]; simpl; [rewrite orb_false_r; reflexivity|].
  destruct (Game.hits (Game.bird g) p); simpl.
  - rewrite game_over_sets, orb_true_r. reflexivity.
  - exact IH.
Qed.

Lemma check_pipes_pipes (l : list Pipe.t) (g : Game.t) :
  Game.pipes (Game.check_pipes g l) = Game.pipes g.
Proof.
  induction l as [|p l IH]; simpl; [reflexivity|].
  destruct (Game.hits (Game.bird g) p); [apply game_over_pipes | exact IH].
Qed.

Lemma check_pipes_score (l : list Pipe.t) (g : Game.t) :
  Game.score (Game.check_pipes g l) = Game.score g.
Proof.
  induction l as [|p l IH]; simpl; [reflexivity|].
  destruct (Game.hits (Game.bird g) p); [apply game_over_score | exact IH].
Qed.

Lemma update_score_game_over (g : Game.t) :
  Game.game_over (Game._update_score g) = Game.game_over g.
Proof.
  unfold Game._update_score.
  destruct (Game.score_pipes _ _ _); reflexivity.
Qed.

Lemma update_pipes_game_over (g : Game.t) (dt : Q) (r : Rng.t) :
  Game.game_over (fst (Game._update_pipes g dt r)) = Game.game_over g.
Proof.
  unfold Game._update_pipes.
  match goal with |- context [if ?c then _ else _] => destruct c end;
    reflexivity.
Qed.

(** The physics step ends the game exactly when the bird's new position is
    not above the top bound and is strictly below the bottom bound. *)
Lemma physics_game_over (g : Game.t) (dt now : Q) :
  Game.game_over (Game._update_bird_physics g dt now)
  = Game.game_over g
    || (negb (Py.ltb (next_y g) (inject_Z (Bird.radius (Game.bird g))))
        && Py.ltb (inject_Z (Game.GAME_HEIGHT - Bird.radius (Game.bird g)))
                  (next_y g)).
Proof.
  unfold Game._update_bird_physics, next_y, next_velocity.
  set (c := Game.breathing_force_active _ && _). clearbody c.
  destruct c; simpl;
    repeat match goal with
    | |- context [Py.ltb ?a ?b] => destruct (Py.ltb a b)
    end; simpl; rewrite ?game_over_sets, ?orb_true_r, ?orb_false_r;
    reflexivity.
Qed.


(** Marking pipes as passed moves none of them. *)
Lemma score_pipes_hits (b : Bird.t) (bx : Q) (l : list Pipe.t) (s : Z) :
  existsb (Game.hits b) (fst (Game.score_pipes bx l s))
  = existsb (Game.hits b) l.
Proof.
  revert s. induction l as [|p l IH]; intro s; simpl; [reflexivity|].
  destruct (negb (Pipe.passed p) && _).
  - specialize (IH (s + 1)%Z). destruct (Game.score_pipes bx l (s + 1)).
    simpl in *. rewrite IH. reflexivity.
  - specialize (IH s). destruct (Game.score_pipes bx l s).
    simpl in *. rewrite IH. reflexivity.
Qed.

Lemma update_score_pipes (g : Game.t) :
  Game.pipes (Game._update_score g)
  = fst (Game.score_pipes (Bird.x (Game.bird g)) (Game.pipes g) (Game.score g)).
Proof.
  unfold Game._update_score.
  destruct (Game.score_pipes _ _ _); reflexivity.
Qed.

(** The whole tick: the game is over afterwards exactly when it was over
    before, or the bird fell below the bottom bound, or the bird, where the
    tick left it, sticks out of the gap of a pipe of the advanced track. *)
Lemma update_game_game_over (g : Game.t) (dt now : Q) (r : Rng.t) :
  let g' := fst (Game._update_game g dt now r) in
  Game.game_over g'
  = Game.game_over (Game._update_bird_physics g dt now)
    || existsb (Game.hits (Game.bird g')) (Game.pipes g').
Proof.
  intro g'. subst g'. rewrite update_game_bird.
  unfold Game._update_game.
  destruct (Game._update_pipes _ dt r) as [g2 r2] eqn:E. simpl.
  assert (E2 : g2 = fst (Game._update_pipes
                           (Game._update_bird_physics g dt now) dt r))
    by (rewrite E; reflexivity).
  rewrite update_score_game_over, update_score_pipes, score_pipes_hits.
  unfold Game._check_collisions.
  rewrite check_pipes_game_over, check_pipes_pipes.
  rewrite E2 at 1 2. rewrite update_pipes_game_over, update_pipes_bird.
  reflexivity.
Qed.




(** ** The classifier: debounce and events *)

(** One call of [_detect_breathing] either changes nothing at all, or moves
    to the state the volume asks for, which differs from the current one,
    stamps the change with the clock, and does so only when more than
    [min_state_duration] has passed since the previous change. *)
Lemma detect_breathing_step (d : Detector.t) (volume : PyFloat.t) (now : Q) :
  let d' := fst (Detector._detect_breathing d volume now) in
  (d' = d /\ snd (Detector._detect_breathing d volume now) = [])
  \/ (String.eqb (Detector.breathing_state d') (Detector.breathing_state d)
      = false
      /\ Detector.breathing_state d' = Detector.target_state d volume now
      /\ Detector.last_state_change d' = now
      /\ Detector.min_state_duration < now - Detector.last_state_change d
      /\ snd (Detector._detect_breathing d volume now)
         = if Detector.callback d
              && Detector.is_breath (Detector.breathing_state d')
           then [(Detector.breathing_state d', volume)] else []).
Proof.
  unfold Detector._detect_breathing.
  destruct (String.eqb (Detector.target_state d volume now)
                       (Detector.breathing_state d)) eqn:Es;
    cbn [negb andb]; [left; split; reflexivity|].
  destruct (Py.ltb Detector.min_state_duration
                   (now - Detector.last_state_change d)) eqn:Et;
    [|left; split; reflexivity].
  right. py_order.
  destruct (Detector.callback d
            && Detector.is_breath (Detector.target_state d volume now)) eqn:Ec;
    cbn; rewrite Ec; cbn; rewrite ?Ec; repeat split; assumption.
Qed.

Lemma classify_cons (d : Detector.t) (volume : PyFloat.t) (now : Q)
  (inputs : list (PyFloat.t * Q)) :
  let d' := fst (Detector._detect_breathing d volume now) in
  snd (fst (Detector.classify d ((volume, now) :: inputs)))
  = if String.eqb (Detector.breathing_state d') (Detector.breathing_state d)
    then snd (fst (Detector.classify d' inputs))
    else now :: snd (fst (Detector.classify d' inputs)).
Proof.
  cbn [Detector.classify].
  destruct (Detector._detect_breathing d volume now) as [d' calls].
  cbn [fst]. destruct (Detector.classify d' inputs) as [[d'' times] calls'].
  cbn [fst snd].
  destruct (String.eqb _ _); reflexivity.
Qed.

Lemma min_state_duration_pos : 0 < Detector.min_state_duration.
Proof. reflexivity. Qed.

(** Every change of a run comes more than [min_state_duration] after the
    change the run started from, and after every earlier change of the run. *)
Lemma classify_separated (inputs : list (PyFloat.t * Q)) (d : Detector.t) :
  let times := snd (fst (Detector.classify d inputs)) in
  Forall (fun t => Detector.min_state_duration
                   < t - Detector.last_state_change d) times
  /\ ForallOrdPairs (fun t t' => Detector.min_state_duration < t' - t) times.
Proof.
  revert d. induction inputs as [|[volume now] inputs IH]; intro d.
  - split; constructor.
  - cbv zeta. rewrite classify_cons. cbv zeta.
    pose proof min_state_duration_pos as Hpos.
    destruct (detect_breathing_step d volume now)
      as [[Hd _]|[Hs [_ [Hl [Ht _]]]]].
    + rewrite Hd, String.eqb_refl. apply IH.
    + rewrite Hs.
      destruct (IH (fst (Detector._detect_breathing d volume now)))
        as [IH1 IH2].
      rewrite Hl in IH1.
      split.
      * constructor; [exact Ht|].
        eapply Forall_impl; [|exact IH1]. cbv beta. intros t H. lra.
      * constructor; assumption.
Qed.

(** C6.  Over any sequence of volumes and timestamps, any two changes of
    the breathing state the classifier applies are more than
    [min_state_duration] (0.3 s) apart, the first of them more than that
    after the change the run started from; and a call applies a change only
    when the state the volume asks for differs from the current one and
    more than [min_state_duration] has passed since the last change. *)
Theorem transitions_are_debounced
  (d : Detector.t) (inputs : list (PyFloat.t * Q)) :
  ForallOrdPairs (fun t t' => Detector.min_state_duration < t' - t)
    (Detector.last_state_change d :: snd (fst (Detector.classify d inputs)))
  /\ Detector.min_state_duration = 0.3
  /\ forall (volume : PyFloat.t) (now : Q),
       let d' := fst (Detector._detect_breathing d volume now) in
       d' <> d ->
       Detector.target_state d volume now <> Detector.breathing_state d
       /\ Detector.min_state_duration < now - Detector.last_state_change d
       /\ Detector.breathing_state d' = Detector.target_state d volume now
       /\ Detector.last_state_change d' = now.
Proof.
  destruct (classify_separated inputs d) as [H1 H2].
  split; [constructor; assumption|].
  split; [reflexivity|].
  intros volume now d' Hne.
  destruct (detect_breathing_step d volume now)
    as [[Hd _]|[Hs [Hn [Hl [Ht _]]]]]; [contradiction|].
  fold d' in Hs, Hn, Hl. rewrite <- Hn.
  repeat split; try assumption.
  intro E. rewrite E, String.eqb_refl in Hs. discriminate.
Qed.

(** A calibrated detector in the neutral state, made at clock 0. *)
Lemma transitions_are_debounced_witness :
  let d := Detector.mk 1.0 true true [] "neutral" 0 100 150 50 [] true in
  let d' := fst (Detector._detect_breathing d (PyFloat.Fin 200) 1) in
  Detector.target_state d (PyFloat.Fin 200) 1 <> Detector.breathing_state d
  /\ Detector.min_state_duration < 1 - Detector.last_state_change d
  /\ Detector.breathing_state d' = Detector.target_state d (PyFloat.Fin 200) 1
  /\ Detector.last_state_change d' = 1.
Proof.
  refine (proj2 (proj2 (transitions_are_debounced
            (Detector.mk 1.0 true true [] "neutral" 0 100 150 50 [] true) []))
          (PyFloat.Fin 200) 1 _).
  vm_compute. discriminate.
Defined.

(** The state a call asks for, by the tests that decide it. *)
Lemma target_state_cases (d : Detector.t) (volume : PyFloat.t) (now : Q) :
  let ns := Detector.target_state d volume now in
  (PyFloat.gtb volume (Detector.inhale_threshold d) = true
   /\ ns = "inhale"%string)
  \/ (PyFloat.gtb volume (Detector.inhale_threshold d) = false
      /\ PyFloat.ltb volume (Detector.exhale_threshold d) = true
      /\ ns = "exhale"%string)
  \/ (PyFloat.gtb volume (Detector.inhale_threshold d) = false
      /\ PyFloat.ltb volume (Detector.exhale_threshold d) = false
      /\ Detector.min_state_duration < now - Detector.last_state_change d
      /\ ns = "neutral"%string)
  \/ (PyFloat.gtb volume (Detector.inhale_threshold d) = false
      /\ PyFloat.ltb volume (Detector.exhale_threshold d) = false
      /\ ~ Detector.min_state_duration < now - Detector.last_state_change d
      /\ ns = Detector.breathing_state d).
Proof.
  cbv zeta. unfold Detector.target_state.
  destruct (PyFloat.gtb volume _); [left; split; reflexivity|].
  destruct (PyFloat.ltb volume _);
    [right; left; repeat split; reflexivity|].
  destruct (Py.ltb _ _) eqn:T.
  - apply ltb_true in T. right. right. left. repeat split. exact T.
  - apply ltb_false in T. right. right. right.
    split; [reflexivity|]. split; [reflexivity|].
    split; [intro H; lra|reflexivity].
Qed.

(** What a call of [_detect_breathing] does, by whether it applies a
    change. *)
Lemma detect_breathing_cases (d : Detector.t) (volume : PyFloat.t) (now : Q) :
  let ns := Detector.target_state d volume now in
  let r := Detector._detect_breathing d volume now in
  (r = (d, [])
   /\ (ns = Detector.breathing_state d
       \/ ~ Detector.min_state_duration < now - Detector.last_state_change d))
  \/ (ns <> Detector.breathing_state d
      /\ Detector.min_state_duration < now - Detector.last_state_change d
      /\ fst r = Detector.set_state d ns now
      /\ (ns = "inhale"%string \/ ns = "exhale"%string ->
          snd r = if Detector.callback d then [(ns, volume)] else [])
      /\ (ns = "neutral"%string -> snd r = [])).
Proof.
  cbv zeta. unfold Detector._detect_breathing.
  destruct (String.eqb (Detector.target_state d volume now)
                       (Detector.breathing_state d)) eqn:E.
  - left. split; [reflexivity|]. left. apply String.eqb_eq, E.
  - cbn [negb andb].
    destruct (Py.ltb _ _) eqn:T.
    + right. apply String.eqb_neq in E. apply ltb_true in T.
      split; [exact E|]. split; [exact T|].
      cbn [Detector.callback Detector.set_state].
      split; [destruct (Detector.callback d && _); reflexivity|].
      split.
      * intros [H|H]; rewrite H; cbn;
          destruct (Detector.callback d); reflexivity.
      * intro H. rewrite H. cbn. rewrite andb_false_r. reflexivity.
    + left. split; [reflexivity|]. right. intro H.
      apply ltb_false in T. lra.
Qed.

(** C7.  A call of [_detect_breathing] invokes the registered callback
    exactly when it applies a change of state into "inhale" or "exhale",
    and then once, with that label and the volume; a change into "neutral"
    is recorded with its timestamp and makes no call, and a call that
    changes nothing makes none.  Such changes do happen: once more than
    [min_state_duration] has passed since the last one, a volume above the
    inhale threshold takes any other state to "inhale", a volume below the
    exhale threshold (and not above the inhale threshold) takes any other
    state to "exhale", each with its call when a callback is registered,
    and a volume in between takes "inhale" and "exhale" to "neutral"
    without one. *)
Theorem callback_only_on_inhale_or_exhale
  (d : Detector.t) (volume : PyFloat.t) (now : Q) :
  let d' := fst (Detector._detect_breathing d volume now) in
  let calls := snd (Detector._detect_breathing d volume now) in
  let louder := PyFloat.gtb volume (Detector.inhale_threshold d) in
  let quieter := PyFloat.ltb volume (Detector.exhale_threshold d) in
  (calls = []
   \/ (calls = [("inhale"%string, volume)]
       /\ Detector.breathing_state d' = "inhale"%string)
   \/ (calls = [("exhale"%string, volume)]
       /\ Detector.breathing_state d' = "exhale"%string))
  /\ (calls <> [] ->
      Detector.callback d = true
      /\ Detector.breathing_state d' <> Detector.breathing_state d)
  /\ (Detector.callback d = true ->
      Detector.breathing_state d' <> Detector.breathing_state d ->
      (Detector.breathing_state d' = "inhale"%string ->
       calls = [("inhale"%string, volume)])
      /\ (Detector.breathing_state d' = "exhale"%string ->
          calls = [("exhale"%string, volume)]))
  /\ (Detector.breathing_state d' = Detector.breathing_state d ->
      d' = d /\ calls = [])
  /\ (Detector.breathing_state d' <> Detector.breathing_state d ->
      Detector.last_state_change d' = now
      /\ is_label (Detector.breathing_state d'))
  /\ (Detector.breathing_state d' = "neutral"%string -> calls = [])
  /\ (Detector.min_state_duration < now - Detector.last_state_change d ->
      (louder = true ->
       Detector.breathing_state d <> "inhale"%string ->
       Detector.breathing_state d' = "inhale"%string
       /\ calls = if Detector.callback d
                  then [("inhale"%string, volume)] else [])
      /\ (louder = false -> quieter = true ->
          Detector.breathing_state d <> "exhale"%string ->
          Detector.breathing_state d' = "exhale"%string
          /\ calls = if Detector.callback d
                     then [("exhale"%string, volume)] else [])
      /\ (louder = false -> quieter = false ->
          Detector.breathing_state d <> "neutral"%string ->
          Detector.breathing_state d' = "neutral"%string
          /\ Detector.last_state_change d' = now
          /\ calls = [])).
Proof.
  cbv zeta.
  destruct (detect_breathing_cases d volume now)
    as [[Hr Hwhy]|[Hne [Ht [Hd [Hcall Hquiet]]]]].
  - (* nothing is applied *)
    rewrite Hr. cbn [fst snd].
    split; [left; reflexivity|].
    split; [intro H; exfalso; apply H; reflexivity|].
    split; [intros _ H; exfalso; apply H; reflexivity|].
    split; [intros _; split; reflexivity|].
    split; [intro H; exfalso; apply H; reflexivity|].
    split; [intros _; reflexivity|].
    intro T. destruct Hwhy as [Hsame|Hnot]; [|exfalso; exact (Hnot T)].
    destruct (target_state_cases d volume now)
      as [[G E]|[[G [L E]]|[[G [L [_ E]]]|[_ [_ [Hnot _]]]]]];
      [| | |exfalso; exact (Hnot T)];
      cbv zeta in E; rewrite E in Hsame.
    + split; [intros _ H; exfalso; apply H; symmetry; exact Hsame|].
      split; [intro H; rewrite H in G; discriminate G|].
      intro H; rewrite H in G; discriminate G.
    + split; [intro H; rewrite H in G; discriminate G|].
      split; [intros _ _ H; exfalso; apply H; symmetry; exact Hsame|].
      intros _ H; rewrite H in L; discriminate L.
    + split; [intro H; rewrite H in G; discriminate G|].
      split; [intros _ H; rewrite H in L; discriminate L|].
      intros _ _ H; exfalso; apply H; symmetry; exact Hsame.
  - (* a change is applied *)
    set (ns := Detector.target_state d volume now) in *.
    assert (Hs : Detector.breathing_state
                   (fst (Detector._detect_breathing d volume now)) = ns)
      by (rewrite Hd; reflexivity).
    assert (Hl : Detector.last_state_change
                   (fst (Detector._detect_breathing d volume now)) = now)
      by (rewrite Hd; reflexivity).
    rewrite Hs, Hl.
    assert (Hlab : ns = "inhale"%string \/ ns = "exhale"%string
                   \/ ns = "neutral"%string).
    { destruct (target_state_cases d volume now)
        as [[_ E]|[[_ [_ E]]|[[_ [_ [_ E]]]|[_ [_ [_ E]]]]]];
        cbv zeta in E; fold ns in E; auto.
      exfalso. exact (Hne E). }
    split.
    { destruct Hlab as [E|[E|E]].
      - rewrite (Hcall (or_introl E)), E.
        destruct (Detector.callback d); [right; left; split|left];
          reflexivity.
      - rewrite (Hcall (or_intror E)), E.
        destruct (Detector.callback d); [right; right; split|left];
          reflexivity.
      - left. apply Hquiet, E. }
    split.
    { intro Hc. split; [|exact Hne].
      destruct Hlab as [E|[E|E]].
      - rewrite (Hcall (or_introl E)) in Hc.
        destruct (Detector.callback d); [reflexivity|].
        exfalso. apply Hc. reflexivity.
      - rewrite (Hcall (or_intror E)) in Hc.
        destruct (Detector.callback d); [reflexivity|].
        exfalso. apply Hc. reflexivity.
      - exfalso. apply Hc, Hquiet, E. }
    split.
    { intros Hcb _. split; intro E.
      - rewrite (Hcall (or_introl E)), Hcb, E. reflexivity.
      - rewrite (Hcall (or_intror E)), Hcb, E. reflexivity. }
    split; [intro E; exfalso; exact (Hne E)|].
    split; [intros _; split; [reflexivity|unfold is_label; tauto]|].
    split; [exact Hquiet|].
    intros _.
    destruct (target_state_cases d volume now)
      as [[G E]|[[G [L E]]|[[G [L [_ E]]]|[_ [_ [_ E]]]]]];
      cbv zeta in E; fold ns in E; try (exfalso; exact (Hne E)).
    + split; [intros _ _; split;
              [exact E|rewrite (Hcall (or_introl E)), E; reflexivity]|].
      split; [intro H; rewrite H in G; discriminate G|].
      intro H; rewrite H in G; discriminate G.
    + split; [intro H; rewrite H in G; discriminate G|].
      split; [intros _ _ _; split;
              [exact E|rewrite (Hcall (or_intror E)), E; reflexivity]|].
      intros _ H; rewrite H in L; discriminate L.
    + split; [intro H; rewrite H in G; discriminate G|].
      split; [intros _ H; rewrite H in L; discriminate L|].
      intros _ _ _. split; [exact E|]. split; [reflexivity|].
      apply Hquiet, E.
Qed.

Lemma callback_only_on_inhale_or_exhale_witness :
  let d := Detector.mk 1.0 true true [] "neutral" 0 100 150 50 [] true in
  let e := Detector.mk 1.0 true true [] "inhale" 0 100 150 50 [] true in
  snd (Detector._detect_breathing d (PyFloat.Fin 200) 1)
  = [("inhale"%string, PyFloat.Fin 200)]
  /\ snd (Detector._detect_breathing d (PyFloat.Fin 20) 1)
     = [("exhale"%string, PyFloat.Fin 20)]
  /\ Detector.breathing_state
       (fst (Detector._detect_breathing e (PyFloat.Fin 100) 1))
     = "neutral"%string
  /\ snd (Detector._detect_breathing e (PyFloat.Fin 100) 1) = [].
Proof.
  assert (T : Detector.min_state_duration < 1 - 0) by q_decide.
  split; [|split].
  - destruct (callback_only_on_inhale_or_exhale
                (Detector.mk 1.0 true true [] "neutral" 0 100 150 50 [] true)
                (PyFloat.Fin 200) 1) as [_ [_ [_ [_ [_ [_ H]]]]]].
    destruct (H T) as [Hin _].
    destruct (Hin eq_refl) as [_ Hc]; [discriminate|exact Hc].
  - destruct (callback_only_on_inhale_or_exhale
                (Detector.mk 1.0 true true [] "neutral" 0 100 150 50 [] true)
                (PyFloat.Fin 20) 1) as [_ [_ [_ [_ [_ [_ H]]]]]].
    destruct (H T) as [_ [Hex _]].
    destruct (Hex eq_refl eq_refl) as [_ Hc]; [discriminate|exact Hc].
  - destruct (callback_only_on_inhale_or_exhale
                (Detector.mk 1.0 true true [] "inhale" 0 100 150 50 [] true)
                (PyFloat.Fin 100) 1) as [_ [_ [_ [_ [_ [_ H]]]]]].
    destruct (H T) as [_ [_ Hne]].
    destruct (Hne eq_refl eq_refl) as [Hs [_ Hc]]; [discriminate|].
    split; [exact Hs|exact Hc].
Defined.

(** ** Calibration *)

(** The reductions on small arrays: the median of an odd and of an even
    number of values, the mean, and the spread of values whose variance is a
    perfect square. *)
Example np_reductions :
  Np.median [3; 1; 2] == 2
  /\ Np.median [4; 1; 3; 2] == 2.5
  /\ Np.mean [1; 2; 3; 6] == 3
  /\ Np.std [0.25; 0.75; 0.25; 0.75] == 0.25
  /\ Np.std [7; 7; 7] == 0.
Proof. vm_compute. repeat split; reflexivity. Qed.

Lemma valid_volumes_nonneg (volumes : list PyFloat.t) :
  Forall (fun q => 0 <= q) (Detector.valid_volumes volumes).
Proof.
  induction volumes as [|v volumes IH]; simpl; [constructor|].
  destruct v as [q| | |]; try exact IH.
  simpl. destruct (Qle_bool 0 q) eqn:E; [|exact IH].
  constructor; [apply Qle_bool_iff; exact E | exact IH].
Qed.

Lemma insert_nonneg (x : Q) (l : list Q) :
  0 <= x -> Forall (fun q => 0 <= q) l ->
  Forall (fun q => 0 <= q) (Np.insert x l).
Proof.
  intros Hx Hl. induction Hl as [|y l Hy Hl IH]; simpl.
  - constructor; [exact Hx | constructor].
  - destruct (Qle_bool x y); repeat constructor; assumption.
Qed.

Lemma sort_nonneg (l : list Q) :
  Forall (fun q => 0 <= q) l -> Forall (fun q => 0 <= q) (Np.sort l).
Proof.
  unfold Np.sort. induction 1 as [|x l Hx Hl IH]; simpl.
  - constructor.
  - apply insert_nonneg; assumption.
Qed.

Lemma nth_nonneg (l : list Q) (n : nat) :
  Forall (fun q => 0 <= q) l -> 0 <= nth n l 0.
Proof.
  intro H. revert n. induction H as [|x l Hx Hl IH]; intros [|n]; simpl;
    try lra; auto.
Qed.

Lemma median_nonneg (l : list Q) :
  Forall (fun q => 0 <= q) l -> 0 <= Np.median l.
Proof.
  intro H. apply sort_nonneg in H. unfold Np.median.
  pose proof (nth_nonneg _ (List.length l / 2 - 1) H).
  pose proof (nth_nonneg _ (List.length l / 2) H).
  destruct (Nat.even _); [|assumption].
  apply Qle_shift_div_l; lra.
Qed.

Lemma sqrt_nonneg (q : Q) : 0 <= Np.sqrt q.
Proof.
  unfold Np.sqrt. destruct (Qle_bool q 0); [lra|].
  unfold Qle. simpl. rewrite Z.mul_1_r. apply Z.sqrt_nonneg.
Qed.

(** The modelled root is positive on positive arguments. *)
Lemma sqrt_pos (q : Q) : 0 < q -> 0 < Np.sqrt q.
Proof.
  intro H. unfold Np.sqrt.
  destruct (Qle_bool q 0) eqn:E; [apply Qle_bool_iff in E; lra|].
  unfold Qlt in *. cbn [Qnum Qden] in *. rewrite Z.mul_1_r in *.
  rewrite Z.mul_0_l in *. apply Z.sqrt_pos.
  apply Z.mul_pos_pos; [apply Z.mul_pos_pos; lia | apply Z.pow_pos_nonneg; lia].
Qed.

(** The root of a square is exact. *)
Lemma sqrt_square (r : Q) : 0 <= r -> Np.sqrt (r * r) == r.
Proof.
  intro H. unfold Np.sqrt.
  destruct (Qle_bool (r * r) 0) eqn:E.
  - apply Qle_bool_iff in E. nra.
  - destruct r as [a b]. unfold Qle in H. cbn [Qnum Qden] in H.
    rewrite Z.mul_1_r in H. cbn [Z.mul] in H.
    unfold Qeq, Qmult. cbn [Qnum Qden].
    replace (a * a * Z.pos (b * b) * 4 ^ 64)%Z
      with ((a * Z.pos b * 2 ^ 64) * (a * Z.pos b * 2 ^ 64))%Z.
    + rewrite Z.sqrt_square.
      * rewrite !Pos2Z.inj_mul, Pos2Z.inj_pow. ring.
      * apply Z.mul_nonneg_nonneg; [apply Z.mul_nonneg_nonneg; lia|].
        apply Z.pow_nonneg. lia.
    + rewrite Pos2Z.inj_mul. change (4 ^ 64)%Z with (2 ^ 64 * 2 ^ 64)%Z. ring.
Qed.

Lemma std_nonneg (l : list Q) : 0 <= Np.std l.
Proof. apply sqrt_nonneg. Qed.

Lemma half (x : Q) : x / 2 = x * (1 # 2).
Proof. reflexivity. Qed.

Ltac py_split :=
  repeat match goal with
  | |- context [Py.ltb ?a ?b] =>
      lazymatch a with
      | context [Py.ltb _ _] => fail
      | _ => lazymatch b with
             | context [Py.ltb _ _] => fail
             | _ => let E := fresh "E" in destruct (Py.ltb a b) eqn:E
             end
      end
  end; py_order.

Lemma thresholds_from (b s m : Q) :
  0 < b -> 0 < s -> 0 <= m ->
  b < inhale_from b s m
  /\ (11 <= b ->
      exhale_from b s m < b
      /\ Py.max 20.0 (b * 0.4) <= inhale_from b s m - exhale_from b s m)
  /\ (b < 11 ->
      (exhale_from b s m < b
       /\ Py.max 20.0 (b * 0.4) <= inhale_from b s m - exhale_from b s m)
      \/ (exhale_from b s m == 1 /\ inhale_from b s m == b + 10)).
Proof.
  intros Hb Hs Hm.
  assert (Hsm : 0 <= s * m) by (apply Qmult_le_0_compat; lra).
  unfold inhale_from, exhale_from.
  cbv zeta. set (p := s * m) in *. clearbody p.
  unfold Py.max, Py.abs. rewrite !half.
  py_split.
  all: try (exfalso; lra).
  all: repeat split; try lra.
  all: try (intros; split; lra).
  all: try (intros; left; split; lra).
  all: try (intros; right; split; lra).
Qed.

Lemma auto_calibrate_profile (d : Detector.t) :
  (50 <= List.length (Detector.calibration_samples d))%nat ->
  (10 <= List.length (Detector.valid_volumes (Detector.calibration_samples d)))%nat ->
  let d' := Detector._auto_calibrate d in
  exists b s : Q,
    0 < b /\ 0 < s
    /\ Detector.baseline_volume d' = b
    /\ Detector.inhale_threshold d' = inhale_from b s (Detector.sensitivity d)
    /\ Detector.exhale_threshold d' = exhale_from b s (Detector.sensitivity d)
    /\ Detector.is_calibrated d' = true.
Proof.
  intros H50 H10. unfold Detector._auto_calibrate.
  apply Nat.ltb_ge in H50, H10. rewrite H50, H10.
  set (valid := Detector.valid_volumes (Detector.calibration_samples d)).
  pose proof (median_nonneg valid (valid_volumes_nonneg _)) as Hmed.
  pose proof (std_nonneg valid) as Hstd.
  cbn [Detector.baseline_volume Detector.set_baseline_volume].
  destruct (Qeq_bool (Np.median valid) 0 || Qeq_bool (Np.std valid) 0) eqn:E.
  - exists (Py.max 100.0 (Np.mean valid)),
           (Py.max 50.0 (Py.max 100.0 (Np.mean valid) * 0.5)).
    pose proof (max_lower 100.0 (Np.mean valid)) as [H1 _].
    pose proof (max_lower 50.0 (Py.max 100.0 (Np.mean valid) * 0.5)) as [H2 _].
    split; [lra|]. split; [lra|].
    unfold inhale_from, exhale_from. cbn.
    destruct (Py.ltb _ _); repeat split; reflexivity.
  - apply orb_false_iff in E as [E1 E2].
    apply Qeq_bool_neq in E1, E2.
    exists (Np.median valid), (Np.std valid).
    split; [lra|]. split; [lra|].
    unfold inhale_from, exhale_from. cbn.
    destruct (Py.ltb _ _); repeat split; reflexivity.
Qed.

(** What a calibration run does establish, in the exact arithmetic of this
    model.  Over a buffer of at least 50 samples, at least 10 of them
    finite and non-negative, and at a sensitivity that is not negative, it
    leaves the detector calibrated with [inhale_threshold > baseline_volume];
    when the baseline is at least 11 it also leaves
    [baseline_volume > exhale_threshold] and
    [inhale_threshold - exhale_threshold >= max(20, 0.4 * baseline_volume)];
    for a smaller baseline either both still hold, or the thresholds were
    recentred and the floor of 1.0 on the exhale threshold took over.  The
    code's floats can miss the last bound by a rounding error. *)
Theorem calibration_thresholds (d : Detector.t) :
  (50 <= List.length (Detector.calibration_samples d))%nat ->
  (10 <= List.length
           (Detector.valid_volumes (Detector.calibration_samples d)))%nat ->
  0 <= Detector.sensitivity d ->
  let d' := Detector._auto_calibrate d in
  let separated :=
    Detector.exhale_threshold d' < Detector.baseline_volume d'
    /\ Py.max 20.0 (Detector.baseline_volume d' * 0.4)
       <= Detector.inhale_threshold d' - Detector.exhale_threshold d' in
  Detector.is_calibrated d' = true
  /\ Detector.baseline_volume d' < Detector.inhale_threshold d'
  /\ (11 <= Detector.baseline_volume d' -> separated)
  /\ (Detector.baseline_volume d' < 11 ->
      separated
      \/ (Detector.exhale_threshold d' == 1
          /\ Detector.inhale_threshold d'
             == Detector.baseline_volume d' + 10)).
Proof.
  intros H50 H10 Hs d' separated. subst separated.
  destruct (auto_calibrate_profile d H50 H10)
    as [b [s [Hb [Hsp [Eb [Ei [Ee Ec]]]]]]].
  fold d' in Eb, Ei, Ee, Ec. rewrite Eb, Ei, Ee, Ec.
  split; [reflexivity|].
  apply thresholds_from; assumption.
Qed.

Lemma calibration_thresholds_witness :
  let d := Detector._auto_calibrate quiet_detector in
  Detector.is_calibrated d = true
  /\ Detector.baseline_volume d < Detector.inhale_threshold d.
Proof.
  pose proof (calibration_thresholds quiet_detector) as H.
  assert (H50 : (50 <= List.length
                         (Detector.calibration_samples quiet_detector))%nat)
    by (vm_compute; repeat constructor).
  assert (H10 : (10 <= List.length
                         (Detector.valid_volumes
                            (Detector.calibration_samples quiet_detector)))%nat)
    by (vm_compute; repeat constructor).
  assert (Hs : 0 <= Detector.sensitivity quiet_detector)
    by (vm_compute; discriminate).
  destruct (H H50 H10 Hs) as [H1 [H2 _]].
  split; assumption.
Defined.

(** C1.  The code breaks the claim on a quiet microphone.  One hundred
    samples, fifty at 0.25 and fifty at 0.75, all finite and non-negative,
    at sensitivity 1: the baseline is 0.5, the separation of the first
    thresholds is below [min_separation], so they are recentred and the
    floor of 1.0 on the exhale threshold takes over: the thresholds are 10.5
    and 1.  The exhale threshold is above the baseline, where the code's own
    comment wants it below, and the separation of 9.5 is below
    [max(20, 0.4 * 0.5) = 20], which the recentring is there to ensure.  All
    the values are exact in the code's floats. *)
Lemma quiet_calibration_breaks_order :
  let d := quiet_detector in
  let d' := Detector._auto_calibrate d in
  List.length (Detector.valid_volumes (Detector.calibration_samples d))
  = 100%nat
  /\ Detector.is_calibrated d' = true
  /\ Detector.baseline_volume d' == 0.5
  /\ Detector.inhale_threshold d' == 10.5
  /\ Detector.exhale_threshold d' == 1
  /\ ~ (Detector.baseline_volume d' > Detector.exhale_threshold d')
  /\ ~ (Detector.inhale_threshold d' - Detector.exhale_threshold d'
        >= Py.max 20 (0.4 * Detector.baseline_volume d')).
Proof.
  vm_compute. repeat split; try reflexivity; intro H; try discriminate H.
  apply H. reflexivity.
Qed.

Lemma auto_calibrate_samples (d : Detector.t) :
  Detector.calibration_samples (Detector._auto_calibrate d)
  = Detector.calibration_samples d.
Proof.
  unfold Detector._auto_calibrate.
  repeat match goal with
  | |- context [if ?c then _ else _] => destruct c
  end; reflexivity.
Qed.

Lemma auto_calibrate_calibrated (d : Detector.t) :
  (50 <= List.length (Detector.calibration_samples d))%nat ->
  Detector.is_calibrated (Detector._auto_calibrate d) = true.
Proof.
  intro H50. unfold Detector._auto_calibrate.
  apply Nat.ltb_ge in H50. rewrite H50.
  repeat match goal with
  | |- context [if ?c then _ else _] => destruct c
  end; reflexivity.
Qed.

Lemma auto_calibrate_running (d : Detector.t) :
  Detector.is_running (Detector._auto_calibrate d) = Detector.is_running d.
Proof.
  unfold Detector._auto_calibrate.
  repeat match goal with
  | |- context [if ?c then _ else _] => destruct c
  end; reflexivity.
Qed.

Lemma detect_breathing_flags (d : Detector.t) (v : PyFloat.t) (now : Q) :
  let d' := fst (Detector._detect_breathing d v now) in
  Detector.is_calibrated d' = Detector.is_calibrated d
  /\ Detector.is_running d' = Detector.is_running d.
Proof.
  unfold Detector._detect_breathing.
  repeat match goal with
  | |- context [if ?c then _ else _] => destruct c
  end; split; reflexivity.
Qed.

(** What one audio frame does to the flags and to the sample buffer. *)
Lemma audio_callback_step (d : Detector.t) (volume now : Q) :
  Detector.is_running d = true ->
  let d' := fst (Detector._audio_callback d volume now) in
  Detector.is_running d' = true
  /\ (Detector.is_calibrated d = true -> Detector.is_calibrated d' = true)
  /\ (Detector.is_calibrated d = false ->
      List.length (Detector.calibration_samples d')
      = S (List.length (Detector.calibration_samples d))
      /\ Detector.is_calibrated d'
         = (100 <=? S (List.length (Detector.calibration_samples d)))%nat).
Proof.
  intro Hrun. unfold Detector._audio_callback. rewrite Hrun. cbn [negb].
  set (fv := if (0 <? _)%nat then _ else _). clearbody fv.
  set (d1 := Detector.set_volume_history d _).
  assert (H1 : Detector.is_calibrated d1 = Detector.is_calibrated d)
    by reflexivity.
  assert (H2 : Detector.is_running d1 = true) by exact Hrun.
  assert (H3 : Detector.calibration_samples d1 = Detector.calibration_samples d)
    by reflexivity.
  clearbody d1. cbv zeta.
  destruct (Detector.is_calibrated d1) eqn:Ec.
  - destruct (detect_breathing_flags d1 (PyFloat.Fin fv) now) as [Hc Hr].
    rewrite Hc, Hr.
    split; [exact H2|]. split; [intros _; exact Ec|].
    intro H. rewrite H in H1. discriminate H1.
  - cbn [fst]. unfold Detector._collect_calibration_data.
    set (d2 := Detector.set_calibration_samples d1 _).
    assert (L : List.length (Detector.calibration_samples d2)
                = S (List.length (Detector.calibration_samples d))).
    { subst d2. cbn. rewrite length_app, H3. simpl. lia. }
    assert (R2 : Detector.is_running d2 = true) by exact H2.
    assert (C2 : Detector.is_calibrated d2 = false) by exact Ec.
    clearbody d2. cbv zeta. rewrite L.
    split; [|split; [intro H; rewrite H in H1; discriminate H1|intros _]].
    + destruct (100 <=? S _)%nat;
        [rewrite auto_calibrate_running|]; exact R2.
    + destruct (100 <=? S _)%nat eqn:E.
      * rewrite auto_calibrate_samples.
        rewrite auto_calibrate_calibrated by (apply Nat.leb_le in E; lia).
        split; [exact L|reflexivity].
      * split; [exact L|exact C2].
Qed.

(** A running detector is calibrated by the frame that brings its buffer
    to one hundred samples, and stays calibrated. *)
Lemma feed_calibrates (frames : list (Q * Q)) (d : Detector.t) :
  Detector.is_running d = true ->
  (Detector.is_calibrated d = true
   \/ (List.length (Detector.calibration_samples d) < 100
       /\ 100 <= List.length (Detector.calibration_samples d)
                 + List.length frames)%nat) ->
  Detector.is_calibrated (Detector.feed d frames) = true.
Proof.
  unfold Detector.feed. revert d.
  induction frames as [|[volume now] frames IH]; intros d Hrun H.
  - destruct H as [H|[H1 H2]]; [exact H|]. simpl in H2. lia.
  - cbn [fold_left fst snd].
    destruct (audio_callback_step d volume now Hrun) as [Hr [Hc Hu]].
    apply IH; [exact Hr|].
    destruct H as [H|[H1 H2]]; [left; apply Hc, H|].
    destruct (Detector.is_calibrated d) eqn:Ec; [left; apply Hc; reflexivity|].
    destruct (Hu eq_refl) as [HL HC].
    destruct (100 <=? S _)%nat eqn:E.
    + left. exact HC.
    + right. apply Nat.leb_gt in E. rewrite HL. cbn [List.length] in H2. lia.
Qed.

(** C9.  When calibration is computed (the buffer holds the 50 samples
    [_auto_calibrate] asks for) and fewer than 10 finite non-negative values
    remain after filtering, the profile is baseline 100.0, inhale threshold
    150.0, exhale threshold 50.0, and the detector is calibrated.  Computed
    calibration always ends calibrated, the sample that brings the buffer
    to 100 samples always triggers it, and so a running detector that starts
    uncalibrated is calibrated once it has been fed enough audio frames to
    fill the buffer to 100, whatever their volumes. *)
Theorem calibration_falls_back_to_defaults
  (d : Detector.t) (volume : PyFloat.t) :
  ((50 <= List.length (Detector.calibration_samples d))%nat ->
   Detector.is_calibrated (Detector._auto_calibrate d) = true
   /\ ((List.length (Detector.valid_volumes (Detector.calibration_samples d))
        < 10)%nat ->
       Detector.baseline_volume (Detector._auto_calibrate d) = 100.0
       /\ Detector.inhale_threshold (Detector._auto_calibrate d) = 150.0
       /\ Detector.exhale_threshold (Detector._auto_calibrate d) = 50.0))
  /\ ((99 <= List.length (Detector.calibration_samples d))%nat ->
      let d' := Detector._collect_calibration_data d volume in
      Detector.is_calibrated d' = true
      /\ ((List.length
             (Detector.valid_volumes (Detector.calibration_samples d'))
           < 10)%nat ->
          Detector.baseline_volume d' = 100.0
          /\ Detector.inhale_threshold d' = 150.0
          /\ Detector.exhale_threshold d' = 50.0))
  /\ (forall frames : list (Q * Q),
        Detector.is_running d = true ->
        Detector.is_calibrated d = false ->
        (List.length (Detector.calibration_samples d) < 100)%nat ->
        (100 <= List.length (Detector.calibration_samples d)
                + List.length frames)%nat ->
        Detector.is_calibrated (Detector.feed d frames) = true).
Proof.
  assert (A : forall d0 : Detector.t,
    (50 <= List.length (Detector.calibration_samples d0))%nat ->
    Detector.is_calibrated (Detector._auto_calibrate d0) = true
    /\ ((List.length (Detector.valid_volumes (Detector.calibration_samples d0))
         < 10)%nat ->
        Detector.baseline_volume (Detector._auto_calibrate d0) = 100.0
        /\ Detector.inhale_threshold (Detector._auto_calibrate d0) = 150.0
        /\ Detector.exhale_threshold (Detector._auto_calibrate d0) = 50.0)).
  { intros d0 H50. split; [apply auto_calibrate_calibrated, H50|].
    intro H10. unfold Detector._auto_calibrate.
    apply Nat.ltb_ge in H50. apply Nat.ltb_lt in H10.
    rewrite H50, H10. repeat split; reflexivity. }
  split; [apply A|].
  split;
    [|intros frames Hrun _ Hlt Hge; apply feed_calibrates;
      [exact Hrun | right; split; assumption]].
  intros H99 d'. subst d'. unfold Detector._collect_calibration_data.
  set (d1 := Detector.set_calibration_samples d
               (Detector.calibration_samples d ++ [volume])).
  assert (H100 : (100 <= List.length (Detector.calibration_samples d1))%nat).
  { cbn. rewrite length_app. simpl. lia. }
  pose proof H100 as Hb. apply Nat.leb_le in Hb. rewrite Hb.
  rewrite auto_calibrate_samples. apply A. lia.
Qed.

Lemma calibration_falls_back_witness :
  let d := broken_detector in
  Detector.is_calibrated (Detector._auto_calibrate d) = true
  /\ Detector.baseline_volume (Detector._auto_calibrate d) = 100.0
  /\ Detector.inhale_threshold (Detector._auto_calibrate d) = 150.0
  /\ Detector.exhale_threshold (Detector._auto_calibrate d) = 50.0.
Proof.
  pose proof (calibration_falls_back_to_defaults broken_detector PyFloat.NaN)
    as [H _].
  assert (H50 : (50 <= List.length
                         (Detector.calibration_samples broken_detector))%nat)
    by (vm_compute; repeat constructor).
  destruct (H H50) as [H1 H2].
  split; [exact H1|]. apply H2. vm_compute. repeat constructor.
Defined.

(** ** Pipes and score *)

Lemma pipe_eqb_refl (p : Pipe.t) : Pipe.eqb p p = true.
Proof.
  unfold Pipe.eqb.
  rewrite !Qeq_bool_refl, !Z.eqb_refl, Bool.eqb_reflx. reflexivity.
Qed.

Lemma pipe_eqb_on_screen (p q : Pipe.t) :
  Pipe.eqb p q = true -> on_screen p = on_screen q.
Proof.
  unfold Pipe.eqb, on_screen. intro H.
  repeat (apply andb_true_iff in H as [H ?]).
  apply Qeq_bool_eq in H.
  match goal with E : Z.eqb (Pipe.width _) _ = true |- _ =>
    apply Z.eqb_eq in E; rewrite E end.
  f_equal. unfold Py.ltb. f_equal.
  destruct (Qle_bool 0 (Pipe.x q + _)) eqn:E.
  - apply Qle_bool_iff. apply Qle_bool_iff in E. lra.
  - destruct (Qle_bool 0 (Pipe.x p + _)) eqn:E'; [|reflexivity].
    apply Qle_bool_iff in E'.
    assert (0 <= Pipe.x q + inject_Z (Pipe.width q)) as E'' by lra.
    apply Qle_bool_iff in E''. congruence.
Qed.

(** [remove] finds the off-screen pipe itself: nothing kept so far can be
    equal to it. *)
Lemma list_remove_last (p : Pipe.t) (visited : list Pipe.t) :
  on_screen p = false ->
  Forall (fun q => on_screen q = true) visited ->
  Game.list_remove p (visited ++ [p]) = visited.
Proof.
  intros Hp Hv. induction Hv as [|q visited Hq Hv IH]; simpl.
  - rewrite pipe_eqb_refl. reflexivity.
  - destruct (Pipe.eqb q p) eqn:E.
    + apply pipe_eqb_on_screen in E. congruence.
    + rewrite IH. reflexivity.
Qed.

Lemma move_pipes_kept (speed : Q) (rest visited : list Pipe.t) :
  Forall (fun q => on_screen q = true) visited ->
  Game.move_pipes speed visited rest
  = visited ++ filter on_screen (map (advance speed) rest).
Proof.
  revert visited. induction rest as [|p rest IH]; intros visited Hv.
  - simpl. rewrite app_nil_r. reflexivity.
  - cbn [Game.move_pipes map filter].
    change (Pipe.set_x p (Pipe.x p - speed)) with (advance speed p).
    assert (E : Py.ltb (Pipe.x (advance speed p)
                        + inject_Z (Pipe.width (advance speed p))) 0
                = negb (on_screen (advance speed p))).
    { unfold on_screen. rewrite negb_involutive. reflexivity. }
    rewrite E.
    destruct (on_screen (advance speed p)) eqn:Ep; cbn [negb].
    + rewrite IH.
      * rewrite <- app_assoc. reflexivity.
      * apply Forall_app. split; [exact Hv|].
        constructor; [exact Ep|constructor].
    + rewrite list_remove_last by assumption. apply IH, Hv.
Qed.

(** The first loop of [_update_pipes] moves every pipe and keeps those still
    on screen, in order. *)
Lemma move_pipes_filter (speed : Q) (l : list Pipe.t) :
  Game.move_pipes speed [] l = filter on_screen (map (advance speed) l).
Proof. apply move_pipes_kept. constructor. Qed.

Lemma score_pipes_spec (bx : Q) (l : list Pipe.t) (s : Z) :
  Game.score_pipes bx l s
  = (map (mark bx) l, (s + Z.of_nat (List.length (filter (counts bx) l)))%Z).
Proof.
  revert s. induction l as [|p l IH]; intro s.
  - simpl. rewrite Z.add_0_r. reflexivity.
  - cbn [Game.score_pipes map filter].
    change (negb (Pipe.passed p)
            && Py.ltb (Pipe.x p + inject_Z (Pipe.width p)) bx)
      with (counts bx p).
    unfold mark at 1.
    destruct (counts bx p) eqn:E; rewrite IH; cbn [List.length];
      f_equal; lia.
Qed.

Lemma game_over_keeps (g : Game.t) :
  Game.PIPE_SPEED (Game._game_over g) = Game.PIPE_SPEED g.
Proof.
  unfold Game._game_over.
  destruct (Game.score _ >? Game.high_score _)%Z; reflexivity.
Qed.

(** The physics step touches neither the track nor the score. *)
Lemma physics_keeps (g : Game.t) (dt now : Q) :
  let g' := Game._update_bird_physics g dt now in
  Game.pipes g' = Game.pipes g
  /\ Game.score g' = Game.score g
  /\ Game.PIPE_SPEED g' = Game.PIPE_SPEED g
  /\ Bird.x (Game.bird g') = Bird.x (Game.bird g).
Proof.
  unfold Game._update_bird_physics.
  repeat match goal with
  | |- context [if ?c then _ else _] => destruct c
  end; cbv zeta;
    rewrite ?game_over_pipes, ?game_over_score, ?game_over_keeps,
            ?game_over_bird;
    repeat split; reflexivity.
Qed.

(** [_update_pipes] moves the pipes, drops those off screen, and appends
    at most one new pipe, at the right edge of the screen. *)
Lemma update_pipes_spec (g : Game.t) (dt : Q) (r : Rng.t) :
  let g' := fst (Game._update_pipes g dt r) in
  Game.score g' = Game.score g
  /\ exists spawned : list Pipe.t,
       Game.pipes g'
       = filter on_screen (map (advance (Game.PIPE_SPEED g)) (Game.pipes g))
         ++ spawned
       /\ Forall (fun p => Pipe.passed p = false
                           /\ Pipe.x p = inject_Z Game.GAME_WIDTH
                           /\ Pipe.width p = 50%Z) spawned.
Proof.
  unfold Game._update_pipes. cbv zeta.
  cbn [Game.pipes Game.set_pipes Game.PIPE_SPEED].
  rewrite move_pipes_filter.
  match goal with |- context [if ?c then _ else _] => destruct c end.
  - split; [reflexivity|].
    eexists. split; [reflexivity|]. repeat constructor.
  - split; [reflexivity|].
    exists []. rewrite app_nil_r. split; [reflexivity|constructor].
Qed.

Lemma update_game_spec (g : Game.t) (dt now : Q) (r : Rng.t) :
  let g' := fst (Game._update_game g dt now r) in
  let advanced :=
    Game.pipes (fst (Game._update_pipes
                       (Game._update_bird_physics g dt now) dt r)) in
  Game.pipes g' = map (mark (Bird.x (Game.bird g))) advanced
  /\ Game.score g'
     = (Game.score g
        + Z.of_nat (List.length
                      (filter (counts (Bird.x (Game.bird g))) advanced)))%Z.
Proof.
  cbv zeta. unfold Game._update_game.
  destruct (physics_keeps g dt now) as [_ [Hs [_ Hx]]].
  pose proof (update_pipes_spec (Game._update_bird_physics g dt now) dt r)
    as [Hs2 _].
  pose proof (update_pipes_bird (Game._update_bird_physics g dt now) dt r)
    as Hb2.
  destruct (Game._update_pipes _ dt r) as [g2 r2]. cbn [fst] in *.
  unfold Game._update_score, Game._check_collisions.
  rewrite check_pipes_pipes, check_pipes_score, check_pipes_bird.
  rewrite score_pipes_spec. cbn [fst Game.pipes Game.score Game.set_score
                                 Game.set_pipes].
  rewrite Hb2, Hx, Hs2, Hs. split; reflexivity.
Qed.

Lemma update_game_bird_x (g : Game.t) (dt now : Q) (r : Rng.t) :
  Bird.x (Game.bird (fst (Game._update_game g dt now r)))
  = Bird.x (Game.bird g).
Proof.
  rewrite update_game_bird. apply physics_keeps.
Qed.

Lemma mark_crossed (bx : Q) (p : Pipe.t) :
  crossed bx (mark bx p) = true -> Pipe.passed (mark bx p) = true.
Proof.
  unfold mark, counts.
  destruct (Pipe.passed p) eqn:Ep; cbn [negb andb]; [congruence|].
  destruct (crossed bx p) eqn:Ec; [reflexivity|congruence].
Qed.

Lemma update_game_tidy (g : Game.t) (dt now : Q) (r : Rng.t) :
  Bird.x (Game.bird g) = 100.0 -> tidy (fst (Game._update_game g dt now r)).
Proof.
  intro Hx. unfold tidy. rewrite update_game_bird_x.
  split; [exact Hx|].
  destruct (update_game_spec g dt now r) as [Hp _]. rewrite Hp.
  apply Forall_forall. intros p Hin. apply in_map_iff in Hin as [q [<- _]].
  apply mark_crossed.
Qed.

Lemma breathing_tidy (g : Game.t) (bt : string) (v : PyFloat.t) (now : Q) :
  tidy g -> tidy (Game.on_breathing_input g bt v now).
Proof.
  unfold Game.on_breathing_input.
  repeat match goal with
  | |- context [if ?c then _ else _] => destruct c
  end; intro H; exact H.
Qed.

Lemma reset_tidy (g : Game.t) (now : Q) (r : Rng.t) :
  tidy (fst (Game.reset_game g now r)).
Proof.
  split; [reflexivity|].
  cbn. repeat constructor; intro H; discriminate H.
Qed.

Lemma step_tidy (st : Game.t * Rng.t) (e : Session.Event) :
  tidy (fst st) -> tidy (fst (Session.step st e)).
Proof.
  destruct st as [g r]. cbn [fst Session.step]. intro H.
  destruct e.
  - unfold Game.game_loop_iteration.
    destruct (Game.is_running g); [|exact H].
    destruct (negb _ && negb _); [|exact H].
    apply update_game_tidy, H.
  - cbn [fst]. apply breathing_tidy, H.
  - unfold Game.start_game. destruct (Game.is_running g); [exact H|].
    pose proof (reset_tidy g now r) as Hr.
    destruct (Game.reset_game g now r) as [g' r']. exact Hr.
  - exact H.
  - exact H.
  - apply reset_tidy.
  - exact H.
Qed.

Lemma run_tidy (evs : list Session.Event) (st : Game.t * Rng.t) :
  tidy (fst st) -> tidy (fst (Session.run st evs)).
Proof.
  unfold Session.run. revert st.
  induction evs as [|e evs IH]; intros st H; simpl; [exact H|].
  apply IH, step_tidy, H.
Qed.

Lemma init_tidy : tidy Game.init.
Proof. split; [reflexivity|constructor]. Qed.

Lemma step_score_mono (st : Game.t * Rng.t) (e : Session.Event) :
  Session.resets e = false ->
  (Game.score (fst st) <= Game.score (fst (Session.step st e)))%Z.
Proof.
  destruct st as [g r]. cbn [fst Session.step]. intro H.
  destruct e; try discriminate H; cbn [fst]; try apply Z.le_refl.
  - unfold Game.game_loop_iteration.
    destruct (Game.is_running g); [|apply Z.le_refl].
    destruct (negb _ && negb _); [|apply Z.le_refl].
    destruct (update_game_spec g delta_time now r) as [_ Hs].
    rewrite Hs. lia.
  - unfold Game.on_breathing_input.
    repeat match goal with
    | |- context [if ?c then _ else _] => destruct c
    end; apply Z.le_refl.
Qed.

Lemma run_score_mono (evs : list Session.Event) (st : Game.t * Rng.t) :
  forallb (fun e => negb (Session.resets e)) evs = true ->
  (Game.score (fst st) <= Game.score (fst (Session.run st evs)))%Z.
Proof.
  unfold Session.run. revert st.
  induction evs as [|e evs IH]; intros st H; simpl; [apply Z.le_refl|].
  simpl in H. apply andb_true_iff in H as [He H].
  apply negb_true_iff in He.
  etransitivity; [apply step_score_mono, He | apply IH, H].
Qed.

Lemma filter_counts_kept (bx : Q) (l : list Pipe.t) :
  Forall (fun q => counts bx q = true -> on_screen q = true) l ->
  filter (counts bx) (filter on_screen l) = filter (counts bx) l.
Proof.
  induction 1 as [|q l Hq _ IH]; [reflexivity|].
  cbn [filter].
  destruct (counts bx q) eqn:Ec.
  - rewrite (Hq eq_refl). cbn [filter]. rewrite Ec, IH. reflexivity.
  - destruct (on_screen q); cbn [filter]; rewrite ?Ec, IH; reflexivity.
Qed.

Lemma filter_none (f : Pipe.t -> bool) (l : list Pipe.t) :
  Forall (fun q => f q = false) l -> filter f l = [].
Proof.
  induction 1 as [|q l Hq _ IH]; [reflexivity|].
  cbn [filter]. rewrite Hq. exact IH.
Qed.

Lemma filter_map_length (f : Pipe.t -> bool) (h : Pipe.t -> Pipe.t)
  (l : list Pipe.t) :
  List.length (filter f (map h l))
  = List.length (filter (fun p => f (h p)) l).
Proof.
  induction l as [|p l IH]; [reflexivity|].
  cbn [map filter]. destruct (f (h p)); cbn [List.length]; rewrite IH;
    reflexivity.
Qed.

(** C4.  In any session, a tick executed while the game is Running adds to
    the score exactly the number of pipes of the advanced track that are
    not yet passed and whose right edge is strictly left of the bird's x,
    one point each, and marks exactly those pipes passed; so the score never
    decreases, over a tick or over any stretch of a session without a reset.
    Before the tick no unpassed pipe had its right edge left of the bird,
    so a pipe is counted at the first tick that brings it there; after the
    tick every such pipe is passed, moving a pipe keeps its flag, and a
    passed pipe is not counted, so no pipe is counted twice.  While the
    pipe speed is below 100 per tick, no unpassed pipe leaves the track,
    and the tick adds one point for every pipe of the track it started with
    that was not passed and that its move brings left of the bird.  (An
    unpassed pipe has its right edge at 100 or more, and a pipe is dropped
    once its right edge is left of 0; at a speed of exactly 100 the margin
    is nil, and the code's floats can round across it.) *)
Theorem score_counts_each_pipe_once
  (evs : list Session.Event) (r0 : Rng.t) (delta_time now : Q) :
  let st := Session.run (Game.init, r0) evs in
  let g := fst st in
  Game.running g = true ->
  let g' := fst (Session.step st (Session.Tick delta_time now)) in
  let bird_x := Bird.x (Game.bird g) in
  let advanced :=
    Game.pipes (fst (Game._update_pipes
                       (Game._update_bird_physics g delta_time now)
                       delta_time (snd st))) in
  (exists spawned : list Pipe.t,
     advanced
     = filter on_screen (map (advance (Game.PIPE_SPEED g)) (Game.pipes g))
       ++ spawned
     /\ Forall (fun p => counts bird_x p = false) spawned)
  /\ Game.pipes g' = map (mark bird_x) advanced
  /\ Game.score g'
     = (Game.score g
        + Z.of_nat (List.length (filter (counts bird_x) advanced)))%Z
  /\ (Game.score g <= Game.score g')%Z
  /\ Forall (fun p => Pipe.passed p = false -> crossed bird_x p = false)
            (Game.pipes g)
  /\ Forall (fun p => crossed bird_x p = true -> Pipe.passed p = true)
            (Game.pipes g')
  /\ (forall (p : Pipe.t) (speed : Q),
        Pipe.passed (advance speed p) = Pipe.passed p
        /\ (Pipe.passed p = true ->
            counts bird_x p = false /\ mark bird_x p = p)
        /\ (counts bird_x p = true ->
            Pipe.passed (mark bird_x p) = true))
  /\ (Game.PIPE_SPEED g < 100 ->
      Forall (fun p => Pipe.passed p = false ->
                       on_screen (advance (Game.PIPE_SPEED g) p) = true)
             (Game.pipes g)
      /\ Game.score g'
         = (Game.score g
            + Z.of_nat
                (List.length
                   (filter (fun p => counts bird_x
                                       (advance (Game.PIPE_SPEED g) p))
                           (Game.pipes g))))%Z)
  /\ (forall evs' : list Session.Event,
        forallb (fun e => negb (Session.resets e)) evs' = true ->
        (Game.score g <= Game.score (fst (Session.run st evs')))%Z).
Proof.
  intros st g Hrun g' bird_x advanced. subst g g' bird_x advanced.
  pose proof (run_tidy evs (Game.init, r0) init_tidy) as [Hx Htidy].
  fold st in Hx, Htidy. destruct st as [g r] eqn:Est.
  cbn [fst snd Session.step] in *.
  unfold Game.running in Hrun.
  apply andb_true_iff in Hrun as [Hrun Hover].
  apply andb_true_iff in Hrun as [Hrun Hpause].
  unfold Game.game_loop_iteration. rewrite Hrun, Hpause, Hover.
  cbn [andb].
  destruct (update_game_spec g delta_time now r) as [Hp Hs].
  destruct (physics_keeps g delta_time now) as [Hpp [_ [Hsp Hbx]]].
  destruct (update_pipes_spec (Game._update_bird_physics g delta_time now)
              delta_time r) as [_ [spawned [Hadv Hspawn]]].
  rewrite Hpp, Hsp in Hadv.
  assert (Hnone : Forall (fun p => counts (Bird.x (Game.bird g)) p = false)
                    spawned).
  { eapply Forall_impl; [|exact Hspawn]. cbv beta.
    intros p [Hpass [Hpx Hw]]. unfold counts, crossed.
    rewrite Hpass, Hpx, Hw, Hx. reflexivity. }
  split; [|split; [exact Hp|split; [exact Hs|split; [rewrite Hs; lia|]]]].
  { exists spawned. split; [exact Hadv|exact Hnone]. }
  split.
  { eapply Forall_impl; [|exact Htidy]. cbv beta. intros p H Hpass.
    destruct (crossed (Bird.x (Game.bird g)) p); [|reflexivity].
    rewrite H in Hpass; [discriminate Hpass|reflexivity]. }
  split.
  { pose proof (update_game_tidy g delta_time now r Hx) as [_ H].
    rewrite update_game_bird_x in H. exact H. }
  split.
  { intros p speed. split; [reflexivity|]. unfold mark, counts.
    split.
    - intro H. rewrite H. split; reflexivity.
    - intro H. rewrite H. reflexivity. }
  split.
  { intro Hspeed.
    assert (Hkept : Forall (fun p => Pipe.passed p = false ->
                              on_screen (advance (Game.PIPE_SPEED g) p)
                              = true) (Game.pipes g)).
    { eapply Forall_impl; [|exact Htidy]. cbv beta.
      intros p H Hpass. unfold on_screen, advance.
      cbn [Pipe.x Pipe.width Pipe.set_x].
      apply negb_true_iff, ltb_false.
      destruct (crossed (Bird.x (Game.bird g)) p) eqn:Ec.
      - rewrite H in Hpass; [discriminate Hpass|reflexivity].
      - unfold crossed in Ec. apply ltb_false in Ec. rewrite Hx in Ec. lra. }
    split; [exact Hkept|].
    rewrite Hs, Hadv, filter_app, (filter_none _ _ Hnone), app_nil_r.
    rewrite filter_counts_kept, filter_map_length; [reflexivity|].
    apply Forall_forall. intros q Hin Hc.
    apply in_map_iff in Hin as [p [<- Hin]].
    rewrite Forall_forall in Hkept. apply (Hkept p Hin).
    unfold counts in Hc. apply andb_true_iff in Hc as [Hc _].
    apply negb_true_iff in Hc. exact Hc. }
  intros evs' H. apply (run_score_mono evs' (g, r) H).
Qed.

(** A tick that counts a pipe: at pipe speed 75 the first pipe reaches
    x = 50 after ten ticks, and the eleventh brings its right edge to 25,
    left of the bird at 100. *)
Lemma score_counts_each_pipe_once_witness :
  let st := Session.run (Game.init, fun _ => 150%Z)
              (Session.Start 0 :: Session.Difficulty 25
               :: repeat (Session.Tick 0.02 0) 10) in
  let g := fst st in
  let g' := fst (Session.step st (Session.Tick 0.02 0)) in
  Game.running g = true
  /\ Game.score g = 0%Z
  /\ Game.score g' = 1%Z
  /\ map Pipe.passed (Game.pipes g') = [true; false; false].
Proof.
  cbv zeta.
  assert (Hrun : Game.running
                   (fst (Session.run (Game.init, fun _ => 150%Z)
                           (Session.Start 0 :: Session.Difficulty 25
                            :: repeat (Session.Tick 0.02 0) 10))) = true)
    by (vm_compute; reflexivity).
  destruct (score_counts_each_pipe_once
              (Session.Start 0 :: Session.Difficulty 25
               :: repeat (Session.Tick 0.02 0) 10)
              (fun _ => 150%Z) 0.02 0 Hrun)
    as [_ [Hp [_ [_ [_ [_ [_ [Hfast _]]]]]]]].
  cbv zeta in Hp, Hfast.
  destruct Hfast as [_ Hs]; [q_decide|].
  split; [exact Hrun|]. split; [vm_compute; reflexivity|].
  split; [etransitivity; [exact Hs|vm_compute; reflexivity]|].
  etransitivity; [apply f_equal; exact Hp|vm_compute; reflexivity].
Defined.

(** C4 as stated fails at a high pipe speed.  After [adjust_difficulty(50)]
    the pipes move 150 per tick: five ticks bring the first pipe to x = 50,
    its right edge at the bird's x = 100 and so not yet crossed; the sixth
    moves it to x = -100, its right edge at -50 is left of the bird for the
    first time, and [_update_pipes] removes it before [_update_score] runs.
    The score stays 0 and the pipe is no longer in the track. *)
Lemma fast_pipe_is_never_scored :
  let st := Session.run (Game.init, fun _ => 150%Z)
              (Session.Start 0 :: Session.Difficulty 50
               :: repeat (Session.Tick 0.02 0) 5) in
  let g := fst st in
  let g' := fst (Session.step st (Session.Tick 0.02 0)) in
  let bird_x := Bird.x (Game.bird g) in
  Game.running g = true
  /\ Game.PIPE_SPEED g == 150
  /\ (exists p rest,
        Game.pipes g = p :: rest
        /\ Pipe.x p == 50
        /\ Pipe.passed p = false
        /\ crossed bird_x p = false
        /\ crossed bird_x (advance (Game.PIPE_SPEED g) p) = true)
  /\ Game.game_over g' = false
  /\ Game.score g = 0%Z
  /\ Game.score g' = 0%Z
  /\ List.length (Game.pipes g') = 2%nat
  /\ Forall (fun q => 200 <= Pipe.x q /\ Pipe.passed q = false)
            (Game.pipes g').
Proof.
  vm_compute.
  split; [reflexivity|]. split; [reflexivity|].
  split; [eexists; eexists; split; [reflexivity|];
          repeat split; reflexivity|].
  repeat split; try reflexivity.
  repeat constructor; discriminate.
Qed.

(** A pipe is counted once: with the bird at x = 100 and pipes of width 50
    at x = 52, 352 and 652, the first tick moves the pipe to 49 and scores it, and the
    second tick scores nothing more. *)
Example pipe_scored_once :
  let g0 := Game.set_pipes
              (fst (Game.start_game Game.init 0 (fun _ => 0%Z)))
              [Pipe.make 52 300; Pipe.make 352 300; Pipe.make 652 300] in
  let g1 := fst (Game._update_game g0 0.02 0.02 (fun _ => 0%Z)) in
  let g2 := fst (Game._update_game g1 0.02 0.04 (fun _ => 0%Z)) in
  Game.score g0 = 0%Z
  /\ Game.score g1 = 1%Z
  /\ map Pipe.passed (Game.pipes g1) = [true; false; false]
  /\ Game.score g2 = 1%Z
  /\ map Pipe.passed (Game.pipes g2) = [true; false; false].
Proof. vm_compute. repeat split; reflexivity. Qed.

(** * Further properties of the game *)

(** ** The track in every session *)

Lemma randint_range (lo hi : Z) (r : Rng.t) :
  (lo <= hi)%Z -> (lo <= fst (Rng.randint lo hi r) <= hi)%Z.
Proof.
  intro H. unfold Rng.randint. cbn [fst].
  pose proof (Z.mod_pos_bound (r 0%nat) (hi - lo + 1)). lia.
Qed.

(** What [_update_pipes] leaves in the track, with the test that decides
    whether a pipe is spawned. *)
Lemma update_pipes_cases (g : Game.t) (dt : Q) (r : Rng.t) :
  let kept :=
    filter on_screen (map (advance (Game.PIPE_SPEED g)) (Game.pipes g)) in
  Game.pipes (fst (Game._update_pipes g dt r))
  = if match kept with [] => true | _ => false end
       || Game.last_pipe_behind kept
    then kept ++ [Pipe.make (inject_Z Game.GAME_WIDTH)
                    (inject_Z (fst (Rng.randint 100 (Game.GAME_HEIGHT - 200) r)))]
    else kept.
Proof.
  unfold Game._update_pipes. cbv zeta.
  cbn [Game.pipes Game.set_pipes Game.PIPE_SPEED].
  rewrite move_pipes_filter.
  match goal with |- context [if ?c then _ else _] => destruct c end;
    reflexivity.
Qed.

Lemma reset_pipes (g : Game.t) (now : Q) (r : Rng.t) :
  exists a b c : Z,
    (100 <= a <= 400 /\ 100 <= b <= 400 /\ 100 <= c <= 400)%Z
    /\ Game.pipes (fst (Game.reset_game g now r))
       = [Pipe.make 800 (inject_Z a); Pipe.make 1100 (inject_Z b);
          Pipe.make 1400 (inject_Z c)].
Proof.
  set (r1 := snd (Rng.randint 100 400 r)).
  set (r2 := snd (Rng.randint 100 400 r1)).
  exists (fst (Rng.randint 100 400 r)), (fst (Rng.randint 100 400 r1)),
         (fst (Rng.randint 100 400 r2)).
  split; [|subst r1 r2; vm_compute; reflexivity].
  repeat split; try apply (proj1 (randint_range 100 400 _ ltac:(lia)));
    apply (proj2 (randint_range 100 400 _ ltac:(lia))).
Qed.

Section TrackInvariant.

(** A property of the track that holds of the empty track and of the
    three pipes a reset lays out, and that moving, dropping, spawning and
    marking keep, holds in every state of every session. *)
Variable P : list Pipe.t -> Prop.
Hypothesis P_empty : P [].
Hypothesis P_reset : forall a b c : Z,
  (100 <= a <= 400 /\ 100 <= b <= 400 /\ 100 <= c <= 400)%Z ->
  P [Pipe.make 800 (inject_Z a); Pipe.make 1100 (inject_Z b);
     Pipe.make 1400 (inject_Z c)].
Hypothesis P_move : forall (speed : Q) (l : list Pipe.t),
  P l -> P (filter on_screen (map (advance speed) l)).
Hypothesis P_spawn : forall (l : list Pipe.t) (gap : Z),
  P l -> Forall (fun p => on_screen p = true) l ->
  match l with [] => true | _ => false end || Game.last_pipe_behind l = true ->
  (100 <= gap <= 400)%Z ->
  P (l ++ [Pipe.make (inject_Z Game.GAME_WIDTH) (inject_Z gap)]).
Hypothesis P_mark : forall (bird_x : Q) (l : list Pipe.t),
  P l -> P (map (mark bird_x) l).

Lemma update_game_track (g : Game.t) (dt now : Q) (r : Rng.t) :
  P (Game.pipes g) -> P (Game.pipes (fst (Game._update_game g dt now r))).
Proof.
  intro H. destruct (update_game_spec g dt now r) as [Hp _]. rewrite Hp.
  apply P_mark. rewrite update_pipes_cases.
  destruct (physics_keeps g dt now) as [Hpp [_ [Hsp _]]].
  rewrite Hpp, Hsp. cbv zeta.
  set (kept := filter on_screen _).
  assert (Hk : P kept) by (apply P_move, H).
  destruct (_ || _) eqn:E; [|exact Hk].
  apply P_spawn; trivial.
  - apply Forall_forall. intros p Hin. apply filter_In in Hin. apply Hin.
  - apply (randint_range 100 400). lia.
Qed.

Lemma step_track (st : Game.t * Rng.t) (e : Session.Event) :
  P (Game.pipes (fst st)) -> P (Game.pipes (fst (Session.step st e))).
Proof.
  destruct st as [g r]. cbn [fst Session.step]. intro H.
  assert (Hreset : forall now, P (Game.pipes (fst (Game.reset_game g now r)))).
  { intro now. destruct (reset_pipes g now r) as [a [b [c [Hr ->]]]].
    apply P_reset, Hr. }
  destruct e.
  - unfold Game.game_loop_iteration.
    destruct (Game.is_running g); [|exact H].
    destruct (negb _ && negb _); [|exact H].
    apply update_game_track, H.
  - cbn [fst]. unfold Game.on_breathing_input.
    repeat match goal with
    | |- context [if ?c then _ else _] => destruct c
    end; exact H.
  - unfold Game.start_game. destruct (Game.is_running g); [exact H|].
    specialize (Hreset now).
    destruct (Game.reset_game g now r) as [g' r']. exact Hreset.
  - exact H.
  - exact H.
  - apply Hreset.
  - exact H.
Qed.

Lemma run_track (evs : list Session.Event) (r0 : Rng.t) :
  P (Game.pipes (fst (Session.run (Game.init, r0) evs))).
Proof.
  unfold Session.run.
  assert (H : P (Game.pipes (fst (Game.init, r0)))) by exact P_empty.
  revert H. generalize (Game.init, r0).
  induction evs as [|e evs IH]; intros st H; simpl; [exact H|].
  apply IH, step_track, H.
Qed.

End TrackInvariant.

Lemma mark_fields (bird_x : Q) (p : Pipe.t) :
  Pipe.x (mark bird_x p) = Pipe.x p
  /\ Pipe.width (mark bird_x p) = Pipe.width p
  /\ Pipe.gap_y (mark bird_x p) = Pipe.gap_y p
  /\ Pipe.gap_height (mark bird_x p) = Pipe.gap_height p.
Proof. unfold mark. destruct (counts bird_x p); repeat split. Qed.

(** X1.  In every state of every session each pipe of the track has width
    50 and gap height 120, and its gap starts between 100 and
    [GAME_HEIGHT - 200], so the whole gap lies inside the screen. *)
Theorem pipes_are_well_formed (evs : list Session.Event) (r0 : Rng.t) :
  Forall (fun p => well_formed p
                   /\ 0 <= Pipe.gap_y p
                   /\ Pipe.gap_y p + inject_Z (Pipe.gap_height p)
                      <= inject_Z Game.GAME_HEIGHT)
         (Game.pipes (fst (Session.run (Game.init, r0) evs))).
Proof.
  assert (W : forall gap : Z, (100 <= gap <= 400)%Z ->
              forall x : Q, well_formed (Pipe.make x (inject_Z gap))).
  { intros gap Hg x. unfold well_formed. cbn.
    repeat split; try reflexivity.
    - change 100 with (inject_Z 100). rewrite <- Zle_Qle. lia.
    - rewrite <- Zle_Qle. unfold Game.GAME_HEIGHT. lia. }
  assert (H : Forall well_formed
                (Game.pipes (fst (Session.run (Game.init, r0) evs)))).
  { apply run_track with (P := Forall well_formed).
    - constructor.
    - intros a b c [Ha [Hb Hc]]. repeat constructor; apply W; assumption.
    - intros speed l Hl. apply Forall_forall. intros p Hin.
      apply filter_In in Hin as [Hin _].
      apply in_map_iff in Hin as [q [<- Hq]].
      rewrite Forall_forall in Hl. apply (Hl q Hq).
    - intros l gap Hl _ _ Hg. apply Forall_app. split; [exact Hl|].
      constructor; [apply W, Hg|constructor].
    - intros bx l Hl. apply Forall_forall. intros p Hin.
      apply in_map_iff in Hin as [q [<- Hq]].
      rewrite Forall_forall in Hl. specialize (Hl q Hq).
      unfold well_formed in *.
      destruct (mark_fields bx q) as [_ [-> [-> ->]]]. exact Hl. }
  eapply Forall_impl; [|exact H]. cbv beta.
  intros p Hp. split; [exact Hp|].
  destruct Hp as [_ [Hh [Hlo Hhi]]]. rewrite Hh.
  unfold Game.GAME_HEIGHT in *.
  change (inject_Z (600 - 200)) with 400 in Hhi.
  change (inject_Z 120) with 120. change (inject_Z 600) with 600.
  split; lra.
Qed.

Lemma apart_trans (p q s : Pipe.t) : apart p q -> apart q s -> apart p s.
Proof.
  unfold apart, Game.PIPE_SPAWN_DISTANCE.
  change (inject_Z 300) with 300. intros. lra.
Qed.









Lemma whole_nonneg (q : Q) : whole q -> 0 <= q.
Proof.
  intros [n H]. rewrite H. change 0 with (inject_Z 0).
  rewrite <- Zle_Qle. lia.
Qed.








(** X3.  After a tick the track is never empty, and no pipe of it lies
    entirely left of the screen. *)
Theorem tick_keeps_track_on_screen
  (g : Game.t) (delta_time now : Q) (r : Rng.t) :
  let g' := fst (Game._update_game g delta_time now r) in
  Game.pipes g' <> []
  /\ Forall (fun p => 0 <= Pipe.x p + inject_Z (Pipe.width p)) (Game.pipes g').
Proof.
  cbv zeta. destruct (update_game_spec g delta_time now r) as [Hp _].
  rewrite Hp, update_pipes_cases. cbv zeta.
  set (kept := filter on_screen _).
  assert (Hk : Forall (fun p => 0 <= Pipe.x p + inject_Z (Pipe.width p)) kept).
  { apply Forall_forall. intros p Hin. apply filter_In in Hin as [_ Hin].
    unfold on_screen in Hin. apply negb_true_iff, ltb_false in Hin. exact Hin. }
  assert (Hm : forall l,
             Forall (fun p => 0 <= Pipe.x p + inject_Z (Pipe.width p)) l ->
             Forall (fun p => 0 <= Pipe.x p + inject_Z (Pipe.width p))
                    (map (mark (Bird.x (Game.bird g))) l)).
  { intros l Hl. apply Forall_forall. intros p Hin.
    apply in_map_iff in Hin as [q [<- Hq]].
    destruct (mark_fields (Bird.x (Game.bird g)) q) as [-> [-> _]].
    rewrite Forall_forall in Hl. apply Hl, Hq. }
  destruct kept as [|p kept'] eqn:E; cbn [orb].
  - split; [discriminate|]. apply Hm. repeat constructor. cbn. q_decide.
  - destruct (Game.last_pipe_behind (p :: kept')).
    + split; [discriminate|]. apply Hm, Forall_app. split; [exact Hk|].
      repeat constructor. cbn. q_decide.
    + split; [discriminate|]. apply Hm, Hk.
Qed.

(** ** High score, pause and difficulty *)

Lemma game_over_high_score (g : Game.t) :
  Game.high_score (Game._game_over g)
  = Z.max (Game.high_score g) (Game.score g).
Proof.
  unfold Game._game_over. cbn [Game.score Game.high_score Game.set_game_over].
  destruct (Game.score g >? Game.high_score g)%Z eqn:E; cbn; lia.
Qed.

Lemma check_pipes_high_score (l : list Pipe.t) (g : Game.t) :
  Game.high_score (Game.check_pipes g l)
  = if existsb (Game.hits (Game.bird g)) l
    then Z.max (Game.high_score g) (Game.score g)
    else Game.high_score g.
Proof.
  induction l as [|p l IH]; simpl; [reflexivity|].
  destruct (Game.hits (Game.bird g) p); simpl;
    [apply game_over_high_score | exact IH].
Qed.

Lemma physics_high_score (g : Game.t) (dt now : Q) :
  let g' := Game._update_bird_physics g dt now in
  Game.high_score g'
  = if negb (Py.ltb (next_y g) (inject_Z (Bird.radius (Game.bird g))))
       && Py.ltb (inject_Z (Game.GAME_HEIGHT - Bird.radius (Game.bird g)))
                 (next_y g)
    then Z.max (Game.high_score g) (Game.score g)
    else Game.high_score g.
Proof.
  unfold Game._update_bird_physics, next_y, next_velocity.
  set (c := Game.breathing_force_active _ && _). clearbody c.
  destruct c; cbv zeta;
    cbn [Game.bird Game.set_bird Game.set_current_breathing
         Game.set_breathing_force Bird.y Bird.set_y Bird.set_velocity_y
         Bird.velocity_y Bird.radius];
    repeat match goal with
    | |- context [Py.ltb ?a ?b] => destruct (Py.ltb a b)
    end; cbn [negb andb]; rewrite ?game_over_high_score; reflexivity.
Qed.

Lemma update_pipes_high_score (g : Game.t) (dt : Q) (r : Rng.t) :
  Game.high_score (fst (Game._update_pipes g dt r)) = Game.high_score g.
Proof.
  unfold Game._update_pipes.
  match goal with |- context [if ?c then _ else _] => destruct c end;
    reflexivity.
Qed.

Lemma update_score_high_score (g : Game.t) :
  Game.high_score (Game._update_score g) = Game.high_score g.
Proof.
  unfold Game._update_score.
  destruct (Game.score_pipes _ _ _); reflexivity.
Qed.

(** The high score after a tick: raised to the score the tick started
    with when the tick ended the game, and untouched otherwise. *)
Lemma update_game_high_score (g : Game.t) (dt now : Q) (r : Rng.t) :
  Game.game_over g = false ->
  let g' := fst (Game._update_game g dt now r) in
  Game.high_score g'
  = if Game.game_over g'
    then Z.max (Game.high_score g) (Game.score g)
    else Game.high_score g.
Proof.
  intros Hover g'. subst g'.
  pose proof (update_game_game_over g dt now r) as Hgo. cbv zeta in Hgo.
  rewrite Hgo. clear Hgo.
  rewrite update_game_bird. rewrite physics_game_over, Hover. cbn [orb].
  unfold Game._update_game.
  destruct (physics_keeps g dt now) as [_ [Hs _]].
  pose proof (physics_high_score g dt now) as Hh. cbv zeta in Hh.
  pose proof (update_pipes_high_score (Game._update_bird_physics g dt now) dt r)
    as Hh2.
  pose proof (update_pipes_spec (Game._update_bird_physics g dt now) dt r)
    as [Hs2 _].
  pose proof (update_pipes_bird (Game._update_bird_physics g dt now) dt r)
    as Hb2.
  destruct (Game._update_pipes _ dt r) as [g2 r2]. cbn [fst] in *.
  rewrite update_score_high_score, update_score_pipes, score_pipes_hits.
  unfold Game._check_collisions.
  rewrite check_pipes_high_score, check_pipes_pipes.
  rewrite Hb2, Hh2, Hs2, Hh, Hs.
  set (floor := negb _ && _). set (hit := existsb _ _).
  destruct floor, hit; cbn [orb]; lia.
Qed.

Lemma step_high_score (st : Game.t * Rng.t) (e : Session.Event) :
  (Game.high_score (fst st) <= Game.high_score (fst (Session.step st e)))%Z.
Proof.
  destruct st as [g r]. cbn [fst Session.step].
  destruct e; cbn [fst]; try apply Z.le_refl.
  - unfold Game.game_loop_iteration.
    destruct (Game.is_running g); [|apply Z.le_refl].
    destruct (Game.game_over g) eqn:Ho;
      [rewrite andb_false_r; apply Z.le_refl|].
    destruct (negb (Game.is_paused g)); cbn [negb andb]; [|apply Z.le_refl].
    pose proof (update_game_high_score g delta_time now r Ho) as Hh.
    cbv zeta in Hh. rewrite Hh.
    destruct (Game.game_over (fst (Game._update_game g delta_time now r)));
      lia.
  - unfold Game.on_breathing_input.
    repeat match goal with
    | |- context [if ?c then _ else _] => destruct c
    end; apply Z.le_refl.
  - unfold Game.start_game. destruct (Game.is_running g); apply Z.le_refl.
Qed.

(** X4.  The high score never goes down, whatever happens to the game,
    resets included; and a tick that ends the game leaves it at the larger
    of the old high score and the score the tick started with, so points
    scored by that last tick itself are not in it. *)
Theorem high_score_is_kept
  (st : Game.t * Rng.t) (evs : list Session.Event) (delta_time now : Q) :
  (Game.high_score (fst st)
   <= Game.high_score (fst (Session.run st evs)))%Z
  /\ (Game.running (fst st) = true ->
      let g' := fst (Session.step st (Session.Tick delta_time now)) in
      Game.high_score g'
      = if Game.game_over g'
        then Z.max (Game.high_score (fst st)) (Game.score (fst st))
        else Game.high_score (fst st)).
Proof.
  split.
  - unfold Session.run. revert st.
    induction evs as [|e evs IH]; intro st; simpl; [apply Z.le_refl|].
    etransitivity; [apply step_high_score | apply IH].
  - destruct st as [g r]. cbn [fst Session.step]. intro Hrun.
    unfold Game.running in Hrun.
    apply andb_true_iff in Hrun as [Hrun Hover].
    apply andb_true_iff in Hrun as [Hrun Hpause].
    unfold Game.game_loop_iteration. rewrite Hrun, Hpause, Hover.
    cbn [andb]. apply negb_true_iff in Hover.
    apply update_game_high_score, Hover.
Qed.

(** A record-breaking point scored by the tick that ends the game: the
    pipe at x = 48 overlaps the bird and is counted in the same tick, and
    the high score stays behind the final score. *)
Example last_point_misses_high_score :
  let g0 := Game.set_pipes
              (fst (Game.start_game Game.init 0 (fun _ => 0%Z)))
              [Pipe.make 48 100; Pipe.make 348 300; Pipe.make 648 300] in
  let g1 := fst (Game.game_loop_iteration g0 0.02 0.02 (fun _ => 0%Z)) in
  Game.running g0 = true
  /\ Game.game_over g1 = true
  /\ Game.score g1 = 1%Z
  /\ Game.high_score g1 = 0%Z.
Proof. vm_compute. repeat split; reflexivity. Qed.

Lemma high_score_is_kept_witness :
  let st := Session.run (Game.init, fun _ => 0%Z) [Session.Start 0] in
  let g' := fst (Session.step st (Session.Tick 0.02 0.02)) in
  Game.high_score g'
  = if Game.game_over g'
    then Z.max (Game.high_score (fst st)) (Game.score (fst st))
    else Game.high_score (fst st).
Proof.
  exact (proj2 (high_score_is_kept
                  (Session.run (Game.init, fun _ => 0%Z) [Session.Start 0])
                  [] 0.02 0.02) eq_refl).
Defined.

(** X6.  [adjust_difficulty] derives gravity and pipe speed from the base
    values every time: a second call replaces the first instead of
    compounding with it, level 1 gives back 0.5 and 3, the two always stay
    in the ratio 1 : 6, and nothing else in the game changes. *)
Theorem difficulty_does_not_compound (g : Game.t) (a b : Q) :
  Game.adjust_difficulty (Game.adjust_difficulty g a) b
  = Game.adjust_difficulty g b
  /\ Game.GRAVITY (Game.adjust_difficulty g 1) == 0.5
  /\ Game.PIPE_SPEED (Game.adjust_difficulty g 1) == 3
  /\ Game.PIPE_SPEED (Game.adjust_difficulty g a)
     == 6 * Game.GRAVITY (Game.adjust_difficulty g a)
  /\ Game.adjust_difficulty g a
     = Game.set_difficulty g (Game.GRAVITY (Game.adjust_difficulty g a))
                             (Game.PIPE_SPEED (Game.adjust_difficulty g a)).
Proof.
  repeat split; try reflexivity.
  unfold Game.adjust_difficulty. cbn. lra.
Qed.

Lemma step_is_paused (st : Game.t * Rng.t) (e : Session.Event) :
  Game.is_paused (fst (Session.step st e))
  = xorb (Game.is_paused (fst st)) (is_pause e).
Proof.
  destruct st as [g r]. cbn [fst Session.step].
  assert (Hu : forall dt now,
             Game.is_paused (fst (Game._update_game g dt now r))
             = Game.is_paused g).
  { intros dt now. unfold Game._update_game.
    assert (H1 : Game.is_paused (Game._update_bird_physics g dt now)
                 = Game.is_paused g).
    { unfold Game._update_bird_physics, Game._game_over.
      repeat match goal with
      | |- context [if ?c then _ else _] => destruct c
      end; reflexivity. }
    assert (H2 : forall g0, Game.is_paused (fst (Game._update_pipes g0 dt r))
                            = Game.is_paused g0).
    { intro g0. unfold Game._update_pipes.
      match goal with |- context [if ?c then _ else _] => destruct c end;
        reflexivity. }
    specialize (H2 (Game._update_bird_physics g dt now)).
    destruct (Game._update_pipes _ dt r) as [g2 r2]. cbn [fst] in *.
    unfold Game._update_score.
    destruct (Game.score_pipes _ _ _) as [l s]. cbn.
    unfold Game._check_collisions.
    assert (H3 : forall l0, Game.is_paused (Game.check_pipes g2 l0)
                            = Game.is_paused g2).
    { induction l0 as [|p l0 IH]; simpl; [reflexivity|].
      destruct (Game.hits _ _); [|exact IH].
      unfold Game._game_over.
      destruct (_ >? _)%Z; reflexivity. }
    rewrite H3, H2, H1. reflexivity. }
  destruct e; cbn [fst is_pause]; rewrite ?xorb_false_r.
  - unfold Game.game_loop_iteration.
    destruct (Game.is_running g); [|reflexivity].
    destruct (negb _ && negb _); [apply Hu|reflexivity].
  - apply breathing_flags.
  - unfold Game.start_game. destruct (Game.is_running g); reflexivity.
  - reflexivity.
  - cbn. destruct (Game.is_paused g); reflexivity.
  - reflexivity.
  - reflexivity.
Qed.

(** X8.  Only [pause_game] touches the pause flag: after any run of
    events the game is paused exactly when it was paused before and an even
    number of pauses were made, or it was not and an odd number were.  In
    particular neither [start_game] nor [reset_game] unpauses a game. *)
Theorem only_pause_changes_pause
  (st : Game.t * Rng.t) (evs : list Session.Event) :
  Game.is_paused (fst (Session.run st evs))
  = xorb (Game.is_paused (fst st))
         (Nat.odd (List.length (filter is_pause evs))).
Proof.
  unfold Session.run. revert st.
  induction evs as [|e evs IH]; intro st; simpl.
  - rewrite xorb_false_r. reflexivity.
  - rewrite IH, step_is_paused.
    destruct (is_pause e); cbn [List.length filter].
    + rewrite Nat.odd_succ, <- Nat.negb_odd.
      destruct (Game.is_paused (fst st)), (Nat.odd _); reflexivity.
    + rewrite xorb_false_r. reflexivity.
Qed.

Lemma breathing_input_noop (g : Game.t) (bt : string) (v : PyFloat.t)
  (now : Q) :
  Game.game_over g = true \/ Game.is_paused g = true ->
  Game.on_breathing_input g bt v now = g.
Proof.
  intros [H|H]; unfold Game.on_breathing_input; rewrite H;
    [reflexivity | rewrite orb_true_r; reflexivity].
Qed.

(** X7.  A game that is paused or over is frozen: no run of ticks and
    breathing inputs changes anything in it, nor draws a random number. *)
Theorem paused_or_over_is_frozen
  (st : Game.t * Rng.t) (evs : list Session.Event) :
  Game.is_paused (fst st) = true \/ Game.game_over (fst st) = true ->
  forallb is_play evs = true ->
  Session.run st evs = st.
Proof.
  intros H Hp. unfold Session.run.
  induction evs as [|e evs IH]; simpl; [reflexivity|].
  simpl in Hp. apply andb_true_iff in Hp as [He Hp].
  assert (E : Session.step st e = st).
  { destruct st as [g r]. cbn [fst] in H.
    destruct e; try discriminate He; cbn [Session.step].
    - unfold Game.game_loop_iteration.
      destruct (Game.is_running g); [|reflexivity].
      destruct H as [H|H]; rewrite H; cbn [negb andb];
        rewrite ?andb_false_r; reflexivity.
    - f_equal.
      apply breathing_input_noop. destruct H; auto. }
  rewrite E. apply IH, Hp.
Qed.

(** ** What the clock decides *)

Lemma same_play_refl (g : Game.t) : same_play g g.
Proof. repeat split. Qed.

Lemma game_over_same (a b : Game.t) :
  same_play a b -> same_play (Game._game_over a) (Game._game_over b).
Proof.
  intros (Hb & Hp & Hg & Hs & Hr & Hpa & Hsc & Hh & Ho & Ht).
  unfold Game._game_over.
  cbn [Game.score Game.high_score Game.set_game_over].
  rewrite Hsc, Hh.
  destruct (Game.score b >? Game.high_score b)%Z; repeat split; cbn; auto.
Qed.

Lemma physics_same (g : Game.t) (dt now dt' now' : Q) :
  same_play (Game._update_bird_physics g dt now)
            (Game._update_bird_physics g dt' now').
Proof.
  unfold Game._update_bird_physics.
  set (c := Game.breathing_force_active _ && _).
  set (c' := Game.breathing_force_active _ && _).
  clearbody c c'.
  destruct c, c'; cbv zeta;
    cbn [Game.bird Game.set_bird Game.set_current_breathing
         Game.set_breathing_force Bird.y Bird.set_y Bird.set_velocity_y
         Bird.velocity_y Bird.radius Game.GRAVITY];
    repeat match goal with
    | |- context [Py.ltb ?a ?b] => destruct (Py.ltb a b)
    end;
    try (apply game_over_same); repeat split.
Qed.

Lemma update_pipes_same (a b : Game.t) (dt dt' : Q) (r : Rng.t) :
  same_play a b ->
  same_play (fst (Game._update_pipes a dt r)) (fst (Game._update_pipes b dt' r))
  /\ snd (Game._update_pipes a dt r) = snd (Game._update_pipes b dt' r).
Proof.
  intros (Hb & Hp & Hg & Hs & Hr & Hpa & Hsc & Hh & Ho & Ht).
  unfold Game._update_pipes. cbv zeta.
  cbn [Game.pipes Game.set_pipes Game.PIPE_SPEED].
  rewrite Hp, Hs.
  match goal with |- context [if ?c then _ else _] => destruct c end;
    cbn; rewrite ?Hp, ?Hs; repeat split; auto.
Qed.

Lemma check_pipes_same (l : list Pipe.t) (a b : Game.t) :
  same_play a b ->
  same_play (Game.check_pipes a l) (Game.check_pipes b l).
Proof.
  intro H. induction l as [|p l IH]; simpl; [exact H|].
  destruct H as (Hb & H'). rewrite Hb.
  destruct (Game.hits (Game.bird b) p);
    [apply game_over_same; split; assumption | exact IH].
Qed.

Lemma update_score_same (a b : Game.t) :
  same_play a b -> same_play (Game._update_score a) (Game._update_score b).
Proof.
  intros (Hb & Hp & Hg & Hs & Hr & Hpa & Hsc & Hh & Ho & Ht).
  unfold Game._update_score. rewrite Hb, Hp, Hsc.
  destruct (Game.score_pipes _ _ _); repeat split; cbn; auto.
Qed.

(** X5.  A tick computes the same bird, track, score, high score and
    game-over flag, and draws the same random numbers, whatever
    [delta_time] it is given and whatever the clock reads: the physics
    advances by one fixed step per tick.  The clock only decides whether the
    breathing-force flag is cleared and the label put back to "neutral",
    which happens when the force was active for more than
    [BREATHING_FORCE_DURATION]. *)
Theorem tick_ignores_the_clock
  (g : Game.t) (delta_time now delta_time' now' : Q) (r : Rng.t) :
  let a := Game._update_game g delta_time now r in
  let b := Game._update_game g delta_time' now' r in
  let expired :=
    Game.breathing_force_active g
    && Py.ltb Game.BREATHING_FORCE_DURATION
              (now - Game.breathing_force_timer g) in
  same_play (fst a) (fst b)
  /\ snd a = snd b
  /\ Game.breathing_force_active (fst a)
     = Game.breathing_force_active g && negb expired
  /\ Game.current_breathing (fst a)
     = (if expired then "neutral"%string else Game.current_breathing g)
  /\ Game.breathing_force_timer (fst a) = Game.breathing_force_timer g.
Proof.
  cbv zeta. split; [|split].
  - unfold Game._update_game.
    destruct (update_pipes_same _ _ delta_time delta_time' r
                (physics_same g delta_time now delta_time' now')) as [H _].
    destruct (Game._update_pipes (Game._update_bird_physics g delta_time now)
                delta_time r) as [a1 r1].
    destruct (Game._update_pipes (Game._update_bird_physics g delta_time' now')
                delta_time' r) as [b1 r2].
    cbn [fst] in *.
    apply update_score_same. unfold Game._check_collisions.
    destruct H as (Hb & Hp & H'). rewrite Hp.
    apply check_pipes_same. split; [exact Hb|split; [exact Hp|exact H']].
  - unfold Game._update_game.
    destruct (update_pipes_same _ _ delta_time delta_time' r
                (physics_same g delta_time now delta_time' now')) as [_ H].
    destruct (Game._update_pipes (Game._update_bird_physics g delta_time now)
                delta_time r) as [a1 r1].
    destruct (Game._update_pipes (Game._update_bird_physics g delta_time' now')
                delta_time' r) as [b1 r2].
    cbn [snd] in *. exact H.
  - assert (L : forall g0 : Game.t,
               Game.breathing_force_active (Game._game_over g0)
               = Game.breathing_force_active g0
               /\ Game.current_breathing (Game._game_over g0)
                  = Game.current_breathing g0
               /\ Game.breathing_force_timer (Game._game_over g0)
                  = Game.breathing_force_timer g0).
    { intro g0. unfold Game._game_over.
      destruct (_ >? _)%Z; repeat split. }
    assert (P : forall g0 : Game.t,
               let g1 := fst (Game._update_pipes g0 delta_time r) in
               Game.breathing_force_active g1 = Game.breathing_force_active g0
               /\ Game.current_breathing g1 = Game.current_breathing g0
               /\ Game.breathing_force_timer g1
                  = Game.breathing_force_timer g0).
    { intro g0. unfold Game._update_pipes.
      match goal with |- context [if ?c then _ else _] => destruct c end;
        repeat split. }
    assert (C : forall (l : list Pipe.t) (g0 : Game.t),
               Game.breathing_force_active (Game.check_pipes g0 l)
               = Game.breathing_force_active g0
               /\ Game.current_breathing (Game.check_pipes g0 l)
                  = Game.current_breathing g0
               /\ Game.breathing_force_timer (Game.check_pipes g0 l)
                  = Game.breathing_force_timer g0).
    { induction l as [|p l IH]; intro g0; simpl; [repeat split|].
      destruct (Game.hits _ _); [apply L | apply IH]. }
    assert (S : forall g0 : Game.t,
               Game.breathing_force_active (Game._update_score g0)
               = Game.breathing_force_active g0
               /\ Game.current_breathing (Game._update_score g0)
                  = Game.current_breathing g0
               /\ Game.breathing_force_timer (Game._update_score g0)
                  = Game.breathing_force_timer g0).
    { intro g0. unfold Game._update_score.
      destruct (Game.score_pipes _ _ _); repeat split. }
    assert (F : let g1 := Game._update_bird_physics g delta_time now in
               Game.breathing_force_active g1
               = Game.breathing_force_active g
                 && negb (Game.breathing_force_active g
                          && Py.ltb Game.BREATHING_FORCE_DURATION
                                    (now - Game.breathing_force_timer g))
               /\ Game.current_breathing g1
                  = (if Game.breathing_force_active g
                        && Py.ltb Game.BREATHING_FORCE_DURATION
                                  (now - Game.breathing_force_timer g)
                     then "neutral"%string else Game.current_breathing g)
               /\ Game.breathing_force_timer g1
                  = Game.breathing_force_timer g).
    { unfold Game._update_bird_physics.
      cbn [Game.breathing_force_active Game.breathing_force_timer
           Game.set_bird].
      destruct (Game.breathing_force_active g) eqn:Ea; cbn [andb];
        [destruct (Py.ltb Game.BREATHING_FORCE_DURATION _)|];
        cbv zeta;
        repeat match goal with
        | |- context [Py.ltb ?a ?b] => destruct (Py.ltb a b)
        end;
        rewrite ?(proj1 (L _)), ?(proj1 (proj2 (L _))), ?(proj2 (proj2 (L _)));
        cbn; rewrite ?Ea; repeat split. }
    unfold Game._update_game.
    specialize (P (Game._update_bird_physics g delta_time now)).
    destruct (Game._update_pipes _ delta_time r) as [g1 r1].
    cbn [fst] in *. cbv zeta in P, F.
    destruct (S (Game._check_collisions g1)) as (-> & -> & ->).
    unfold Game._check_collisions.
    destruct (C (Game.pipes g1) g1) as (-> & -> & ->).
    destruct P as (-> & -> & ->). exact F.
Qed.

(** ** Score against the track *)

Lemma passed_count_app (l m : list Pipe.t) :
  passed_count (l ++ m) = (passed_count l + passed_count m)%Z.
Proof.
  unfold passed_count. rewrite filter_app, length_app. lia.
Qed.

Lemma passed_count_nonneg (l : list Pipe.t) : (0 <= passed_count l)%Z.
Proof. unfold passed_count. lia. Qed.

Lemma passed_count_kept (speed : Q) (l : list Pipe.t) :
  (passed_count (filter on_screen (map (advance speed) l))
   <= passed_count l)%Z.
Proof.
  unfold passed_count. induction l as [|p l IH]; simpl; [lia|].
  destruct (on_screen (advance speed p)); simpl;
    destruct (Pipe.passed p); simpl; lia.
Qed.

Lemma passed_count_mark (bx : Q) (l : list Pipe.t) :
  passed_count (map (mark bx) l)
  = (passed_count l + Z.of_nat (List.length (filter (counts bx) l)))%Z.
Proof.
  unfold passed_count. induction l as [|p l IH]; [reflexivity|].
  cbn [map filter]. unfold mark at 1.
  destruct (counts bx p) eqn:Ec.
  - assert (Ep : Pipe.passed p = false).
    { unfold counts in Ec. destruct (Pipe.passed p); [discriminate Ec|easy]. }
    rewrite Ep. cbn [Pipe.passed Pipe.set_passed List.length]. lia.
  - destruct (Pipe.passed p); cbn [List.length]; lia.
Qed.

(** A tick adds to the score at least what it adds to the passed pipes of
    the track. *)
Lemma update_game_accounts (g : Game.t) (dt now : Q) (r : Rng.t) :
  let g' := fst (Game._update_game g dt now r) in
  (Game.score g - passed_count (Game.pipes g)
   <= Game.score g' - passed_count (Game.pipes g'))%Z.
Proof.
  cbv zeta. destruct (update_game_spec g dt now r) as [Hp Hs].
  rewrite Hp, Hs, passed_count_mark, update_pipes_cases. cbv zeta.
  destruct (physics_keeps g dt now) as [Hpp [_ [Hsp _]]].
  rewrite Hpp, Hsp.
  pose proof (passed_count_kept (Game.PIPE_SPEED g) (Game.pipes g)) as Hk.
  destruct (_ || _).
  - rewrite passed_count_app.
    change (passed_count [Pipe.make _ _]) with 0%Z. lia.
  - lia.
Qed.

(** X9.  In every state of every session the score is at least the
    number of pipes of the track that are marked passed (the rest of it
    stands for passed pipes that have left the track), and so never
    negative. *)
Theorem score_covers_passed_pipes (evs : list Session.Event) (r0 : Rng.t) :
  let g := fst (Session.run (Game.init, r0) evs) in
  (0 <= passed_count (Game.pipes g) <= Game.score g)%Z.
Proof.
  cbv zeta. split; [apply passed_count_nonneg|].
  unfold Session.run.
  assert (H : (passed_count (Game.pipes (fst (Game.init, r0)))
               <= Game.score (fst (Game.init, r0)))%Z) by (cbn; lia).
  revert H. generalize (Game.init, r0).
  induction evs as [|e evs IH]; intros st H; simpl; [exact H|].
  apply IH. destruct st as [g r]. cbn [fst Session.step] in *.
  assert (Hreset : forall now,
             (passed_count (Game.pipes (fst (Game.reset_game g now r)))
              <= Game.score (fst (Game.reset_game g now r)))%Z).
  { intro now. destruct (reset_pipes g now r) as [a [b [c [_ ->]]]].
    cbn. lia. }
  destruct e; cbn [fst]; try exact H.
  - unfold Game.game_loop_iteration.
    destruct (Game.is_running g); [|exact H].
    destruct (negb _ && negb _); [|exact H].
    pose proof (update_game_accounts g delta_time now r) as Ha.
    cbv zeta in Ha. lia.
  - unfold Game.on_breathing_input.
    repeat match goal with
    | |- context [if ?c then _ else _] => destruct c
    end; exact H.
  - unfold Game.start_game. destruct (Game.is_running g); [exact H|].
    specialize (Hreset now).
    destruct (Game.reset_game g now r) as [g' r']. exact Hreset.
  - apply Hreset.
Qed.

Lemma paused_or_over_is_frozen_witness :
  let st := (Game.pause_game (fst (Game.start_game Game.init 0 (fun _ => 0%Z))),
             fun _ : nat => 0%Z) in
  Session.run st [Session.Tick 0.02 1;
                  Session.Breath "inhale" (PyFloat.Fin 200) 1;
                  Session.Tick 0.02 2]
  = st.
Proof.
  apply (paused_or_over_is_frozen
           (Game.pause_game (fst (Game.start_game Game.init 0 (fun _ => 0%Z))),
            fun _ : nat => 0%Z)).
  - left. reflexivity.
  - reflexivity.
Defined.

(** ** The pace of the game loop *)

Lemma frame_time_pos : 0 < Game.frame_time.
Proof. reflexivity. Qed.

Lemma game_loop_pass_last_time (cb : bool) (g : Game.t)
  (last_time current_time now : Q) (r : Rng.t) :
  snd (fst (fst (Game._game_loop_pass cb g last_time current_time now r)))
  = if Qle_bool Game.frame_time (current_time - last_time)
    then current_time else last_time.
Proof.
  unfold Game._game_loop_pass. cbv zeta.
  destruct (Qle_bool Game.frame_time (current_time - last_time));
    [|reflexivity].
  destruct (negb _ && negb _); [|reflexivity].
  destruct (Game._update_game _ _ _ _); reflexivity.
Qed.

Lemma game_loop_frames (cb : bool) (passes : list (Q * Q))
  (g : Game.t) (last_time : Q) (r : Rng.t) :
  let frames := snd (Game._game_loop cb g last_time r passes) in
  Forall (fun t => Game.frame_time <= t - last_time) frames
  /\ ForallOrdPairs (fun t t' => Game.frame_time <= t' - t) frames.
Proof.
  revert g last_time r.
  induction passes as [|[current_time now] passes IH]; intros g last_time r.
  - split; constructor.
  - cbn [Game._game_loop].
    destruct (Game.is_running g); [|split; constructor].
    pose proof (game_loop_pass_last_time cb g last_time current_time now r)
      as Hl.
    destruct (Game._game_loop_pass cb g last_time current_time now r)
      as [[[g1 l1] r1] out].
    cbn [fst snd] in Hl.
    specialize (IH g1 l1 r1).
    destruct (Game._game_loop cb g1 l1 r1 passes) as [[[g2 l2] r2] frames].
    cbn [snd] in *. destruct IH as [IH1 IH2].
    pose proof frame_time_pos as Hpos.
    destruct (Qle_bool Game.frame_time (current_time - last_time)) eqn:E;
      subst l1.
    + apply Qle_bool_iff in E. split.
      * constructor; [exact E|].
        eapply Forall_impl; [|exact IH1]. cbv beta. intros t H. lra.
      * constructor; assumption.
    + split; assumption.
Qed.

(** X10.  However often the loop polls the clock, the passes that run a
    frame are at least [frame_time] = 1/60 s apart, the first of them at
    least that long after the loop's starting time; and a pass that comes
    sooner changes neither the game nor the time of the last frame. *)
Theorem game_loop_is_paced
  (breathing_callback : bool) (g : Game.t) (last_time : Q) (r : Rng.t)
  (passes : list (Q * Q)) (current_time now : Q) :
  ForallOrdPairs (fun t t' => Game.frame_time <= t' - t)
    (last_time
     :: snd (Game._game_loop breathing_callback g last_time r passes))
  /\ (current_time - last_time < Game.frame_time ->
      Game._game_loop_pass breathing_callback g last_time current_time now r
      = (g, last_time, r, [])).
Proof.
  destruct (game_loop_frames breathing_callback passes g last_time r)
    as [H1 H2].
  split; [constructor; assumption|].
  intro H. unfold Game._game_loop_pass. cbv zeta.
  destruct (Qle_bool Game.frame_time (current_time - last_time)) eqn:E;
    [|reflexivity].
  apply Qle_bool_iff in E. lra.
Qed.

Lemma game_loop_is_paced_witness :
  let g := fst (Game.start_game Game.init 0 (fun _ => 0%Z)) in
  Game._game_loop_pass true g 0 0.01 0.01 (fun _ => 0%Z)
  = (g, 0, fun _ => 0%Z, []).
Proof.
  apply (proj2 (game_loop_is_paced true
                  (fst (Game.start_game Game.init 0 (fun _ => 0%Z)))
                  0 (fun _ => 0%Z) [] 0.01 0.01)).
  q_decide.
Defined.

(** * Further properties of the detector *)

(** ** The volume history and the samples the pipeline collects *)

Lemma history_append_length (h : list Q) (v : Q) :
  List.length (Detector.history_append h v)
  = Nat.min (S (List.length h)) 20.
Proof.
  unfold Detector.history_append. rewrite length_skipn, length_app.
  simpl. lia.
Qed.

Lemma history_append_last (h : list Q) (v : Q) :
  exists h', Detector.history_append h v = h' ++ [v].
Proof.
  unfold Detector.history_append.
  destruct (Nat.le_gt_cases (List.length (h ++ [v]) - 20) (List.length h))
    as [H|H].
  - rewrite skipn_app.
    replace (List.length (h ++ [v]) - 20 - List.length h)%nat with 0%nat
      by lia.
    exists (skipn (List.length (h ++ [v]) - 20) h). reflexivity.
  - rewrite length_app in H. simpl in H. lia.
Qed.

Lemma qred_nonneg (q : Q) : 0 <= q -> 0 <= Qred q.
Proof. intro H. pose proof (Qred_correct q) as E. lra. Qed.

Lemma sum_nonneg (l : list Q) :
  Forall (fun q => 0 <= q) l -> 0 <= Np.sum l.
Proof.
  unfold Np.sum. induction 1 as [|x l Hx Hl IH]; cbn [fold_right]; [lra|].
  apply qred_nonneg. lra.
Qed.

Lemma mean_nonneg (l : list Q) :
  Forall (fun q => 0 <= q) l -> 0 <= Np.mean l.
Proof.
  intro H. unfold Np.mean. apply qred_nonneg. unfold Qdiv.
  apply Qmult_le_0_compat; [apply sum_nonneg, H|].
  apply Qinv_le_0_compat. unfold Np.len.
  change 0 with (inject_Z 0). rewrite <- Zle_Qle. lia.
Qed.

Lemma skipn_nonneg (n : nat) (l : list Q) :
  Forall (fun q => 0 <= q) l -> Forall (fun q => 0 <= q) (skipn n l).
Proof.
  revert l. induction n as [|n IH]; intros l H; [exact H|].
  destruct H as [|x l Hx Hl]; [constructor|]. apply IH, Hl.
Qed.

(** Smoothing a non-negative volume against a non-negative history gives
    a non-negative value. *)
Lemma apply_smoothing_nonneg (d : Detector.t) (v : Q) :
  Forall (fun q => 0 <= q) (Detector.volume_history d) -> 0 <= v ->
  0 <= Detector._apply_smoothing d v.
Proof.
  intros Hh Hv. unfold Detector._apply_smoothing.
  destruct (_ <? 3)%nat; [exact Hv|].
  apply mean_nonneg, Forall_app. split; [apply skipn_nonneg, Hh|].
  constructor; [exact Hv|constructor].
Qed.

Lemma valid_volumes_app (l m : list PyFloat.t) :
  Detector.valid_volumes (l ++ m)
  = Detector.valid_volumes l ++ Detector.valid_volumes m.
Proof.
  induction l as [|v l IH]; simpl; [reflexivity|].
  destruct v as [q| | |]; try exact IH.
  destruct (_ && _); simpl; rewrite IH; reflexivity.
Qed.

Lemma auto_calibrate_keeps (d : Detector.t) :
  let d' := Detector._auto_calibrate d in
  Detector.volume_history d' = Detector.volume_history d
  /\ Detector.sensitivity d' = Detector.sensitivity d
  /\ Detector.breathing_state d' = Detector.breathing_state d
  /\ Detector.last_state_change d' = Detector.last_state_change d
  /\ Detector.callback d' = Detector.callback d.
Proof.
  unfold Detector._auto_calibrate.
  repeat match goal with
  | |- context [if ?c then _ else _] => destruct c
  end; repeat split.
Qed.

Lemma detect_breathing_keeps (d : Detector.t) (v : PyFloat.t) (now : Q) :
  let d' := fst (Detector._detect_breathing d v now) in
  Detector.volume_history d' = Detector.volume_history d
  /\ Detector.calibration_samples d' = Detector.calibration_samples d
  /\ Detector.sensitivity d' = Detector.sensitivity d
  /\ Detector.baseline_volume d' = Detector.baseline_volume d
  /\ Detector.inhale_threshold d' = Detector.inhale_threshold d
  /\ Detector.exhale_threshold d' = Detector.exhale_threshold d
  /\ Detector.callback d' = Detector.callback d.
Proof.
  unfold Detector._detect_breathing.
  repeat match goal with
  | |- context [if ?c then _ else _] => destruct c
  end; repeat split.
Qed.

Lemma audio_callback_history (d : Detector.t) (volume now : Q) :
  Detector.is_running d = true ->
  Detector.volume_history (fst (Detector._audio_callback d volume now))
  = Detector.history_append (Detector.volume_history d) (filtered d volume).
Proof.
  intro Hrun. unfold Detector._audio_callback. rewrite Hrun. cbn [negb].
  fold (filtered d volume). cbv zeta.
  set (d1 := Detector.set_volume_history d _).
  destruct (Detector.is_calibrated d1).
  - rewrite (proj1 (detect_breathing_keeps d1 _ now)). reflexivity.
  - cbn [fst]. unfold Detector._collect_calibration_data. cbv zeta.
    destruct (100 <=? _)%nat;
      [rewrite (proj1 (auto_calibrate_keeps _))|]; reflexivity.
Qed.

Lemma audio_callback_idle (d : Detector.t) (volume now : Q) :
  Detector.is_running d = false ->
  Detector._audio_callback d volume now = (d, []).
Proof.
  intro H. unfold Detector._audio_callback. rewrite H. reflexivity.
Qed.

Lemma audio_callback_clean (d : Detector.t) (volume now : Q) :
  0 <= volume -> clean d ->
  clean (fst (Detector._audio_callback d volume now)).
Proof.
  intros Hv [Hs Hh].
  destruct (Detector.is_running d) eqn:Hrun;
    [|rewrite audio_callback_idle by exact Hrun; split; assumption].
  assert (Hf : 0 <= filtered d volume).
  { unfold filtered. destruct (0 <? _)%nat; [|exact Hv].
    apply apply_smoothing_nonneg; assumption. }
  split.
  - unfold Detector._audio_callback. rewrite Hrun. cbn [negb].
    fold (filtered d volume). cbv zeta.
    set (d1 := Detector.set_volume_history d _).
    assert (Hs1 : List.length
                    (Detector.valid_volumes (Detector.calibration_samples d1))
                  = List.length (Detector.calibration_samples d1))
      by exact Hs.
    clearbody d1.
    destruct (Detector.is_calibrated d1).
    + rewrite (proj1 (proj2 (detect_breathing_keeps d1 _ now))). exact Hs1.
    + cbn [fst]. unfold Detector._collect_calibration_data. cbv zeta.
      assert (E : List.length
                    (Detector.valid_volumes
                       (Detector.calibration_samples d1
                        ++ [PyFloat.Fin (filtered d volume)]))
                  = List.length
                      (Detector.calibration_samples d1
                       ++ [PyFloat.Fin (filtered d volume)])).
      { rewrite valid_volumes_app, !length_app, Hs1. f_equal.
        cbn. apply Qle_bool_iff in Hf. rewrite Hf. reflexivity. }
      destruct (100 <=? _)%nat;
        [rewrite auto_calibrate_samples|]; exact E.
  - rewrite audio_callback_history by exact Hrun.
    unfold Detector.history_append.
    apply skipn_nonneg, Forall_app. split; [exact Hh|].
    constructor; [exact Hf|constructor].
Qed.

(** X12.  Fed with volumes that are not negative (an RMS never is), a
    detector keeps a buffer in which every sample is finite and
    non-negative; so the calibration the hundredth sample triggers finds all
    hundred valid and never takes the fallback branch. *)
Theorem pipeline_samples_are_valid
  (d : Detector.t) (frames : list (Q * Q)) :
  clean d ->
  Forall (fun f => 0 <= fst f) frames ->
  clean (Detector.feed d frames)
  /\ ((100 <= List.length
               (Detector.calibration_samples (Detector.feed d frames)))%nat ->
      (List.length
         (Detector.valid_volumes
            (Detector.calibration_samples (Detector.feed d frames)))
       <? 10)%nat = false).
Proof.
  intros Hc Hf.
  assert (H : clean (Detector.feed d frames)).
  { unfold Detector.feed. revert d Hc.
    induction Hf as [|[v t] frames Hv Hf IH]; intros d Hc; simpl;
      [exact Hc|].
    apply IH, audio_callback_clean; assumption. }
  split; [exact H|].
  intro H100. destruct H as [-> _]. apply Nat.ltb_ge. lia.
Qed.

Lemma pipeline_samples_are_valid_witness :
  clean (Detector.feed (Detector.mk 1.0 true true [] "neutral" 0 0 0 0 []
                          false)
                       [(3, 1); (0, 2); (12, 3)]).
Proof.
  apply (pipeline_samples_are_valid
           (Detector.mk 1.0 true true [] "neutral" 0 0 0 0 [] false)
           [(3, 1); (0, 2); (12, 3)]).
  - split; [reflexivity|constructor].
  - repeat constructor; cbn; q_decide.
Defined.

(** ** One audio frame, by the detector's mode *)

Lemma audio_callback_collects (d : Detector.t) (volume now : Q) :
  Detector.is_running d = true -> Detector.is_calibrated d = false ->
  Detector._audio_callback d volume now
  = (Detector._collect_calibration_data
       (Detector.set_volume_history d
          (Detector.history_append (Detector.volume_history d)
             (filtered d volume)))
       (PyFloat.Fin (filtered d volume)), []).
Proof.
  intros Hrun Hc. unfold Detector._audio_callback. rewrite Hrun. cbn [negb].
  fold (filtered d volume). cbv zeta.
  cbn [Detector.is_calibrated Detector.set_volume_history]. rewrite Hc.
  reflexivity.
Qed.

Lemma audio_callback_detects (d : Detector.t) (volume now : Q) :
  Detector.is_running d = true -> Detector.is_calibrated d = true ->
  Detector._audio_callback d volume now
  = Detector._detect_breathing
      (Detector.set_volume_history d
         (Detector.history_append (Detector.volume_history d)
            (filtered d volume)))
      (PyFloat.Fin (filtered d volume)) now.
Proof.
  intros Hrun Hc. unfold Detector._audio_callback. rewrite Hrun. cbn [negb].
  fold (filtered d volume). cbv zeta.
  cbn [Detector.is_calibrated Detector.set_volume_history]. rewrite Hc.
  reflexivity.
Qed.

(** ** The thresholds as a function of the buffer and the sensitivity *)

Lemma baseline_spread_pos (valid : list Q) :
  Forall (fun q => 0 <= q) valid ->
  0 < baseline_of valid /\ 0 < spread_of valid.
Proof.
  intro H. unfold spread_of, baseline_of.
  pose proof (median_nonneg valid H) as Hmed.
  pose proof (std_nonneg valid) as Hstd.
  destruct (Qeq_bool (Np.median valid) 0 || Qeq_bool (Np.std valid) 0) eqn:E.
  - pose proof (max_lower 100.0 (Np.mean valid)) as [H1 _].
    pose proof (max_lower 50.0 (Py.max 100.0 (Np.mean valid) * 0.5))
      as [H2 _].
    split; lra.
  - apply orb_false_iff in E as [E1 E2].
    apply Qeq_bool_neq in E1, E2. split; lra.
Qed.

Lemma auto_calibrate_sync (d : Detector.t) :
  (50 <= List.length (Detector.calibration_samples d))%nat ->
  (10 <= List.length
           (Detector.valid_volumes (Detector.calibration_samples d)))%nat ->
  in_sync (Detector._auto_calibrate d).
Proof.
  intros H50 H10. unfold in_sync. rewrite auto_calibrate_samples.
  rewrite (proj1 (proj2 (auto_calibrate_keeps d))).
  unfold Detector._auto_calibrate.
  apply Nat.ltb_ge in H50, H10. rewrite H50, H10.
  set (valid := Detector.valid_volumes (Detector.calibration_samples d)).
  unfold spread_of, baseline_of.
  cbn [Detector.baseline_volume Detector.set_baseline_volume].
  destruct (Qeq_bool (Np.median valid) 0 || Qeq_bool (Np.std valid) 0).
  - unfold inhale_from, exhale_from. cbn.
    destruct (Py.ltb _ _); repeat split; reflexivity.
  - unfold inhale_from, exhale_from. cbn.
    destruct (Py.ltb _ _); repeat split; reflexivity.
Qed.

Lemma clamp_mono (s1 s2 : Q) :
  s1 <= s2 ->
  Py.max 0.1 (Py.min 3.0 s1) <= Py.max 0.1 (Py.min 3.0 s2).
Proof.
  intro H. unfold Py.max, Py.min. py_split; lra.
Qed.

Lemma clamp_range (s : Q) :
  0.1 <= Py.max 0.1 (Py.min 3.0 s) <= 3.0.
Proof. unfold Py.max, Py.min. py_split; lra. Qed.

Lemma set_sensitivity_value (d : Detector.t) (s : Q) :
  Detector.sensitivity (Detector.set_sensitivity d s)
  = Py.max 0.1 (Py.min 3.0 s).
Proof.
  unfold Detector.set_sensitivity. cbv zeta.
  destruct (Detector.is_calibrated _); [|reflexivity].
  rewrite (proj1 (proj2 (auto_calibrate_keeps _))). reflexivity.
Qed.

Lemma set_sensitivity_sync (d : Detector.t) (s : Q) :
  Detector.is_calibrated d = true ->
  (50 <= List.length (Detector.calibration_samples d))%nat ->
  (10 <= List.length
           (Detector.valid_volumes (Detector.calibration_samples d)))%nat ->
  in_sync (Detector.set_sensitivity d s)
  /\ Detector.calibration_samples (Detector.set_sensitivity d s)
     = Detector.calibration_samples d.
Proof.
  intros Hc H50 H10. unfold Detector.set_sensitivity. cbv zeta.
  cbn [Detector.is_calibrated Detector.set_sensitivity_field]. rewrite Hc.
  split; [apply auto_calibrate_sync; [exact H50|exact H10]|].
  rewrite auto_calibrate_samples. reflexivity.
Qed.

(** ** The life of a detector *)

Lemma collect_keeps (d : Detector.t) (v : PyFloat.t) :
  let d' := Detector._collect_calibration_data d v in
  Detector.volume_history d' = Detector.volume_history d
  /\ Detector.sensitivity d' = Detector.sensitivity d
  /\ Detector.breathing_state d' = Detector.breathing_state d
  /\ Detector.last_state_change d' = Detector.last_state_change d
  /\ Detector.callback d' = Detector.callback d.
Proof.
  unfold Detector._collect_calibration_data. cbv zeta.
  destruct (100 <=? _)%nat; [|repeat split].
  apply (auto_calibrate_keeps
           (Detector.set_calibration_samples d
              (Detector.calibration_samples d ++ [v]))).
Qed.

Lemma audio_callback_sensitivity (d : Detector.t) (volume now : Q) :
  Detector.sensitivity (fst (Detector._audio_callback d volume now))
  = Detector.sensitivity d.
Proof.
  destruct (Detector.is_running d) eqn:Hrun;
    [|rewrite audio_callback_idle by exact Hrun; reflexivity].
  destruct (Detector.is_calibrated d) eqn:Hc.
  - rewrite audio_callback_detects by assumption.
    rewrite (proj1 (proj2 (proj2 (detect_breathing_keeps _ _ now)))).
    reflexivity.
  - rewrite audio_callback_collects by assumption. cbn [fst].
    rewrite (proj1 (proj2 (collect_keeps _ _))). reflexivity.
Qed.

(** The frame that completes the buffer sets the thresholds from it. *)
Lemma audio_callback_calibrating (d : Detector.t) (volume now : Q) :
  Detector.is_running d = true -> Detector.is_calibrated d = false ->
  0 <= volume -> clean d ->
  (100 <= S (List.length (Detector.calibration_samples d)))%nat ->
  in_sync (fst (Detector._audio_callback d volume now)).
Proof.
  intros Hrun Hc Hv Hcl H100.
  pose proof (audio_callback_clean d volume now Hv Hcl) as [Hval _].
  destruct (audio_callback_step d volume now Hrun) as [_ [_ Hu]].
  destruct (Hu Hc) as [HL _]. clear Hu.
  revert Hval HL. rewrite audio_callback_collects by assumption.
  cbn [fst]. unfold Detector._collect_calibration_data. cbv zeta.
  set (d2 := Detector.set_calibration_samples _ _).
  destruct (100 <=? List.length (Detector.calibration_samples d2))%nat eqn:E.
  - rewrite auto_calibrate_samples. intros Hval HL.
    apply auto_calibrate_sync; lia.
  - intros _ HL. apply Nat.leb_gt in E. lia.
Qed.

Lemma audio_callback_settled (d : Detector.t) (volume now : Q) :
  0 <= volume -> settled d ->
  settled (fst (Detector._audio_callback d volume now)).
Proof.
  intros Hv [Hcl [Hs [Hl [Hc Hsync]]]].
  pose proof (audio_callback_clean d volume now Hv Hcl) as Hcl'.
  pose proof (audio_callback_sensitivity d volume now) as Hs'.
  destruct (Detector.is_running d) eqn:Hrun;
    [|rewrite audio_callback_idle by exact Hrun;
      exact (conj Hcl (conj Hs (conj Hl (conj Hc Hsync))))].
  destruct (audio_callback_step d volume now Hrun) as [_ [Hk Hu]].
  split; [exact Hcl'|]. split; [rewrite Hs'; exact Hs|].
  destruct (Detector.is_calibrated d) eqn:Ec.
  - clear Hu Hcl' Hs'. specialize (Hk eq_refl). rewrite Hk.
    rewrite audio_callback_detects by assumption.
    set (d1 := Detector.set_volume_history d _).
    destruct (detect_breathing_keeps d1 (PyFloat.Fin (filtered d volume)) now)
      as [_ [K2 [K3 [K4 [K5 [K6 _]]]]]].
    unfold in_sync. rewrite K2, K3, K4, K5, K6.
    split; [exact Hl|]. split; [exact Hc|]. exact Hsync.
  - destruct (Hu eq_refl) as [HL HC]. rewrite HL, HC.
    symmetry in Hc. apply Nat.leb_gt in Hc.
    split; [lia|]. split; [reflexivity|].
    intro H. apply Nat.leb_le in H.
    apply audio_callback_calibrating; assumption.
Qed.

Lemma set_sensitivity_keeps (d : Detector.t) (s : Q) :
  let d' := Detector.set_sensitivity d s in
  Detector.volume_history d' = Detector.volume_history d
  /\ Detector.calibration_samples d' = Detector.calibration_samples d
  /\ (Detector.is_calibrated d = false ->
      d' = Detector.set_sensitivity_field d (Py.max 0.1 (Py.min 3.0 s))).
Proof.
  unfold Detector.set_sensitivity. cbv zeta.
  cbn [Detector.is_calibrated Detector.set_sensitivity_field].
  destruct (Detector.is_calibrated d).
  - rewrite auto_calibrate_samples.
    rewrite (proj1 (auto_calibrate_keeps _)).
    repeat split. intro H. discriminate H.
  - repeat split.
Qed.

Lemma step_settled (d : Detector.t) (e : Pipeline.Event) :
  nonneg_frame e -> settled d -> settled (Pipeline.step d e).
Proof.
  intros He H. destruct e as [opened| |volume now| |s]; cbn [Pipeline.step].
  - destruct opened; exact H.
  - exact H.
  - apply audio_callback_settled; assumption.
  - destruct H as [[_ Hh] [Hs _]].
    split; [split; [reflexivity|exact Hh]|]. split; [exact Hs|].
    split; [cbn; lia|]. split; [reflexivity|].
    intro E. discriminate E.
  - destruct H as [[Hv Hh] [Hs [Hl [Hc Hsync]]]].
    destruct (set_sensitivity_keeps d s) as [Kh [Ks Ku]].
    pose proof (clamp_range s) as Hr.
    split; [split; [rewrite Ks; exact Hv|rewrite Kh; exact Hh]|].
    split; [rewrite set_sensitivity_value; lra|].
    rewrite Ks. split; [exact Hl|].
    destruct (Detector.is_calibrated d) eqn:Ec.
    + symmetry in Hc. pose proof Hc as Hc'. apply Nat.leb_le in Hc'.
      assert (E : Detector.is_calibrated (Detector.set_sensitivity d s)
                  = true).
      { unfold Detector.set_sensitivity. cbv zeta.
        cbn [Detector.is_calibrated Detector.set_sensitivity_field].
        rewrite Ec. apply auto_calibrate_calibrated.
        cbn [Detector.calibration_samples Detector.set_sensitivity_field].
        lia. }
      rewrite E, Hc. split; [reflexivity|]. intros _.
      apply set_sensitivity_sync; [exact Ec|lia|lia].
    + rewrite (Ku eq_refl).
      cbn [Detector.is_calibrated Detector.set_sensitivity_field].
      rewrite Ec. split; [exact Hc|]. intro E. discriminate E.
Qed.

Lemma run_settled (evs : list Pipeline.Event) (d : Detector.t) :
  Forall nonneg_frame evs -> settled d -> settled (Pipeline.run d evs).
Proof.
  unfold Pipeline.run. intro H. revert d.
  induction H as [|e evs He _ IH]; intros d Hd; [exact Hd|].
  cbn [fold_left]. apply IH, step_settled; assumption.
Qed.

Lemma init_settled (callback : bool) (sensitivity now : Q) :
  0 <= sensitivity -> settled (Detector.init callback sensitivity now).
Proof.
  intro H. split; [split; [reflexivity|constructor]|].
  split; [exact H|]. split; [cbn; lia|]. split; [reflexivity|].
  intro E. discriminate E.
Qed.

(** X14.  Whatever happens to a detector created with a sensitivity that is
    not negative (stream opened or closed, audio frames of non-negative
    volume, recalibrations, sensitivity changes): its buffer never holds
    more than 100 samples, it is calibrated exactly when the buffer holds
    100, and then its baseline and thresholds are the ones a calibration run
    over that buffer gives at the current sensitivity, with
    [0 < baseline_volume < inhale_threshold]. *)
Theorem thresholds_follow_the_buffer
  (callback : bool) (sensitivity now : Q) (evs : list Pipeline.Event) :
  0 <= sensitivity -> Forall nonneg_frame evs ->
  let d := Pipeline.run (Detector.init callback sensitivity now) evs in
  (List.length (Detector.calibration_samples d) <= 100)%nat
  /\ Detector.is_calibrated d
     = (100 <=? List.length (Detector.calibration_samples d))%nat
  /\ (Detector.is_calibrated d = true ->
      in_sync d
      /\ 0 < Detector.baseline_volume d
      /\ Detector.baseline_volume d < Detector.inhale_threshold d).
Proof.
  intros Hs He d.
  destruct (run_settled evs _ He (init_settled callback sensitivity now Hs))
    as [_ [Hs' [Hl [Hc Hsync]]]].
  fold d in Hs', Hl, Hc, Hsync.
  split; [exact Hl|]. split; [exact Hc|].
  intro E. specialize (Hsync E). split; [exact Hsync|].
  destruct Hsync as [B [I _]]. cbv zeta in B, I. rewrite I, B.
  destruct (baseline_spread_pos
              (Detector.valid_volumes (Detector.calibration_samples d))
              (valid_volumes_nonneg _)) as [Hb Hsp].
  split; [exact Hb|].
  apply (thresholds_from _ _ _ Hb Hsp Hs').
Qed.

Lemma thresholds_follow_the_buffer_witness :
  let d := Pipeline.run (Detector.init true 1.0 0)
             [Pipeline.Open true; Pipeline.Frame 3 1;
              Pipeline.Sensitivity 2; Pipeline.Recalibrate;
              Pipeline.Frame 0 2; Pipeline.Close] in
  (List.length (Detector.calibration_samples d) <= 100)%nat
  /\ Detector.is_calibrated d
     = (100 <=? List.length (Detector.calibration_samples d))%nat
  /\ (Detector.is_calibrated d = true ->
      in_sync d
      /\ 0 < Detector.baseline_volume d
      /\ Detector.baseline_volume d < Detector.inhale_threshold d).
Proof.
  apply (thresholds_follow_the_buffer true 1.0 0
           [Pipeline.Open true; Pipeline.Frame 3 1;
            Pipeline.Sensitivity 2; Pipeline.Recalibrate;
            Pipeline.Frame 0 2; Pipeline.Close]).
  - q_decide.
  - repeat constructor; cbn; q_decide.
Defined.

(** ** What a run of frames reports *)

Lemma listen_feed (frames : list (Q * Q)) (d : Detector.t) :
  fst (Detector.listen d frames) = Detector.feed d frames.
Proof.
  unfold Detector.feed. revert d.
  induction frames as [|[volume now] frames IH]; intro d; [reflexivity|].
  cbn [Detector.listen fold_left fst snd].
  destruct (Detector._audio_callback d volume now) as [d1 calls1].
  specialize (IH d1). destruct (Detector.listen d1 frames) as [d2 calls2].
  exact IH.
Qed.

Lemma listen_collecting (frames : list (Q * Q)) (d : Detector.t) :
  Detector.is_running d = true -> Detector.is_calibrated d = false ->
  (List.length (Detector.calibration_samples d) < 100)%nat ->
  (List.length (Detector.calibration_samples d) + List.length frames
   <= 100)%nat ->
  let d' := fst (Detector.listen d frames) in
  snd (Detector.listen d frames) = []
  /\ Detector.breathing_state d' = Detector.breathing_state d
  /\ Detector.last_state_change d' = Detector.last_state_change d
  /\ List.length (Detector.calibration_samples d')
     = (List.length (Detector.calibration_samples d) + List.length frames)%nat
  /\ Detector.is_calibrated d'
     = (100 <=? List.length (Detector.calibration_samples d)
                + List.length frames)%nat.
Proof.
  revert d.
  induction frames as [|[volume now] frames IH]; intros d Hrun Hc Hlt Hle.
  - cbn [Detector.listen fst snd List.length]. rewrite Nat.add_0_r.
    cbv zeta. do 4 (split; [reflexivity|]).
    rewrite Hc. symmetry. apply Nat.leb_gt, Hlt.
  - cbn [List.length] in *. cbn [Detector.listen].
    destruct (audio_callback_step d volume now Hrun) as [Hr [_ Hu]].
    destruct (Hu Hc) as [HL HC]. clear Hu.
    assert (Hst : Detector.breathing_state
                    (fst (Detector._audio_callback d volume now))
                  = Detector.breathing_state d
                  /\ Detector.last_state_change
                       (fst (Detector._audio_callback d volume now))
                     = Detector.last_state_change d).
    { rewrite audio_callback_collects by assumption. cbn [fst].
      destruct (collect_keeps
                  (Detector.set_volume_history d
                     (Detector.history_append (Detector.volume_history d)
                        (filtered d volume)))
                  (PyFloat.Fin (filtered d volume)))
        as [_ [_ [K1 [K2 _]]]].
      split; [exact K1|exact K2]. }
    assert (Hcalls : snd (Detector._audio_callback d volume now) = [])
      by (rewrite audio_callback_collects by assumption; reflexivity).
    destruct (Detector._audio_callback d volume now) as [d1 calls1].
    cbn [fst snd] in *. subst calls1. destruct Hst as [S1 S2].
    destruct frames as [|f frames].
    + cbn [Detector.listen fst snd app List.length].
      rewrite S1, S2, HL, HC.
      repeat split; try reflexivity; try lia; f_equal; lia.
    + cbn [List.length] in *.
      assert (Hlt1 : (List.length (Detector.calibration_samples d1) < 100)%nat)
        by lia.
      assert (Hc1 : Detector.is_calibrated d1 = false)
        by (rewrite HC; apply Nat.leb_gt; lia).
      destruct (IH d1 Hr Hc1 Hlt1) as [I1 [I2 [I3 [I4 I5]]]];
        [cbn [List.length]; lia|].
      destruct (Detector.listen d1 (f :: frames)) as [d2 calls2].
      cbn [fst snd] in *. subst calls2.
      rewrite I2, I3, I4, I5, S1, S2, HL. cbn [List.length app].
      repeat split; try reflexivity; try lia; f_equal; lia.
Qed.

(** X15.  Recalibrating silences a running detector for the next hundred
    audio frames: over a run of at most 100 frames it makes no callback
    call and its breathing state does not move, every frame adds one sample
    to the emptied buffer, and it is calibrated again exactly when the
    hundredth frame has come in. *)
Theorem recalibration_is_silent (d : Detector.t) (frames : list (Q * Q)) :
  Detector.is_running d = true ->
  (List.length frames <= 100)%nat ->
  let d' := fst (Detector.listen (Detector.recalibrate d) frames) in
  snd (Detector.listen (Detector.recalibrate d) frames) = []
  /\ d' = Detector.feed (Detector.recalibrate d) frames
  /\ Detector.breathing_state d' = Detector.breathing_state d
  /\ List.length (Detector.calibration_samples d') = List.length frames
  /\ Detector.is_calibrated d' = (100 <=? List.length frames)%nat.
Proof.
  intros Hrun Hle d'.
  destruct (listen_collecting frames (Detector.recalibrate d))
    as [I1 [I2 [_ [I4 I5]]]]; try reflexivity.
  - exact Hrun.
  - cbn. lia.
  - cbn. lia.
  - fold d' in I2, I4, I5.
    split; [exact I1|]. split; [apply listen_feed|].
    split; [exact I2|]. split; [exact I4|exact I5].
Qed.

Lemma recalibration_is_silent_witness :
  let d := Detector.mk 1.0 true true [5; 6; 7] "inhale" 0 100 150 50 []
             true in
  let frames := [(500, 1); (2, 2); (900, 3)] in
  let d' := fst (Detector.listen (Detector.recalibrate d) frames) in
  snd (Detector.listen (Detector.recalibrate d) frames) = []
  /\ d' = Detector.feed (Detector.recalibrate d) frames
  /\ Detector.breathing_state d' = Detector.breathing_state d
  /\ List.length (Detector.calibration_samples d') = List.length frames
  /\ Detector.is_calibrated d' = (100 <=? List.length frames)%nat.
Proof.
  apply (recalibration_is_silent
           (Detector.mk 1.0 true true [5; 6; 7] "inhale" 0 100 150 50 []
              true)
           [(500, 1); (2, 2); (900, 3)]).
  - reflexivity.
  - cbn. lia.
Defined.

Lemma is_breath_label (s : string) :
  Detector.is_breath s = true -> s = "inhale"%string \/ s = "exhale"%string.
Proof.
  unfold Detector.is_breath. intro H. apply orb_true_iff in H.
  destruct H as [H|H]; apply String.eqb_eq in H; auto.
Qed.

Lemma target_state_label (d : Detector.t) (v : PyFloat.t) (now : Q) :
  is_label (Detector.breathing_state d) ->
  is_label (Detector.target_state d v now).
Proof.
  intro H. unfold Detector.target_state, is_label.
  repeat match goal with
  | |- context [if ?c then _ else _] => destruct c
  end; auto.
Qed.

(** The calls one audio frame makes, the callback it keeps and the state
    it leaves. *)
Lemma audio_callback_calls (d : Detector.t) (volume now : Q) :
  let r := Detector._audio_callback d volume now in
  (snd r = []
   \/ exists s, (s = "inhale"%string \/ s = "exhale"%string)
        /\ snd r = [(s, PyFloat.Fin (filtered d volume))]
        /\ Detector.breathing_state (fst r) = s
        /\ Detector.callback d = true
        /\ Detector.is_calibrated d = true
        /\ Detector.is_running d = true)
  /\ Detector.callback (fst r) = Detector.callback d
  /\ (is_label (Detector.breathing_state d) ->
      is_label (Detector.breathing_state (fst r))).
Proof.
  cbv zeta.
  destruct (Detector.is_running d) eqn:Hrun;
    [|rewrite audio_callback_idle by exact Hrun; cbn [fst snd]; auto].
  destruct (Detector.is_calibrated d) eqn:Hc.
  - rewrite audio_callback_detects by assumption.
    set (d1 := Detector.set_volume_history d _).
    set (v := PyFloat.Fin (filtered d volume)).
    destruct (detect_breathing_keeps d1 v now)
      as [_ [_ [_ [_ [_ [_ K]]]]]].
    split; [|split; [exact K|]].
    + destruct (detect_breathing_step d1 v now)
        as [[_ E]|[_ [_ [_ [_ E]]]]]; [left; exact E|].
      rewrite E.
      destruct (Detector.callback d1) eqn:Ecb; [|left; reflexivity].
      destruct (Detector.is_breath _) eqn:Eb; [|left; reflexivity].
      right. eexists. split; [apply is_breath_label, Eb|].
      repeat split. exact Ecb.
    + intro L.
      destruct (detect_breathing_step d1 v now)
        as [[E _]|[_ [E _]]]; rewrite E; [exact L|].
      apply target_state_label. exact L.
  - rewrite audio_callback_collects by assumption. cbn [fst snd].
    destruct (collect_keeps
                (Detector.set_volume_history d
                   (Detector.history_append (Detector.volume_history d)
                      (filtered d volume)))
                (PyFloat.Fin (filtered d volume)))
      as [_ [_ [K1 [_ K2]]]].
    split; [left; reflexivity|]. split; [exact K2|].
    rewrite K1. intro L. exact L.
Qed.

(** X16.  A frame makes at most one callback call, and only a running,
    calibrated detector with a callback makes one: it carries "inhale" or
    "exhale", the state just entered, and the smoothed volume rather than
    the frame's own.  Over a run of frames there are at most as many calls
    as frames, none without a callback, and the breathing state stays one
    of the three labels. *)
Theorem pipeline_calls_are_breaths
  (d : Detector.t) (volume now : Q) (frames : list (Q * Q)) :
  let r := Detector._audio_callback d volume now in
  let calls := snd (Detector.listen d frames) in
  (snd r = []
   \/ exists s, (s = "inhale"%string \/ s = "exhale"%string)
        /\ snd r = [(s, PyFloat.Fin (filtered d volume))]
        /\ Detector.breathing_state (fst r) = s
        /\ Detector.callback d = true
        /\ Detector.is_calibrated d = true
        /\ Detector.is_running d = true)
  /\ Forall (fun c => fst c = "inhale"%string \/ fst c = "exhale"%string)
            calls
  /\ (List.length calls <= List.length frames)%nat
  /\ (Detector.callback d = false -> calls = [])
  /\ (is_label (Detector.breathing_state d) ->
      is_label (Detector.breathing_state (fst (Detector.listen d frames)))).
Proof.
  cbv zeta. split; [apply audio_callback_calls|].
  clear volume now. revert d.
  induction frames as [|[volume now] frames IH]; intro d.
  - cbn. repeat split; auto.
  - cbn [Detector.listen List.length].
    destruct (audio_callback_calls d volume now) as [Hcalls [Hcb Hl]].
    cbv zeta in Hcalls, Hcb, Hl.
    destruct (Detector._audio_callback d volume now) as [d1 calls1].
    cbn [fst snd] in Hcalls, Hcb, Hl.
    destruct (IH d1) as [I1 [I2 [I3 I4]]].
    destruct (Detector.listen d1 frames) as [d2 calls2].
    cbn [fst snd] in *.
    destruct Hcalls as [->|[s [Hs [-> [_ [Hcb' _]]]]]].
    + cbn [app]. repeat split.
      * exact I1.
      * lia.
      * intro H. apply I3. rewrite Hcb. exact H.
      * intro H. apply I4, Hl, H.
    + cbn [app List.length]. repeat split.
      * constructor; [exact Hs|exact I1].
      * lia.
      * intro H. rewrite H in Hcb'. discriminate Hcb'.
      * intro H. apply I4, Hl, H.
Qed.

(** ** A calibration loaded from a file *)

Lemma auto_calibrate_short (d : Detector.t) :
  (List.length (Detector.calibration_samples d) < 50)%nat ->
  Detector._auto_calibrate d = d.
Proof.
  intro H. unfold Detector._auto_calibrate.
  apply Nat.ltb_lt in H. rewrite H. reflexivity.
Qed.

(** On a calibrated detector with fewer than 50 buffered samples, no event
    but a recalibration touches the calibration. *)
Lemma step_frozen (d : Detector.t) (e : Pipeline.Event) :
  Detector.is_calibrated d = true ->
  (List.length (Detector.calibration_samples d) < 50)%nat ->
  e <> Pipeline.Recalibrate ->
  let d' := Pipeline.step d e in
  Detector.is_calibrated d' = true
  /\ Detector.calibration_samples d' = Detector.calibration_samples d
  /\ Detector.baseline_volume d' = Detector.baseline_volume d
  /\ Detector.inhale_threshold d' = Detector.inhale_threshold d
  /\ Detector.exhale_threshold d' = Detector.exhale_threshold d.
Proof.
  intros Hc Hl He.
  destruct e as [opened| |volume now| |s]; cbn [Pipeline.step]; cbv zeta.
  - destruct opened; repeat split; exact Hc.
  - repeat split; exact Hc.
  - destruct (Detector.is_running d) eqn:Hrun;
      [|rewrite audio_callback_idle by exact Hrun; repeat split; exact Hc].
    rewrite audio_callback_detects by assumption.
    set (d1 := Detector.set_volume_history d _).
    destruct (detect_breathing_keeps d1 (PyFloat.Fin (filtered d volume)) now)
      as [_ [K2 [_ [K4 [K5 [K6 _]]]]]].
    destruct (detect_breathing_flags d1 (PyFloat.Fin (filtered d volume)) now)
      as [F _].
    rewrite F, K2, K4, K5, K6. repeat split. exact Hc.
  - exfalso. apply He. reflexivity.
  - unfold Detector.set_sensitivity. cbv zeta.
    cbn [Detector.is_calibrated Detector.set_sensitivity_field]. rewrite Hc.
    rewrite auto_calibrate_short by exact Hl.
    repeat split. exact Hc.
Qed.

Lemma run_frozen (evs : list Pipeline.Event) (d : Detector.t) :
  Detector.is_calibrated d = true ->
  (List.length (Detector.calibration_samples d) < 50)%nat ->
  Forall (fun e => e <> Pipeline.Recalibrate) evs ->
  let d' := Pipeline.run d evs in
  Detector.is_calibrated d' = true
  /\ Detector.calibration_samples d' = Detector.calibration_samples d
  /\ Detector.baseline_volume d' = Detector.baseline_volume d
  /\ Detector.inhale_threshold d' = Detector.inhale_threshold d
  /\ Detector.exhale_threshold d' = Detector.exhale_threshold d.
Proof.
  unfold Pipeline.run. intros Hc Hl H. revert d Hc Hl.
  induction H as [|e evs He _ IH]; intros d Hc Hl; [repeat split; exact Hc|].
  cbn [fold_left]. cbv zeta.
  destruct (step_frozen d e Hc Hl He) as [S1 [S2 [S3 [S4 S5]]]].
  destruct (IH (Pipeline.step d e) S1) as [I1 [I2 [I3 [I4 I5]]]];
    [rewrite S2; exact Hl|].
  rewrite I2, I3, I4, I5, S2, S3, S4, S5. repeat split. exact I1.
Qed.

(** X17.  A calibration loaded from a file into a detector that has
    buffered fewer than 50 samples is frozen: the detector counts as
    calibrated at once, and whatever follows short of a recalibration
    (frames, sensitivity changes, opening or closing the stream) leaves the
    baseline and both thresholds at the loaded values, a missing key read as
    0, and adds no sample to the buffer. *)
Theorem loaded_calibration_is_frozen
  (d : Detector.t) (file : Calibration.Data) (evs : list Pipeline.Event) :
  (List.length (Detector.calibration_samples d) < 50)%nat ->
  Forall (fun e => e <> Pipeline.Recalibrate) evs ->
  exists d1,
    Calibration.load_calibration (Some d) (Some file) = (Some d1, true)
    /\ let d2 := Pipeline.run d1 evs in
       Detector.is_calibrated d2 = true
       /\ Detector.baseline_volume d2
          = Calibration.get (Calibration.baseline_volume file) 0
       /\ Detector.inhale_threshold d2
          = Calibration.get (Calibration.inhale_threshold file) 0
       /\ Detector.exhale_threshold d2
          = Calibration.get (Calibration.exhale_threshold file) 0
       /\ Detector.calibration_samples d2 = Detector.calibration_samples d.
Proof.
  intros Hl He. eexists. split; [reflexivity|]. cbv zeta.
  match goal with
  | |- context [Pipeline.run ?d1 evs] =>
      destruct (run_frozen evs d1 eq_refl Hl He) as [I1 [I2 [I3 [I4 I5]]]]
  end.
  rewrite I2, I3, I4, I5. repeat split. exact I1.
Qed.

Lemma loaded_calibration_is_frozen_witness :
  exists d1,
    Calibration.load_calibration (Some (Detector.init true 1.0 0))
      (Some (Calibration.mkData (Some 100) (Some 150) (Some 50) None))
    = (Some d1, true)
    /\ let d2 := Pipeline.run d1
                   [Pipeline.Sensitivity 3; Pipeline.Open true;
                    Pipeline.Frame 200 1] in
       Detector.is_calibrated d2 = true
       /\ Detector.baseline_volume d2
          = Calibration.get
              (Calibration.baseline_volume
                 (Calibration.mkData (Some 100) (Some 150) (Some 50) None)) 0
       /\ Detector.inhale_threshold d2
          = Calibration.get
              (Calibration.inhale_threshold
                 (Calibration.mkData (Some 100) (Some 150) (Some 50) None)) 0
       /\ Detector.exhale_threshold d2
          = Calibration.get
              (Calibration.exhale_threshold
                 (Calibration.mkData (Some 100) (Some 150) (Some 50) None)) 0
       /\ Detector.calibration_samples d2
          = Detector.calibration_samples (Detector.init true 1.0 0).
Proof.
  apply (loaded_calibration_is_frozen (Detector.init true 1.0 0)
           (Calibration.mkData (Some 100) (Some 150) (Some 50) None)
           [Pipeline.Sensitivity 3; Pipeline.Open true;
            Pipeline.Frame 200 1]).
  - cbn. lia.
  - repeat constructor; discriminate.
Defined.

(** ** The window of the volume history *)

Lemma history_append_spec (h : list Q) (v : Q) :
  Detector.history_append h v = skipn (S (List.length h) - 20) (h ++ [v])
  /\ ((List.length h < 20)%nat -> Detector.history_append h v = h ++ [v])
  /\ ((List.length h = 20)%nat ->
      Detector.history_append h v = tl h ++ [v]).
Proof.
  unfold Detector.history_append. cbv zeta.
  rewrite length_app. cbn [List.length]. rewrite Nat.add_1_r.
  split; [reflexivity|]. split; intro H.
  - replace (S (List.length h) - 20)%nat with 0%nat by lia. reflexivity.
  - rewrite H. destruct h as [|a h]; [discriminate H|]. reflexivity.
Qed.

Lemma step_history (d : Detector.t) (e : Pipeline.Event) :
  (List.length (Detector.volume_history d) <= 20)%nat ->
  (List.length (Detector.volume_history (Pipeline.step d e)) <= 20)%nat.
Proof.
  intro H. destruct e as [opened| |volume now| |s]; cbn [Pipeline.step].
  - destruct opened; exact H.
  - exact H.
  - destruct (Detector.is_running d) eqn:Hrun.
    + rewrite audio_callback_history by exact Hrun.
      rewrite history_append_length. lia.
    + rewrite audio_callback_idle by exact Hrun. exact H.
  - exact H.
  - rewrite (proj1 (set_sensitivity_keeps d s)). exact H.
Qed.

Lemma run_history (evs : list Pipeline.Event) (d : Detector.t) :
  (List.length (Detector.volume_history d) <= 20)%nat ->
  (List.length (Detector.volume_history (Pipeline.run d evs)) <= 20)%nat.
Proof.
  unfold Pipeline.run. revert d.
  induction evs as [|e evs IH]; intros d H; [exact H|].
  cbn [fold_left]. apply IH, step_history, H.
Qed.

(** X11.  The volume history is a window on the last 20 smoothed volumes.
    An audio frame handled by a running detector leaves the previous
    history with the frame's smoothed volume appended while there were
    fewer than 20 values, and the previous history without its oldest value
    with the smoothed volume appended once there were 20; a detector that
    is not running keeps its history.  So the history of a detector never
    exceeds 20 values, whatever happens to it from its creation on. *)
Theorem history_is_bounded
  (d : Detector.t) (volume now : Q) (frames : list (Q * Q))
  (evs : list Pipeline.Event) (callback : bool) (sensitivity start : Q) :
  let old := Detector.volume_history d in
  let h := Detector.volume_history
             (fst (Detector._audio_callback d volume now)) in
  (Detector.is_running d = true ->
   h = skipn (S (List.length old) - 20) (old ++ [filtered d volume])
   /\ ((List.length old < 20)%nat -> h = old ++ [filtered d volume])
   /\ ((List.length old = 20)%nat -> h = tl old ++ [filtered d volume])
   /\ List.length h = Nat.min (S (List.length old)) 20)
  /\ (Detector.is_running d = false -> h = old)
  /\ ((List.length old <= 20)%nat ->
      (List.length (Detector.volume_history (Detector.feed d frames))
       <= 20)%nat
      /\ (List.length (Detector.volume_history (Pipeline.run d evs))
          <= 20)%nat)
  /\ (List.length
        (Detector.volume_history
           (Pipeline.run (Detector.init callback sensitivity start) evs))
      <= 20)%nat.
Proof.
  cbv zeta. split; [|split; [|split]].
  - intro Hrun. rewrite audio_callback_history by exact Hrun.
    destruct (history_append_spec (Detector.volume_history d)
                (filtered d volume)) as [H1 [H2 H3]].
    split; [exact H1|]. split; [exact H2|]. split; [exact H3|].
    apply history_append_length.
  - intro Hrun. rewrite audio_callback_idle by exact Hrun. reflexivity.
  - intro H. split; [|apply run_history, H].
    unfold Detector.feed. revert d H.
    induction frames as [|[v t] frames IH]; intros d H; simpl; [exact H|].
    apply IH.
    destruct (Detector.is_running d) eqn:Hrun.
    + rewrite audio_callback_history by exact Hrun.
      rewrite history_append_length. lia.
    + rewrite audio_callback_idle by exact Hrun. exact H.
  - apply run_history. cbn. lia.
Qed.

(** A full window: the frame drops the oldest value, 1, and appends the
    mean of 18, 19, 20 and the frame's own 23. *)
Lemma history_is_bounded_witness :
  let d := Detector.mk 1.0 true true
             (map (fun n => inject_Z (Z.of_nat n)) (seq 1 20))
             "neutral" 0 100 150 50 [] true in
  Detector.volume_history (fst (Detector._audio_callback d 23 1))
  = tl (Detector.volume_history d) ++ [filtered d 23]
  /\ filtered d 23 == 20.
Proof.
  split; [|vm_compute; reflexivity].
  refine (proj1 (proj2 (proj2
            (proj1 (history_is_bounded
                      (Detector.mk 1.0 true true
                         (map (fun n => inject_Z (Z.of_nat n)) (seq 1 20))
                         "neutral" 0 100 150 50 [] true)
                      23 1 [] [] true 1 0) eq_refl))) eq_refl).
Defined.

(** ** The sensitivity as a threshold multiplier *)

(** A larger multiplier never lowers the inhale threshold. *)
Lemma inhale_from_mono (b s m1 m2 : Q) :
  0 < b -> 0 < s -> 0 <= m1 -> m1 <= m2 ->
  inhale_from b s m1 <= inhale_from b s m2.
Proof.
  intros Hb Hs Hm1 Hm.
  assert (Hp1 : 0 <= s * m1) by (apply Qmult_le_0_compat; lra).
  assert (Hp : s * m1 <= s * m2) by (apply Qmult_le_l; assumption).
  unfold inhale_from. cbv zeta.
  set (p1 := s * m1) in *. set (p2 := s * m2) in *. clearbody p1 p2.
  unfold Py.max, Py.abs. rewrite !half.
  py_split; lra.
Qed.

Lemma clamp_fixed (s : Q) :
  0.1 <= s <= 3.0 -> Py.max 0.1 (Py.min 3.0 s) == s.
Proof.
  intros [H1 H2]. unfold Py.max, Py.min. py_split; lra.
Qed.

(** X13.  [set_sensitivity] keeps the sensitivity within [[0.1, 3.0]],
    whatever it is given, and leaves a value of that range as it is; on a
    detector that is not calibrated it changes nothing else.  On a
    calibrated detector whose buffer holds at least 50 samples, 10 of them
    valid, the sensitivity is a threshold multiplier: a larger setting
    leaves the baseline alone and never lowers the inhale threshold. *)
Theorem sensitivity_raises_the_inhale_threshold (d : Detector.t) (s s1 s2 : Q) :
  let d1 := Detector.set_sensitivity d s1 in
  let d2 := Detector.set_sensitivity d s2 in
  0.1 <= Detector.sensitivity (Detector.set_sensitivity d s) <= 3.0
  /\ (0.1 <= s <= 3.0 ->
      Detector.sensitivity (Detector.set_sensitivity d s) == s)
  /\ (s1 <= s2 -> Detector.sensitivity d1 <= Detector.sensitivity d2)
  /\ (Detector.is_calibrated d = false ->
      Detector.set_sensitivity d s
      = Detector.set_sensitivity_field d
          (Detector.sensitivity (Detector.set_sensitivity d s)))
  /\ (Detector.is_calibrated d = true ->
      (50 <= List.length (Detector.calibration_samples d))%nat ->
      (10 <= List.length
               (Detector.valid_volumes (Detector.calibration_samples d)))%nat ->
      s1 <= s2 ->
      Detector.baseline_volume d1 = Detector.baseline_volume d2
      /\ Detector.inhale_threshold d1 <= Detector.inhale_threshold d2).
Proof.
  cbv zeta. rewrite !set_sensitivity_value.
  split; [apply clamp_range|]. split; [apply clamp_fixed|].
  split; [apply clamp_mono|]. split.
  - intro Hc. apply (proj2 (proj2 (set_sensitivity_keeps d s))), Hc.
  - intros Hc H50 H10 Hs.
    destruct (set_sensitivity_sync d s1 Hc H50 H10) as [[B1 [I1 _]] S1].
    destruct (set_sensitivity_sync d s2 Hc H50 H10) as [[B2 [I2 _]] S2].
    cbv zeta in B1, I1, B2, I2.
    rewrite S1 in B1, I1. rewrite S2 in B2, I2.
    rewrite B1, B2, I1, I2, !set_sensitivity_value.
    split; [reflexivity|].
    destruct (baseline_spread_pos
                (Detector.valid_volumes (Detector.calibration_samples d))
                (valid_volumes_nonneg _)) as [Hb Hsp].
    pose proof (clamp_range s1) as R1.
    apply inhale_from_mono; [exact Hb|exact Hsp|lra|apply clamp_mono, Hs].
Qed.

(** At sensitivity 0.5 the thresholds of the steady detector are recentred
    to 180 and 120; at sensitivity 2 they are 270 and 70. *)
Lemma sensitivity_raises_the_inhale_threshold_witness :
  let d1 := Detector.set_sensitivity steady_detector 0.5 in
  let d2 := Detector.set_sensitivity steady_detector 2 in
  (Detector.baseline_volume d1 = Detector.baseline_volume d2
   /\ Detector.inhale_threshold d1 <= Detector.inhale_threshold d2)
  /\ Detector.inhale_threshold d1 == 180
  /\ Detector.inhale_threshold d2 == 270.
Proof.
  split; [|vm_compute; split; reflexivity].
  apply (proj2 (proj2 (proj2 (proj2
           (sensitivity_raises_the_inhale_threshold steady_detector 1 0.5 2))))).
  - reflexivity.
  - vm_compute. repeat constructor.
  - vm_compute. repeat constructor.
  - q_decide.
Defined.
